(** * Credit-analysis pipeline: a shallow embedding of the backend services

    The development follows the JavaScript sources of the backend:

    - [services/documentProcessor.js]  (class [DocumentProcessor])
    - [services/ollamaService.js]      (class [OllamaService])
    - [services/creditAnalyzer.js]     (class [CreditAnalyzer])
    - [server.js]                      (the [/api/analyze] handler)

    Modelling conventions.

    - A JavaScript exception is a value [Throw message] of the result type
      [Exc]; [try { .. } catch (e) { .. }] is [try_catch].
    - Everything the code obtains from outside the process (the file system,
      the PDF library, the inference backend, the clock) is a field of an
      environment record; a function that talks to the outside world takes
      the environment and threads an event log.
    - JavaScript numbers are modelled by exact rationals ([Q]), extended with
      [NaN] where the code can produce it (the ratio of two zero lengths).
      The quantities computed by the code are sums and products of ratios of
      array lengths with integer constants; the rounding of binary64
      arithmetic is not modelled, and the fallback score and rating are
      checked against the binary64 computation for batches of up to 40
      documents at the end of the development.
    - Strings are [string], the sequence of bytes of the UTF-8 encoding of
      the JavaScript string; a template literal is a concatenation, a number
      in a template literal is its decimal numeral. *)

From Stdlib Require Import ZArith QArith Qround Qminmax String Ascii List Lia Bool.
From Stdlib Require Import DecimalString Sorted.
From Stdlib Require Import PrimFloat FloatOps SpecFloat Uint63.
From Equations Require Import Equations.
Import ListNotations.

Close Scope Q_scope.
Open Scope string_scope.

(** ** JavaScript runtime notions *)

(** Completion of a computation: a value, or a thrown [Error] with its
    [message]. *)
Inductive Exc (A : Type) : Type :=
| Ok (value : A)
| Throw (message : string).
Arguments Ok {A} value.
Arguments Throw {A} message.

Definition bind {A B : Type} (c : Exc A) (k : A -> Exc B) : Exc B :=
  match c with
  | Ok a => k a
  | Throw m => Throw m
  end.

Definition try_catch {A : Type} (body : Exc A) (handler : string -> Exc A) : Exc A :=
  match body with
  | Ok a => Ok a
  | Throw m => handler m
  end.

Notation "'let*' x ':=' c 'in' k" := (bind c (fun x => k))
  (at level 10, x name, c at level 100, k at level 200).

Definition succeeded {A : Type} (c : Exc A) : bool :=
  match c with
  | Ok _ => true
  | Throw _ => false
  end.

(** A number inside a template literal. *)
Definition show (n : nat) : string := NilEmpty.string_of_uint (Nat.to_uint n).

Definition nl : string := String (ascii_of_nat 10) EmptyString.
Definition dq : string := String (ascii_of_nat 34) EmptyString.

(** The no-break space U+00A0. *)
Definition nbsp : string :=
  String (ascii_of_nat 194) (String (ascii_of_nat 160) EmptyString).

(** [Array.prototype.join]. *)
Fixpoint join (sep : string) (parts : list string) : string :=
  match parts with
  | [] => ""
  | [s] => s
  | s :: rest => s ++ sep ++ join sep rest
  end.

(** [path.join] on two segments that need no normalisation. *)
Definition path_join (dir name : string) : string := dir ++ "/" ++ name.

(** JavaScript numbers: a rational, or [NaN]. *)
Inductive number : Type :=
| NaN
| Fin (q : Q).

(** [Math.max], [Math.min], [Math.round], [>=] and [*] on [number]. *)
Definition Math_max (a b : number) : number :=
  match a, b with
  | Fin x, Fin y => Fin (if Qle_bool x y then y else x)
  | _, _ => NaN
  end.

Definition Math_min (a b : number) : number :=
  match a, b with
  | Fin x, Fin y => Fin (if Qle_bool x y then x else y)
  | _, _ => NaN
  end.

Definition Q_round (x : Q) : Z := Qfloor (x + (1 # 2))%Q.

Definition Math_round (a : number) : number :=
  match a with
  | Fin x => Fin (inject_Z (Q_round x))
  | NaN => NaN
  end.

Definition num_ge (a : number) (k : Q) : bool :=
  match a with
  | Fin x => Qle_bool k x
  | NaN => false
  end.

Definition num_add (a b : number) : number :=
  match a, b with
  | Fin x, Fin y => Fin (x + y)%Q
  | _, _ => NaN
  end.

Definition num_mul (a b : number) : number :=
  match a, b with
  | Fin x, Fin y => Fin (x * y)%Q
  | _, _ => NaN
  end.

Definition Q_of_nat (n : nat) : Q := inject_Z (Z.of_nat n).

(** The quotient of two array lengths, [a.length / b.length], where the
    first array is a sub-array of the second: [0 / 0] is [NaN]. *)
Definition length_ratio (part whole : nat) : number :=
  match whole with
  | O => NaN
  | S _ => Fin (Q_of_nat part / Q_of_nat whole)%Q
  end.

(** JSON values, as produced by [JSON.parse] and [response.json()], and the
    object literals the code builds. *)
#[local] Unset Elimination Schemes.
Inductive JValue : Type :=
| JUndefined
| JNull
| JBool (b : bool)
| JNum (n : number)
| JStr (s : string)
| JArr (items : list JValue)
| JObj (fields : list (string * JValue)).
#[local] Set Elimination Schemes.

(** ToBoolean. *)
Definition truthy (v : JValue) : bool :=
  match v with
  | JUndefined | JNull => false
  | JBool b => b
  | JNum NaN => false
  | JNum (Fin q) => negb (Qeq_bool q 0%Q)
  | JStr s => negb (String.eqb s "")
  | JArr _ | JObj _ => true
  end.

(** ToBoolean of an optional string property ([undefined] when absent). *)
Definition truthy_str (o : option string) : bool :=
  match o with
  | Some s => negb (String.eqb s "")
  | None => false
  end.

Fixpoint lookup (key : string) (fields : list (string * JValue)) : JValue :=
  match fields with
  | [] => JUndefined
  | (k, v) :: rest => if String.eqb k key then v else lookup key rest
  end.

(** Property read [v.key] for a key that no prototype defines: a
    [TypeError] on [undefined] and [null], [undefined] on primitives and
    arrays. *)
Definition get_prop (v : JValue) (key : string) : Exc JValue :=
  match v with
  | JUndefined => Throw ("Cannot read properties of undefined (reading '" ++ key ++ "')")
  | JNull => Throw ("Cannot read properties of null (reading '" ++ key ++ "')")
  | JObj fields => Ok (lookup key fields)
  | _ => Ok JUndefined
  end.

(** White space as matched by [\s] and removed by [trim]: the code points
    of the ECMAScript [WhiteSpace] and [LineTerminator] productions, in their
    UTF-8 encoding of one, two or three bytes.

    One byte: U+0009 to U+000D and U+0020. *)
Definition is_ws (c : ascii) : bool :=
  let n := N_of_ascii c in
  ((n =? 32) || ((9 <=? n) && (n <=? 13)))%N.

(** Two bytes: U+00A0 (C2 A0). *)
Definition is_ws2 (c1 c2 : ascii) : bool :=
  ((N_of_ascii c1 =? 194) && (N_of_ascii c2 =? 160))%N.

(** Three bytes: U+1680 (E1 9A 80), U+2000 to U+200A (E2 80 80 to E2 80 8A),
    U+2028, U+2029 and U+202F (E2 80 A8, E2 80 A9, E2 80 AF), U+205F
    (E2 81 9F), U+3000 (E3 80 80) and U+FEFF (EF BB BF). *)
Definition is_ws3 (c1 c2 c3 : ascii) : bool :=
  let a := N_of_ascii c1 in
  let b := N_of_ascii c2 in
  let c := N_of_ascii c3 in
  (((a =? 225) && (b =? 154) && (c =? 128))
   || ((a =? 226) && (b =? 128)
       && (((128 <=? c) && (c <=? 138)) || (c =? 168) || (c =? 169) || (c =? 175)))
   || ((a =? 226) && (b =? 129) && (c =? 159))
   || ((a =? 227) && (b =? 128) && (c =? 128))
   || ((a =? 239) && (b =? 187) && (c =? 191)))%N.

(** What follows the white-space character at the head of [s], if there is
    one. *)
Definition ws_head (s : string) : option string :=
  match s with
  | String c1 rest1 =>
      if is_ws c1 then Some rest1
      else match rest1 with
           | String c2 rest2 =>
               if is_ws2 c1 c2 then Some rest2
               else match rest2 with
                    | String c3 rest3 => if is_ws3 c1 c2 c3 then Some rest3 else None
                    | EmptyString => None
                    end
           | EmptyString => None
           end
  | EmptyString => None
  end.

Fixpoint trimStart (s : string) : string :=
  match s with
  | String c1 rest1 =>
      if is_ws c1 then trimStart rest1
      else match rest1 with
           | String c2 rest2 =>
               if is_ws2 c1 c2 then trimStart rest2
               else match rest2 with
                    | String c3 rest3 =>
                        if is_ws3 c1 c2 c3 then trimStart rest3 else s
                    | EmptyString => s
                    end
           | EmptyString => s
           end
  | EmptyString => s
  end.

(** [s] is a sequence of white-space characters. *)
Fixpoint all_ws (s : string) : bool :=
  match s with
  | String c1 rest1 =>
      if is_ws c1 then all_ws rest1
      else match rest1 with
           | String c2 rest2 =>
               if is_ws2 c1 c2 then all_ws rest2
               else match rest2 with
                    | String c3 rest3 => is_ws3 c1 c2 c3 && all_ws rest3
                    | EmptyString => false
                    end
           | EmptyString => false
           end
  | EmptyString => true
  end.

Fixpoint trimEnd (s : string) : string :=
  match s with
  | String c rest => if all_ws s then EmptyString else String c (trimEnd rest)
  | EmptyString => EmptyString
  end.

Definition trim (s : string) : string := trimEnd (trimStart s).

Definition startsWith (s pre : string) : bool := String.prefix pre s.

Fixpoint drop (n : nat) (s : string) : string :=
  match n, s with
  | S n', String _ rest => drop n' rest
  | _, _ => s
  end.

(** [s.replace(/<fence>\s*/, '')]: the leftmost occurrence of [fence] is
    removed together with the white space that follows it. *)
Fixpoint replace_fence_ws (fence s : string) : string :=
  if String.prefix fence s then trimStart (drop (String.length fence) s)
  else match s with
       | String c rest => String c (replace_fence_ws fence rest)
       | EmptyString => EmptyString
       end.

(** [s.replace(/```\s*$/, '')]: the leftmost position from which the input
    is a fence followed only by white space is cut off. *)
Fixpoint replace_fence_end (s : string) : string :=
  if String.prefix "```" s && all_ws (drop 3 s) then EmptyString
  else match s with
       | String c rest => String c (replace_fence_end rest)
       | EmptyString => EmptyString
       end.

(** ** services/documentProcessor.js *)

(** What the file system and the PDF library answer to the calls of the
    processor on one PDF. [Buffer] values are byte strings; [PdfDoc] is the
    document object of the PDF library. The file system can answer
    differently from one call to the next: [fs_readFile] is the answer to the
    read that opens [processPDF], and [fs_readFile_at k] and [fs_writeFile k]
    are the answers to the read and to the write of the probe of the [k]-th
    password of [handleEncryptedPDF] (counted from 0). [PDFDocument_load] takes
    the buffer and the [password] option handed to it. *)
Record PdfEnv (PdfDoc : Type) : Type := {
  fs_readFile : string -> Exc string;
  fs_readFile_at : nat -> string -> Exc string;
  PDFDocument_load : string -> string -> Exc PdfDoc;
  pdfDoc_save : PdfDoc -> Exc string;
  fs_writeFile : nat -> string -> string -> Exc unit
}.
Arguments fs_readFile {PdfDoc}.
Arguments fs_readFile_at {PdfDoc}.
Arguments PDFDocument_load {PdfDoc}.
Arguments pdfDoc_save {PdfDoc}.
Arguments fs_writeFile {PdfDoc}.

(** Observable steps of the probing. *)
Inductive PdfEvent : Type :=
| LoadWith (password : string)
| Written (path bytes : string).

Definition commonPasswords : list string :=
  [""; "password"; "123456"; "admin"; "user"].

Section DocumentProcessor.
Context {PdfDoc : Type}.
Variable env : PdfEnv PdfDoc.
Variable tempDir : string.

Definition unencryptedPath (documentId : string) : string :=
  path_join tempDir (documentId ++ "_unencrypted.pdf").

(** The body of the [try] inside the loop, for the password at position
    [probe] of the list. *)
Definition tryPassword (probe : nat) (filePath documentId password : string)
    (log : list PdfEvent) : Exc string * list PdfEvent :=
  match fs_readFile_at env probe filePath with
  | Throw m => (Throw m, log)
  | Ok pdfBuffer =>
      let log1 := (log ++ [LoadWith password])%list in
      match PDFDocument_load env pdfBuffer password with
      | Throw m => (Throw m, log1)
      | Ok pdfDoc =>
          match pdfDoc_save env pdfDoc with
          | Throw m => (Throw m, log1)
          | Ok unencryptedPdfBytes =>
              match fs_writeFile env probe (unencryptedPath documentId)
                      unencryptedPdfBytes with
              | Throw m => (Throw m, log1)
              | Ok _ =>
                  (Ok (unencryptedPath documentId),
                   (log1 ++ [Written (unencryptedPath documentId) unencryptedPdfBytes])%list)
              end
          end
      end
  end.

(** [for (const password of commonPasswords) { try {..return..} catch { continue } }]
    followed by the final [throw]; [probe] is the position of the first of
    [passwords] in the list. *)
Fixpoint probePasswords (probe : nat) (passwords : list string)
    (filePath documentId : string) (log : list PdfEvent)
    : Exc string * list PdfEvent :=
  match passwords with
  | [] => (Throw "Could not decrypt PDF - password protected", log)
  | password :: rest =>
      match tryPassword probe filePath documentId password log with
      | (Ok unencrypted, log') => (Ok unencrypted, log')
      | (Throw _, log') => probePasswords (S probe) rest filePath documentId log'
      end
  end.

(** The outer [try]/[catch] logs the error and rethrows it unchanged. *)
Definition handleEncryptedPDF (filePath documentId : string)
    (log : list PdfEvent) : Exc string * list PdfEvent :=
  match probePasswords 0 commonPasswords filePath documentId log with
  | (Ok p, log') => (Ok p, log')
  | (Throw m, log') => (Throw m, log')
  end.

End DocumentProcessor.

(** ** services/ollamaService.js *)

(** One result of [analyzeMultipleImages]: the object pushed in the [try]
    branch has [analysis] and no [error], the one pushed in the [catch]
    branch has [error] and no [analysis]. *)
Record PageAnalysisResult : Type := {
  page : nat;
  imagePath : string;
  analysis : option string;
  error : option string;
  success : bool
}.

(** One element of [extractedData], as pushed by [analyzeDocuments]. *)
Record DocumentAnalysis : Type := {
  documentId : string;
  documentName : string;
  documentType : string;
  doc_type : option string;
  pageCount : option nat;
  extractedInfo : string;
  pageAnalyses : option (list PageAnalysisResult);
  textAnalysis : bool;
  doc_error : option string
}.

(** What the environment does during one execution of the [try] body of
    [analyzeImage]. The reply body follows the generation endpoint's
    interface: an object whose [response], when present, is a string. *)
Inductive ImageAttempt : Type :=
| FileMissing
| ReadRejected (message : string)
| FetchRejected (message : string)
| HttpNotOk (status : nat) (statusText errorText : string)
| JsonRejected (message : string)
| Replied (response : option string).

(** What the environment does with the single request of
    [generateCreditAnalysis]: the [fetch] rejects, or it resolves to a
    response with its [ok] flag, status line and the outcome of
    [response.json()]. *)
Inductive FetchOutcome : Type :=
| Rejected (message : string)
| Response (ok : bool) (status : nat) (statusText : string) (json : Exc JValue).

(** Steps towards the outside world that the image analysis performs. *)
Inductive Event : Type :=
| Attempt (imagePath prompt : string)
| Sleep (ms : nat).

Record OllamaEnv : Type := {
  image_attempt : list Event -> string -> string -> ImageAttempt;
  generate : string -> FetchOutcome;
  JSON_parse : string -> Exc JValue;
  JSON_stringify : list DocumentAnalysis -> string;
  modelAvailable : bool;
  pull : Exc unit;
  toISOString_now : string
}.

Definition maxRetries : nat := 3.
Definition retryDelay : nat := 2000.

(** The [try] body of [analyzeImage]: the value it returns or the error it
    throws, given what the environment did. *)
Definition attemptBody (imagePath : string) (a : ImageAttempt) : Exc string :=
  match a with
  | FileMissing => Throw ("Image file not found: " ++ imagePath)
  | ReadRejected m => Throw m
  | FetchRejected m => Throw m
  | HttpNotOk status statusText errorText =>
      Throw ("Ollama API error: " ++ show status ++ " " ++ statusText ++ " - " ++ errorText)
  | JsonRejected m => Throw m
  | Replied response =>
      if negb (truthy_str response) then Throw "Empty response from Ollama"
      else match response with
           | Some r => Ok r
           | None => Throw "Empty response from Ollama"
           end
  end.

Section OllamaService.
Variable env : OllamaEnv.

Equations? analyzeImage (imagePath prompt : string) (retryCount : nat)
    (log : list Event) : Exc string * list Event
    by wf (maxRetries - retryCount) lt :=
  analyzeImage imagePath prompt retryCount log
    with attemptBody imagePath (image_attempt env log imagePath prompt) => {
    | Ok response := (Ok response, (log ++ [Attempt imagePath prompt])%list);
    | Throw message with lt_dec retryCount maxRetries => {
      | left retry :=
          analyzeImage imagePath prompt (S retryCount)
            (log ++ [Attempt imagePath prompt] ++ [Sleep retryDelay])%list;
      | right exhausted :=
          (Throw ("Failed to analyze image after " ++ show (maxRetries + 1)
                  ++ " attempts: " ++ message),
           (log ++ [Attempt imagePath prompt])%list) } }.
Proof. unfold maxRetries in retry. destruct retryCount as [|[|[|?]]]; lia. Qed.

Definition pagePrompt (prompt : string) (i total : nat) : string :=
  prompt ++ nl ++ nl ++ "This is page " ++ show (i + 1) ++ " of " ++ show total
  ++ ". Please analyze this page and extract relevant financial information. Be specific and detailed in your analysis.".

(** The [for] loop of [analyzeMultipleImages], from index [i] on; [total]
    is [imagePaths.length] and [rest] the paths from index [i]. *)
Fixpoint analyzePages (prompt : string) (total i : nat) (rest : list string)
    (results : list PageAnalysisResult) (log : list Event)
    : list PageAnalysisResult * list Event :=
  match rest with
  | [] => (results, log)
  | path :: rest' =>
      match analyzeImage path (pagePrompt prompt i total) 0 log with
      | (Ok result, log') =>
          analyzePages prompt total (S i) rest'
            (results ++ [{| page := i + 1; imagePath := path;
                            analysis := Some result; error := None;
                            success := true |}])%list log'
      | (Throw message, log') =>
          analyzePages prompt total (S i) rest'
            (results ++ [{| page := i + 1; imagePath := path;
                            analysis := None; error := Some message;
                            success := false |}])%list log'
      end
  end.

Definition analyzeMultipleImages (imagePaths : list string) (prompt : string)
    (log : list Event) : list PageAnalysisResult * list Event :=
  analyzePages prompt (List.length imagePaths) 0 imagePaths [] log.

End OllamaService.

(** *** The final report: [generateFallbackAnalysis] and [generateCreditAnalysis] *)

Definition financialTypes : list string :=
  ["profit-loss"; "balance-sheet"; "bank-statement"].

(** [Array.prototype.includes] on strings. *)
Definition includes (items : list string) (s : string) : bool :=
  existsb (String.eqb s) items.

Definition successfulAnalyses (extractedData : list DocumentAnalysis) : nat :=
  List.length (filter (fun doc => negb (truthy_str (doc_error doc))) extractedData).

Definition hasFinancialDocs (extractedData : list DocumentAnalysis) : bool :=
  existsb (fun doc => includes financialTypes (documentType doc)) extractedData.

Definition baseScore (extractedData : list DocumentAnalysis) : number :=
  if hasFinancialDocs extractedData then Fin (70 # 1)%Q else Fin (50 # 1)%Q.

Definition analysisBonus (extractedData : list DocumentAnalysis) : number :=
  num_mul (length_ratio (successfulAnalyses extractedData) (List.length extractedData))
          (Fin (20 # 1)%Q).

(** The local [score], before rounding. *)
Definition fallbackScore (extractedData : list DocumentAnalysis) : number :=
  Math_min (Fin (100 # 1)%Q)
    (Math_max (Fin (30 # 1)%Q)
       (num_add (baseScore extractedData) (analysisBonus extractedData))).

Definition fallbackRating (score : number) : string :=
  if num_ge score (80 # 1)%Q then "Excellent"
  else if num_ge score (70 # 1)%Q then "Good"
  else if num_ge score (60 # 1)%Q then "Fair"
  else "Poor".

Definition fallbackSummary (extractedData : list DocumentAnalysis) : string :=
  let score := fallbackScore extractedData in
  "Based on analysis of " ++ show (List.length extractedData) ++ " documents ("
  ++ show (successfulAnalyses extractedData)
  ++ " successfully processed), the credit profile shows "
  ++ (if num_ge score (70 # 1)%Q then "strong"
      else if num_ge score (60 # 1)%Q then "moderate" else "limited")
  ++ " financial indicators. "
  ++ (if hasFinancialDocs extractedData
      then "Financial statements were provided for comprehensive analysis."
      else "Additional financial statements would improve assessment accuracy.").

Definition generateFallbackAnalysis (extractedData : list DocumentAnalysis) : JValue :=
  let financial := hasFinancialDocs extractedData in
  let score := fallbackScore extractedData in
  JObj
    [ ("score", JNum (Math_round score));
      ("rating", JStr (fallbackRating score));
      ("summary", JStr (fallbackSummary extractedData));
      ("strengths", JArr
         [ JStr "Complete documentation provided for review";
           JStr "Organized approach to financial record keeping";
           JStr "Transparent submission of required documents";
           JStr (if financial then "Comprehensive financial statements included"
                 else "Willingness to provide documentation") ]);
      ("riskFactors", JArr
         [ JStr "Limited AI analysis due to technical constraints";
           JStr "Market volatility and economic uncertainty factors";
           JStr (if negb financial then "Missing key financial statements"
                 else "Need for more detailed financial trend analysis") ]);
      ("recommendations", JArr
         [ JStr "Maintain consistent and detailed financial reporting";
           JStr "Implement regular cash flow monitoring and forecasting";
           JStr "Diversify revenue streams to reduce business risk";
           JStr "Build emergency reserves covering 3-6 months of expenses";
           JStr (if financial
                 then "Continue providing comprehensive financial documentation"
                 else "Submit profit & loss statements and balance sheets for better assessment") ]);
      ("detailedAnalysis", JObj
         [ ("financialHealth", JNum (Math_round (num_mul score (Fin (9 # 10)%Q))));
           ("cashFlow", JNum (Math_round (num_mul score (Fin (8 # 10)%Q))));
           ("debtRatio", JNum (Math_round (num_mul score (Fin (85 # 100)%Q))));
           ("profitability", JNum (Math_round (num_mul score (Fin (75 # 100)%Q)))) ]) ].

(** The condition [!a.score || !a.rating || !a.summary]. *)
Definition invalidStructure (analysisResult : JValue) : Exc bool :=
  let* score := get_prop analysisResult "score" in
  if negb (truthy score) then Ok true
  else let* rating := get_prop analysisResult "rating" in
       if negb (truthy rating) then Ok true
       else let* summary := get_prop analysisResult "summary" in
            Ok (negb (truthy summary)).

(** [data.response.trim()]. *)
Definition response_trim (data : JValue) : Exc string :=
  let* response := get_prop data "response" in
  match response with
  | JStr s => Ok (trim s)
  | JUndefined => Throw "Cannot read properties of undefined (reading 'trim')"
  | JNull => Throw "Cannot read properties of null (reading 'trim')"
  | _ => Throw "data.response.trim is not a function"
  end.

(** Removal of a Markdown code fence around the reply. *)
Definition stripFences (trimmed : string) : string :=
  let clean1 :=
    if startsWith trimmed "```json"
    then replace_fence_end (replace_fence_ws "```json" trimmed)
    else trimmed in
  if startsWith clean1 "```"
  then replace_fence_end (replace_fence_ws "```" clean1)
  else clean1.

Definition creditPrompt (stringified : string) (documentTypes : list string) : string :=
  join nl
    [ "";
      "You are a financial analyst specializing in credit assessment. Based on the following extracted financial data from various documents, provide a comprehensive credit analysis.";
      "";
      "Document types analyzed: " ++ join ", " documentTypes;
      "";
      "Extracted financial data:";
      stringified;
      "";
      "Please provide a detailed credit analysis including:";
      "";
      "1. Credit Score (0-100) - Be realistic based on the actual data";
      "2. Credit Rating (Excellent/Good/Fair/Poor)";
      "3. Summary of financial health (2-3 sentences)";
      "4. Key strengths (at least 3 specific points)";
      "5. Risk factors (at least 3 specific concerns)";
      "6. Specific recommendations for improvement (at least 4 actionable items)";
      "7. Detailed analysis breakdown with scores 0-100:";
      "   - Financial Health";
      "   - Cash Flow";
      "   - Debt Ratio  ";
      "   - Profitability";
      "";
      "IMPORTANT: Respond ONLY with a valid JSON object in this exact format:";
      "{";
      "  " ++ dq ++ "score" ++ dq ++ ": 75,";
      "  " ++ dq ++ "rating" ++ dq ++ ": " ++ dq ++ "Good" ++ dq ++ ",";
      "  " ++ dq ++ "summary" ++ dq ++ ": " ++ dq ++ "Brief summary here" ++ dq ++ ",";
      "  " ++ dq ++ "strengths" ++ dq ++ ": [" ++ dq ++ "strength 1" ++ dq ++ ", "
           ++ dq ++ "strength 2" ++ dq ++ ", " ++ dq ++ "strength 3" ++ dq ++ "],";
      "  " ++ dq ++ "riskFactors" ++ dq ++ ": [" ++ dq ++ "risk 1" ++ dq ++ ", "
           ++ dq ++ "risk 2" ++ dq ++ ", " ++ dq ++ "risk 3" ++ dq ++ "],";
      "  " ++ dq ++ "recommendations" ++ dq ++ ": [" ++ dq ++ "rec 1" ++ dq ++ ", "
           ++ dq ++ "rec 2" ++ dq ++ ", " ++ dq ++ "rec 3" ++ dq ++ ", "
           ++ dq ++ "rec 4" ++ dq ++ "],";
      "  " ++ dq ++ "detailedAnalysis" ++ dq ++ ": {";
      "    " ++ dq ++ "financialHealth" ++ dq ++ ": 80,";
      "    " ++ dq ++ "cashFlow" ++ dq ++ ": 70,";
      "    " ++ dq ++ "debtRatio" ++ dq ++ ": 75,";
      "    " ++ dq ++ "profitability" ++ dq ++ ": 65";
      "  }";
      "}";
      "";
      "Do not include any text before or after the JSON object.";
      "" ].

Section CreditAnalysis.
Variable env : OllamaEnv.

(** The inner [try] body: clean the reply, parse it, validate it. *)
Definition parseAnalysis (data : JValue) : Exc JValue :=
  let* trimmed := response_trim data in
  let* analysisResult := JSON_parse env (stripFences trimmed) in
  let* invalid := invalidStructure analysisResult in
  if invalid then Throw "Invalid analysis structure" else Ok analysisResult.

(** The prompt is built before the [try]; on the plain data of
    [extractedData] and [documentTypes] neither [join] nor [JSON.stringify]
    throws. *)
Definition generateCreditAnalysis (extractedData : list DocumentAnalysis)
    (documentTypes : list string) : Exc JValue :=
  let prompt := creditPrompt (JSON_stringify env extractedData) documentTypes in
  try_catch
    (match generate env prompt with
     | Rejected message => Throw message
     | Response ok status statusText json =>
         if negb ok
         then Throw ("Ollama API error: " ++ show status ++ " " ++ statusText)
         else
           let* data := json in
           try_catch (parseAnalysis data)
             (fun parseError =>
                (* console.log('Raw response:', data.response) *)
                let* raw := get_prop data "response" in
                Ok (generateFallbackAnalysis extractedData))
     end)
    (fun error => Ok (generateFallbackAnalysis extractedData)).

End CreditAnalysis.

(** ** services/creditAnalyzer.js *)

(** The result of [DocumentProcessor.processDocument]. *)
Record ProcessedDocument : Type := {
  pd_id : string;
  pd_originalName : string;
  pd_type : string;
  pd_mimetype : string;
  pd_size : nat;
  images : list string;
  text : string;
  metadata_pageCount : option nat
}.

(** The object returned by [analyzeDocument]. *)
Record DocumentFindings : Type := {
  f_type : string;
  f_pageCount : option nat;
  f_extractedInfo : string;
  f_pageAnalyses : option (list PageAnalysisResult);
  f_textAnalysis : bool
}.

(** The object returned by [analyzeDocuments]: the own properties of
    [creditAnalysis], then [documentAnalysis] and [metadata]. *)
Record AnalysisResult : Type := {
  creditAnalysis : JValue;
  documentAnalysis : list DocumentAnalysis;
  metadata_totalDocuments : nat;
  metadata_documentTypes : list string;
  metadata_analysisDate : string
}.

Definition basePrompt : string :=
  "Analyze this financial document and extract key information. Focus on:".

Definition getDocumentPrompt (documentType : string) : string :=
  if String.eqb documentType "legal" then
    join nl [ basePrompt;
              "- Company name and legal structure";
              "- Business registration details";
              "- Legal compliance status";
              "- Any legal issues or pending litigation";
              "- Ownership structure";
              "- Business licenses and permits" ]
  else if String.eqb documentType "profit-loss" then
    join nl [ basePrompt;
              "- Revenue figures and trends";
              "- Operating expenses breakdown";
              "- Net profit/loss amounts";
              "- Gross margin calculations";
              "- Operating margin";
              "- Period covered";
              "- Year-over-year comparisons";
              "- Key financial ratios" ]
  else if String.eqb documentType "balance-sheet" then
    join nl [ basePrompt;
              "- Total assets and breakdown";
              "- Current assets vs fixed assets";
              "- Total liabilities and breakdown";
              "- Current liabilities vs long-term debt";
              "- Shareholders' equity";
              "- Working capital";
              "- Debt-to-equity ratio";
              "- Asset turnover ratios" ]
  else if String.eqb documentType "bank-statement" then
    join nl [ basePrompt;
              "- Account balance trends";
              "- Cash flow patterns";
              "- Regular income sources";
              "- Major expenses and payments";
              "- Overdrafts or negative balances";
              "- Transaction frequency";
              "- Average monthly balance";
              "- Seasonal variations" ]
  else
    join nl [ basePrompt;
              "- Document type and purpose";
              "- Key financial figures";
              "- Important dates and periods";
              "- Relevant business information";
              "- Any red flags or concerns";
              "- Positive indicators" ].

(** An optional string inside a template literal. *)
Definition template_str (o : option string) : string :=
  match o with
  | Some s => s
  | None => "undefined"
  end.

Definition pageLabel (a : PageAnalysisResult) : string :=
  "Page " ++ show (page a) ++ ": " ++ template_str (analysis a).

Definition combinePageAnalyses (pageAnalyses : list PageAnalysisResult) : string :=
  let validAnalyses := filter (fun a => negb (truthy_str (error a))) pageAnalyses in
  if (List.length validAnalyses =? 0)%nat
  then "Failed to extract information from document pages"
  else join (nl ++ nl) (map pageLabel validAnalyses).

(** [{ ...documentAnalysis, documentId, documentName, documentType }]. *)
Definition withIdentity (f : DocumentFindings) (doc : ProcessedDocument) : DocumentAnalysis :=
  {| documentId := pd_id doc;
     documentName := pd_originalName doc;
     documentType := pd_type doc;
     doc_type := Some (f_type f);
     pageCount := f_pageCount f;
     extractedInfo := f_extractedInfo f;
     pageAnalyses := f_pageAnalyses f;
     textAnalysis := f_textAnalysis f;
     doc_error := None |}.

(** The object pushed by the [catch] branch of the extraction loop. *)
Definition failedDocument (doc : ProcessedDocument) (message : string) : DocumentAnalysis :=
  {| documentId := pd_id doc;
     documentName := pd_originalName doc;
     documentType := pd_type doc;
     doc_type := None;
     pageCount := None;
     extractedInfo := "Failed to analyze document";
     pageAnalyses := None;
     textAnalysis := false;
     doc_error := Some message |}.

Section CreditAnalyzer.
Variable env : OllamaEnv.

(** The stream the progress callback writes to. *)
Context {Sink : Type}.
Variable progressCallback : string -> Q -> string -> Sink -> Sink.

Definition analyzeDocument (document : ProcessedDocument) (log : list Event)
    : Exc DocumentFindings * list Event :=
  let prompt := getDocumentPrompt (pd_type document) in
  if (0 <? List.length (images document))%nat then
    let '(imageAnalyses, log') := analyzeMultipleImages env (images document) prompt log in
    let combinedAnalysis := combinePageAnalyses imageAnalyses in
    (Ok {| f_type := pd_type document;
           f_pageCount := Some (List.length (images document));
           f_extractedInfo := combinedAnalysis;
           f_pageAnalyses := Some imageAnalyses;
           f_textAnalysis := false |}, log')
  else
    (Ok {| f_type := pd_type document;
           f_pageCount := None;
           f_extractedInfo :=
             if String.eqb (text document) "" then "No content extracted"
             else text document;
           f_pageAnalyses := None;
           f_textAnalysis := true |}, log).

(** The extraction loop; [docIndex] counts the documents already visited. *)
Fixpoint extractAll (total docIndex : nat) (rest : list ProcessedDocument)
    (extractedData : list DocumentAnalysis) (log : list Event) (sink : Sink)
    : list DocumentAnalysis * list Event * Sink :=
  match rest with
  | [] => (extractedData, log, sink)
  | doc :: rest' =>
      let docIndex := S docIndex in
      let progressBase := (80 + (Q_of_nat docIndex / Q_of_nat total) * 15)%Q in
      let sink1 :=
        progressCallback "analysis" progressBase
          ("Analyzing " ++ pd_originalName doc ++ "...") sink in
      match analyzeDocument doc log with
      | (Ok findings, log') =>
          extractAll total docIndex rest'
            (extractedData ++ [withIdentity findings doc])%list log' sink1
      | (Throw message, log') =>
          extractAll total docIndex rest'
            (extractedData ++ [failedDocument doc message])%list log' sink1
      end
  end.

(** The body of the outer [try] of [analyzeDocuments]. *)
Definition analyzeDocuments_body (processedDocuments : list ProcessedDocument)
    (log : list Event) (sink : Sink) : Exc AnalysisResult * list Event * Sink :=
  let sink1 :=
    if negb (modelAvailable env)
    then progressCallback "analysis" 75%Q
           "Downloading AI model (this may take a few minutes)..." sink
    else sink in
  match (if negb (modelAvailable env) then pull env else Ok tt) with
  | Throw message => (Throw message, log, sink1)
  | Ok _ =>
      let sink2 :=
        progressCallback "analysis" 80%Q
          "Extracting financial data from documents..." sink1 in
      let '(extractedData, log3, sink3) :=
        extractAll (List.length processedDocuments) 0 processedDocuments [] log sink2 in
      let sink4 :=
        progressCallback "analysis" 95%Q "Generating credit recommendation..." sink3 in
      let documentTypes := map pd_type processedDocuments in
      match generateCreditAnalysis env extractedData documentTypes with
      | Throw message => (Throw message, log3, sink4)
      | Ok credit =>
          (Ok {| creditAnalysis := credit;
                 documentAnalysis := extractedData;
                 metadata_totalDocuments := List.length processedDocuments;
                 metadata_documentTypes := documentTypes;
                 metadata_analysisDate := toISOString_now env |},
           log3, sink4)
      end
  end.

Definition analyzeDocuments (processedDocuments : list ProcessedDocument)
    (log : list Event) (sink : Sink) : Exc AnalysisResult * list Event * Sink :=
  match analyzeDocuments_body processedDocuments log sink with
  | (Ok result, log', sink') => (Ok result, log', sink')
  | (Throw message, log', sink') =>
      (Throw ("Failed to complete credit analysis: " ++ message), log', sink')
  end.

End CreditAnalyzer.

(** ** server.js: the [/api/analyze] handler *)

Record UploadedFile : Type := {
  uf_id : string;
  uf_originalName : string;
  uf_filename : string;
  uf_path : string;
  uf_size : nat;
  uf_mimetype : string;
  uf_type : string
}.

Inductive SseEvent : Type :=
| ProgressEvent (step : string) (progress : Q) (message : string)
| ResultEvent (progress : Q) (result : AnalysisResult)
| ErrorEvent (progress : Q) (error : string).

Inductive HttpReply : Type :=
| BadRequest (error : string)
| EventStream (events : list SseEvent).

(** What the rest of the system answers during one request: the version
    endpoint, the upload directory, and the document processor on each file
    (by position in the request). *)
Record ServerEnv : Type := {
  baseUrl : string;
  version_reachable : bool;
  uploadsDir : string;
  fs_pathExists : nat -> string -> bool;
  processDocument : nat -> string -> UploadedFile -> Exc ProcessedDocument;
  ollama : OllamaEnv
}.

Definition checkConnection (env : ServerEnv) : Exc bool :=
  if version_reachable env then Ok true
  else Throw ("Cannot connect to Ollama at " ++ baseUrl env
              ++ ". Please ensure Ollama is running and accessible.").

Definition sendProgress (step : string) (progress : Q) (message : string)
    (stream : list SseEvent) : list SseEvent :=
  (stream ++ [ProgressEvent step progress message])%list.

Section AnalyzeHandler.
Variable env : ServerEnv.

(** The [for (const file of files)] loop; [fileIndex] counts the files
    already visited and [total] is [files.length]. *)
Fixpoint processFiles (total fileIndex : nat) (rest : list UploadedFile)
    (processedDocuments : list ProcessedDocument) (stream : list SseEvent)
    : list ProcessedDocument * list SseEvent :=
  match rest with
  | [] => (processedDocuments, stream)
  | file :: rest' =>
      let fileIndex := S fileIndex in
      let progressBase := (Q_of_nat (fileIndex - 1) / Q_of_nat total * 60)%Q in
      let stream1 :=
        sendProgress "processing" (progressBase + 5)%Q
          ("Processing " ++ uf_originalName file ++ "...") stream in
      let filePath := path_join (uploadsDir env) (uf_filename file) in
      if negb (fs_pathExists env fileIndex filePath) then
        processFiles total fileIndex rest' processedDocuments
          (sendProgress "processing" (progressBase + 60 / Q_of_nat total)%Q
             ("File not found: " ++ uf_originalName file) stream1)
      else
        match processDocument env fileIndex filePath file with
        | Ok processed =>
            processFiles total fileIndex rest'
              (processedDocuments ++ [processed])%list
              (sendProgress "processing" (progressBase + 60 / Q_of_nat total)%Q
                 ("Completed processing " ++ uf_originalName file) stream1)
        | Throw message =>
            processFiles total fileIndex rest' processedDocuments
              (sendProgress "processing" (progressBase + 60 / Q_of_nat total)%Q
                 ("Error processing " ++ uf_originalName file ++ ": " ++ message)
                 stream1)
        end
  end.

(** The events written after the response head, up to [res.end()]. *)
Definition analyzeStream (files : list UploadedFile) : list SseEvent :=
  let stream1 :=
    sendProgress "initialization" 5%Q "Checking AI service connection..." [] in
  match checkConnection env with
  | Throw message => (stream1 ++ [ErrorEvent 0%Q message])%list
  | Ok _ =>
      let stream2 :=
        sendProgress "processing" 10%Q "Starting document processing..." stream1 in
      let '(processedDocuments, stream3) :=
        processFiles (List.length files) 0 files [] stream2 in
      if (List.length processedDocuments =? 0)%nat then
        (stream3 ++ [ErrorEvent 0%Q "No documents could be processed successfully"])%list
      else
        let stream4 :=
          sendProgress "analysis" 70%Q "Analyzing documents with AI..." stream3 in
        match analyzeDocuments (ollama env) sendProgress processedDocuments [] stream4 with
        | (Throw message, _, stream5) => (stream5 ++ [ErrorEvent 0%Q message])%list
        | (Ok analysis, _, stream5) =>
            (sendProgress "complete" 100%Q "Analysis complete!" stream5
             ++ [ResultEvent 100%Q analysis])%list
        end
  end.

Definition analyze (files : list UploadedFile) : HttpReply :=
  match files with
  | [] => BadRequest "No files provided for analysis"
  | _ :: _ => EventStream (analyzeStream files)
  end.

End AnalyzeHandler.

(** * Statements

    Notions used to state the properties of the services. *)

(** ** Password probing *)

(** The passwords handed to [PDFDocument.load], in call order. *)
Fixpoint loads (log : list PdfEvent) : list string :=
  match log with
  | [] => []
  | LoadWith password :: rest => password :: loads rest
  | Written _ _ :: rest => loads rest
  end.

(** The copies written to disk, in order. *)
Fixpoint writes (log : list PdfEvent) : list (string * string) :=
  match log with
  | [] => []
  | LoadWith _ :: rest => writes rest
  | Written path bytes :: rest => (path, bytes) :: writes rest
  end.


(** At probe [probe] the document opens with [password] and its decrypted
    copy [bytes] is saved and written to the temporary directory. *)
Definition persisted {PdfDoc : Type} (env : PdfEnv PdfDoc)
    (tempDir filePath documentId : string) (probe : nat) (password bytes : string) : Prop :=
  exists pdfBuffer pdfDoc,
    fs_readFile_at env probe filePath = Ok pdfBuffer /\
    PDFDocument_load env pdfBuffer password = Ok pdfDoc /\
    pdfDoc_save env pdfDoc = Ok bytes /\
    fs_writeFile env probe (unencryptedPath tempDir documentId) bytes = Ok tt.

(** Whether probe [probe] with [password] gets as far as a written copy. *)
Definition persists {PdfDoc : Type} (env : PdfEnv PdfDoc)
    (tempDir filePath documentId : string) (probe : nat) (password : string) : bool :=
  match fs_readFile_at env probe filePath with
  | Throw _ => false
  | Ok pdfBuffer =>
      match PDFDocument_load env pdfBuffer password with
      | Throw _ => false
      | Ok pdfDoc =>
          match pdfDoc_save env pdfDoc with
          | Throw _ => false
          | Ok bytes =>
              succeeded (fs_writeFile env probe (unencryptedPath tempDir documentId) bytes)
          end
      end
  end.

(** The passwords of [passwords], the first of which is probed at position
    [probe], at whose probe the file can be read: these are the ones handed
    to the PDF library. *)
Fixpoint handed {PdfDoc : Type} (env : PdfEnv PdfDoc) (filePath : string)
    (probe : nat) (passwords : list string) : list string :=
  match passwords with
  | [] => []
  | password :: rest =>
      if succeeded (fs_readFile_at env probe filePath)
      then password :: handed env filePath (S probe) rest
      else handed env filePath (S probe) rest
  end.

(** The PDF library answers without regard to the [password] option. The
    library that the code loads, [pdf-lib], is of this kind: the options of
    its [PDFDocument.load] are [ignoreEncryption], [parseSpeed],
    [throwOnInvalidObject], [updateMetadata] and [capNumbers]. *)
Definition passwordBlind {PdfDoc : Type} (env : PdfEnv PdfDoc) : Prop :=
  forall pdfBuffer password password',
    PDFDocument_load env pdfBuffer password = PDFDocument_load env pdfBuffer password'.

(** The file system answers at every probe as it does at the first. *)
Definition steadyFiles {PdfDoc : Type} (env : PdfEnv PdfDoc) (filePath : string) : Prop :=
  forall probe,
    fs_readFile_at env probe filePath = fs_readFile_at env 0 filePath /\
    forall path bytes, fs_writeFile env probe path bytes = fs_writeFile env 0 path bytes.


(** ** Retries of the image analysis *)

(** [j] failed attempts on one image, each followed by the wait that
    precedes the next attempt. *)
Fixpoint failedRounds (imagePath prompt : string) (j : nat) : list Event :=
  match j with
  | O => []
  | S j' => Attempt imagePath prompt :: Sleep retryDelay :: failedRounds imagePath prompt j'
  end.

(** The events of [k] consecutive attempts on one image, [k] positive. *)
Definition retryTrace (imagePath prompt : string) (k : nat) : list Event :=
  (failedRounds imagePath prompt (k - 1) ++ [Attempt imagePath prompt])%list.

(** What the [try] body yields at the attempt that follows [j] failed ones,
    in a run that starts with log [log]. *)
Definition attemptOutcome (env : OllamaEnv) (log : list Event)
    (imagePath prompt : string) (j : nat) : Exc string :=
  attemptBody imagePath
    (image_attempt env (log ++ failedRounds imagePath prompt j)%list imagePath prompt).

(** The number of [Attempt] events of a log. *)
Fixpoint attempts (log : list Event) : nat :=
  match log with
  | [] => 0
  | Attempt _ _ :: rest => S (attempts rest)
  | Sleep _ :: rest => attempts rest
  end.

(** ** Page results *)

(** A page result as the Model Gateway records it: a narrative and no error
    (success), or an error message and no narrative (failure). *)
Definition recorded (r : PageAnalysisResult) : Prop :=
  (exists narrative,
      analysis r = Some narrative /\ narrative <> "" /\ error r = None /\ success r = true) \/
  (exists message,
      analysis r = None /\ error r = Some message /\ message <> "" /\ success r = false).

(** The suffix that tells the model which page of how many it looks at. *)
Definition pageSuffix (pageNumber total : nat) : string :=
  "This is page " ++ show pageNumber ++ " of " ++ show total
  ++ ". Please analyze this page and extract relevant financial information. Be specific and detailed in your analysis.".

(** The prompt for page [pageNumber]: the prompt of the document, a blank
    line, and the page suffix. *)
Definition promptOfPage (prompt : string) (pageNumber total : nat) : string :=
  prompt ++ nl ++ nl ++ pageSuffix pageNumber total.

(** The result recorded for page [pageNumber] from the outcome of the
    analysis of its image: the narrative, or the error message. *)
Definition pageResult (pageNumber : nat) (path : string) (outcome : Exc string)
    : PageAnalysisResult :=
  match outcome with
  | Ok narrative =>
      {| page := pageNumber; imagePath := path; analysis := Some narrative;
         error := None; success := true |}
  | Throw message =>
      {| page := pageNumber; imagePath := path; analysis := None;
         error := Some message; success := false |}
  end.

(** The batch as the specification words it: the images are analysed one
    after the other, the image of page [pageNumber] with the prompt of that
    page, and the outcome of each analysis, success or failure, is recorded
    before the next image is analysed. *)
Fixpoint batchFrom (env : OllamaEnv) (prompt : string) (total pageNumber : nat)
    (paths : list string) (log : list Event) : list PageAnalysisResult * list Event :=
  match paths with
  | [] => ([], log)
  | path :: rest =>
      let run := analyzeImage env path (promptOfPage prompt pageNumber total) 0 log in
      let later := batchFrom env prompt total (S pageNumber) rest (snd run) in
      (pageResult pageNumber path (fst run) :: fst later, snd later)
  end.

(** The events of analysing the pages [paths], numbered from [i + 1], one
    after the other, with [ks] attempts on the respective page. *)
Fixpoint pageRuns (prompt : string) (total i : nat) (paths : list string)
    (ks : list nat) : list Event :=
  match paths, ks with
  | path :: paths', k :: ks' =>
      (retryTrace path (promptOfPage prompt (i + 1) total) k
       ++ pageRuns prompt total (S i) paths' ks')%list
  | _, _ => []
  end.

(** ** Combined narrative *)

(** The page numbers and narratives of the successful pages, in list
    order, failed pages skipped. *)
Fixpoint successfulNarratives (pageAnalyses : list PageAnalysisResult) : list (nat * string) :=
  match pageAnalyses with
  | [] => []
  | r :: rest =>
      if success r
      then (page r, template_str (analysis r)) :: successfulNarratives rest
      else successfulNarratives rest
  end.

Definition labelled (p : nat * string) : string :=
  "Page " ++ show (fst p) ++ ": " ++ snd p.

(** The combined narrative as the specification words it: the labelled
    narratives of the successful pages, or the explicit failure message when
    no page succeeded. *)
Definition combinedNarrative (pageAnalyses : list PageAnalysisResult) : string :=
  match successfulNarratives pageAnalyses with
  | [] => "Failed to extract information from document pages"
  | narratives => join (nl ++ nl) (map labelled narratives)
  end.

(** The claim as the specification words it, on the list [pageAnalyses]. *)
Definition labelsSuccessfulPages (pageAnalyses : list PageAnalysisResult) : Prop :=
  combinePageAnalyses pageAnalyses = combinedNarrative pageAnalyses.

(** A page whose [error] field is absent or empty. *)
Definition withoutError (r : PageAnalysisResult) : bool :=
  match error r with
  | None => true
  | Some message => String.eqb message ""
  end.

(** The page numbers and narratives of the pages without error, in list
    order; a page that has no narrative reads 'undefined'. *)
Definition keptNarratives (pageAnalyses : list PageAnalysisResult) : list (nat * string) :=
  map (fun r => (page r, match analysis r with
                         | Some narrative => narrative
                         | None => "undefined"
                         end))
      (filter withoutError pageAnalyses).

(** A failed page whose error message is empty. *)
Definition blankErrorPage : list PageAnalysisResult :=
  [ {| page := 1; imagePath := "/tmp/doc/page.1.png";
       analysis := None; error := Some ""; success := false |} ].

Definition twoPages : list PageAnalysisResult :=
  [ {| page := 1; imagePath := "/tmp/doc/page.1.png";
       analysis := Some "Revenue 120"; error := None; success := true |};
    {| page := 2; imagePath := "/tmp/doc/page.2.png";
       analysis := None;
       error := Some "Failed to analyze image after 4 attempts: Empty response from Ollama";
       success := false |} ].

(** ** Fallback score and rating *)

(** [baseScore + analysisBonus] on a non-empty list, as a rational. *)
Definition rawScore (extractedData : list DocumentAnalysis) : Q :=
  ((if hasFinancialDocs extractedData then 70 # 1 else 50 # 1)
   + Q_of_nat (successfulAnalyses extractedData)
     / Q_of_nat (List.length extractedData) * (20 # 1))%Q.

(** The fallback score as the specification words it. *)
Definition coreFinancialType (t : string) : bool :=
  String.eqb t "profit-loss" || String.eqb t "balance-sheet" || String.eqb t "bank-statement".

Definition specBaseScore (extractedData : list DocumentAnalysis) : Q :=
  if existsb (fun doc => coreFinancialType (documentType doc)) extractedData
  then 70 # 1 else 50 # 1.

Definition withoutErrorField (extractedData : list DocumentAnalysis) : nat :=
  List.length
    (filter (fun doc => match doc_error doc with None => true | Some _ => false end)
       extractedData).

Definition specBonus (extractedData : list DocumentAnalysis) : Q :=
  (Q_of_nat (withoutErrorField extractedData)
   / Q_of_nat (List.length extractedData) * (20 # 1))%Q.

Definition clamp (x lo hi : Q) : Q := Qmax lo (Qmin hi x).

Definition specScore (extractedData : list DocumentAnalysis) : Q :=
  clamp (specBaseScore extractedData + specBonus extractedData)%Q (30 # 1) (100 # 1).

(** The integer [z] is [x] rounded as [Math.round] does: to the nearest
    integer, a half upwards. *)
Definition roundsTo (x : Q) (z : Z) : Prop :=
  (inject_Z z <= x + (1 # 2))%Q /\ (x + (1 # 2) < inject_Z (z + 1))%Q.

(** The claim as the specification words it, on the list [extractedData]:
    the score of the fallback report is the rounded [specScore], an integer
    between 30 and 100. *)
Definition scoreAsStated (extractedData : list DocumentAnalysis) : Prop :=
  exists z : Z,
    get_prop (generateFallbackAnalysis extractedData) "score"
    = Ok (JNum (Fin (inject_Z z))) /\
    roundsTo (specScore extractedData) z /\
    (30 <= z <= 100)%Z.

(** The documents whose error field is absent or empty. *)
Definition withoutErrorMessage (extractedData : list DocumentAnalysis) : nat :=
  List.length
    (filter (fun doc => match doc_error doc with
                        | None => true
                        | Some message => String.eqb message ""
                        end)
       extractedData).

Definition amendedBonus (extractedData : list DocumentAnalysis) : Q :=
  (Q_of_nat (withoutErrorMessage extractedData)
   / Q_of_nat (List.length extractedData) * (20 # 1))%Q.

Definition amendedScore (extractedData : list DocumentAnalysis) : Q :=
  clamp (specBaseScore extractedData + amendedBonus extractedData)%Q (30 # 1) (100 # 1).

(** The rating of a report follows the thresholds 80, 70 and 60 applied to
    its integer score. *)
Definition ratingConsistent (report : JValue) : Prop :=
  exists (z : Z) (rating : string),
    get_prop report "score" = Ok (JNum (Fin (inject_Z z))) /\
    get_prop report "rating" = Ok (JStr rating) /\
    (rating = "Excellent" <-> (80 <= z)%Z) /\
    (rating = "Good" <-> (70 <= z < 80)%Z) /\
    (rating = "Fair" <-> (60 <= z < 70)%Z) /\
    (rating = "Poor" <-> (z < 60)%Z).

(** Rounding does not raise the fallback score. *)
Definition roundsDown (extractedData : list DocumentAnalysis) : Prop :=
  (inject_Z (Q_round (rawScore extractedData)) <= rawScore extractedData)%Q.

(** A parsed reply with truthy [score], [rating] and [summary]. *)
Definition hasScoreRatingSummary (v : JValue) : bool :=
  match v with
  | JObj fields =>
      truthy (lookup "score" fields) && truthy (lookup "rating" fields)
      && truthy (lookup "summary" fields)
  | _ => false
  end.

(** The ways in which the report-generation call yields no usable report. *)
Inductive reportCallFails (env : OllamaEnv) (prompt : string) : Prop :=
| network_error (message : string) :
    generate env prompt = Rejected message -> reportCallFails env prompt
| http_not_ok (status : nat) (statusText : string) (json : Exc JValue) :
    generate env prompt = Response false status statusText json ->
    reportCallFails env prompt
| body_not_json (status : nat) (statusText message : string) :
    generate env prompt = Response true status statusText (Throw message) ->
    reportCallFails env prompt
| no_response_text (status : nat) (statusText : string) (data : JValue) (message : string) :
    generate env prompt = Response true status statusText (Ok data) ->
    response_trim data = Throw message ->
    reportCallFails env prompt
| unparseable_json (status : nat) (statusText : string) (data : JValue)
    (trimmed message : string) :
    generate env prompt = Response true status statusText (Ok data) ->
    response_trim data = Ok trimmed ->
    JSON_parse env (stripFences trimmed) = Throw message ->
    reportCallFails env prompt
| invalid_structure (status : nat) (statusText : string) (data : JValue)
    (trimmed : string) (parsed : JValue) :
    generate env prompt = Response true status statusText (Ok data) ->
    response_trim data = Ok trimmed ->
    JSON_parse env (stripFences trimmed) = Ok parsed ->
    hasScoreRatingSummary parsed = false ->
    reportCallFails env prompt.

(** The report-generation call yields the usable report [report]. *)
Definition reportCallYields (env : OllamaEnv) (prompt : string) (report : JValue) : Prop :=
  exists status statusText data trimmed,
    generate env prompt = Response true status statusText (Ok data) /\
    response_trim data = Ok trimmed /\
    JSON_parse env (stripFences trimmed) = Ok report /\
    hasScoreRatingSummary report = true.

(** *** Scenarios *)

Definition plainDocument (type : string) (failure : option string) : DocumentAnalysis :=
  {| documentId := "doc"; documentName := "statement.pdf"; documentType := type;
     doc_type := Some type; pageCount := Some 1;
     extractedInfo := "Page 1: Revenue 120"; pageAnalyses := None;
     textAnalysis := false; doc_error := failure |}.

Definition quietEnv (reply : FetchOutcome) (parse : string -> Exc JValue) : OllamaEnv :=
  {| image_attempt := fun _ _ _ => Replied (Some "Revenue 120");
     generate := fun _ => reply;
     JSON_parse := parse;
     JSON_stringify := fun _ => "[]";
     modelAvailable := true;
     pull := Ok tt;
     toISOString_now := "2024-01-01T00:00:00.000Z" |}.

(** The backend answers with prose instead of JSON. *)
Definition proseEnv : OllamaEnv :=
  quietEnv (Response true 200 "OK"
              (Ok (JObj [("response", JStr "I am unable to produce a report.")])))
           (fun _ => Throw "Unexpected token I in JSON at position 0").

(** The backend answers with a well-formed report whose rating does not
    match its score. *)
Definition overratedText : string :=
  "{" ++ dq ++ "score" ++ dq ++ ": 10, " ++ dq ++ "rating" ++ dq ++ ": "
  ++ dq ++ "Excellent" ++ dq ++ ", " ++ dq ++ "summary" ++ dq ++ ": "
  ++ dq ++ "Weak profile" ++ dq ++ "}".

Definition overratedReport : JValue :=
  JObj [("score", JNum (Fin (10 # 1))); ("rating", JStr "Excellent");
        ("summary", JStr "Weak profile")].

Definition overratedEnv : OllamaEnv :=
  quietEnv (Response true 200 "OK" (Ok (JObj [("response", JStr overratedText)])))
           (fun s => if String.eqb s overratedText then Ok overratedReport
                     else Throw "Unexpected token").

(** Twenty-one bank statements, ten of them analysed without error. *)
Definition tenOfTwentyOne : list DocumentAnalysis :=
  (repeat (plainDocument "bank-statement" None) 10
   ++ repeat (plainDocument "bank-statement" (Some "Failed to analyze document")) 11)%list.

(** A document that the library loads whatever password it is handed,
    while the temporary directory cannot be written. *)
Definition readOnlyTempPdf : PdfEnv string :=
  {| fs_readFile := fun _ => Ok "pdf-bytes";
     fs_readFile_at := fun _ _ => Ok "pdf-bytes";
     PDFDocument_load := fun _ _ => Ok "document";
     pdfDoc_save := fun _ => Ok "plain-bytes";
     fs_writeFile := fun _ _ _ => Throw "EACCES: permission denied" |}.

(** An encrypted file that is replaced by a plain one after two probes; the
    library does not look at the password. *)
Definition replacedPdf : PdfEnv string :=
  {| fs_readFile := fun _ => Ok "encrypted-bytes";
     fs_readFile_at := fun probe _ =>
       if (probe <? 2)%nat then Ok "encrypted-bytes" else Ok "plain-bytes";
     PDFDocument_load := fun pdfBuffer _ =>
       if String.eqb pdfBuffer "plain-bytes" then Ok "document"
       else Throw "Input document to PDFDocument.load is encrypted";
     pdfDoc_save := fun _ => Ok "plain-bytes";
     fs_writeFile := fun _ _ _ => Ok tt |}.

(** ** The event stream of one request *)

Definition percentage (e : SseEvent) : Q :=
  match e with
  | ProgressEvent _ progress _ => progress
  | ResultEvent progress _ => progress
  | ErrorEvent progress _ => progress
  end.

Definition percentages (events : list SseEvent) : list Q := map percentage events.

(** Every percentage is at least the one emitted before it. *)
Definition nonDecreasing (qs : list Q) : Prop := Sorted Qle qs.

(** A progress event of one of the steps [steps]. *)
Definition progressOf (steps : list string) (e : SseEvent) : Prop :=
  match e with
  | ProgressEvent step _ _ => In step steps
  | _ => False
  end.

(** The percentage announced for the [i]-th of [total] analysed documents. *)
Definition documentPercentage (total i : nat) : Q :=
  (80 + Q_of_nat i / Q_of_nat total * 15)%Q.

(** The documents of a request that are found on disk and processed
    without error; [fileIndex] counts the files before [files]. *)
Fixpoint successfullyProcessed (env : ServerEnv) (fileIndex : nat)
    (files : list UploadedFile) : list ProcessedDocument :=
  match files with
  | [] => []
  | file :: rest =>
      let filePath := path_join (uploadsDir env) (uf_filename file) in
      if fs_pathExists env (S fileIndex) filePath then
        match processDocument env (S fileIndex) filePath file with
        | Ok processed => processed :: successfullyProcessed env (S fileIndex) rest
        | Throw _ => successfullyProcessed env (S fileIndex) rest
        end
      else successfullyProcessed env (S fileIndex) rest
  end.

(** The stream ends with [terminal]. *)
Definition endsWith (events : list SseEvent) (terminal : SseEvent) : Prop :=
  exists before, events = (before ++ [terminal])%list.

Definition noDocumentsMessage : string := "No documents could be processed successfully".

(** *** Scenarios *)

Definition statementFile : UploadedFile :=
  {| uf_id := "file-1"; uf_originalName := "statement.pdf";
     uf_filename := "7f3a-statement.pdf"; uf_path := "/srv/uploads/7f3a-statement.pdf";
     uf_size := 2048; uf_mimetype := "application/pdf"; uf_type := "bank-statement" |}.

Definition statementDocument : ProcessedDocument :=
  {| pd_id := "file-1"; pd_originalName := "statement.pdf"; pd_type := "bank-statement";
     pd_mimetype := "application/pdf"; pd_size := 2048;
     images := ["/srv/temp/file-1/page.1.png"]; text := "";
     metadata_pageCount := Some 1 |}.

Definition serverWith (reachable : bool) (backend : OllamaEnv) : ServerEnv :=
  {| baseUrl := "http://localhost:11434";
     version_reachable := reachable;
     uploadsDir := "/srv/uploads";
     fs_pathExists := fun _ _ => true;
     processDocument := fun _ _ _ => Ok statementDocument;
     ollama := backend |}.

(** A healthy run: the backend is reachable and answers with prose. *)
Definition healthyServer : ServerEnv := serverWith true proseEnv.

(** The inference backend cannot be reached. *)
Definition unreachableServer : ServerEnv := serverWith false proseEnv.




Definition analysisStarted : SseEvent :=
  ProgressEvent "analysis" 70%Q "Analyzing documents with AI...".

(** All percentages of [qs] lie between [lo] and [hi]. *)
Definition within (lo hi : Q) (qs : list Q) : Prop :=
  Forall (fun q => (lo <= q <= hi)%Q) qs.

(** Every report that [analyzeDocuments] returns for [docs] has a rating
    consistent with its score. *)
Definition reportsAlwaysConsistent (env : OllamaEnv) (docs : list ProcessedDocument) : Prop :=
  forall (result : AnalysisResult) (log' : list Event) (sink' : list SseEvent),
    analyzeDocuments env sendProgress docs [] [] = (Ok result, log', sink') ->
    ratingConsistent (creditAnalysis result).

(** ** Cross-check against binary64 arithmetic

    [generateFallbackAnalysis] computed with the binary64 operations of the
    JavaScript engine, for a list of [count] documents of which [successful]
    have no error. *)

Definition f64_of_nat (n : nat) : float := PrimFloat.of_uint63 (Uint63.of_Z (Z.of_nat n)).

(** The exact value of a finite binary64 number. *)
Definition f64_to_Q (f : float) : option Q :=
  match Prim2SF f with
  | S754_zero _ => Some 0%Q
  | S754_finite negative m e =>
      let v := (inject_Z (Z.pos m)
                * (if (0 <=? e)%Z then inject_Z (2 ^ e) else / inject_Z (2 ^ (- e))))%Q in
      Some (if negative then Qopp v else v)
  | S754_infinity _ | S754_nan => None
  end.

Definition Math_max64 (a b : float) : float :=
  if PrimFloat.is_nan a || PrimFloat.is_nan b then PrimFloat.nan
  else if PrimFloat.leb a b then b else a.

Definition Math_min64 (a b : float) : float :=
  if PrimFloat.is_nan a || PrimFloat.is_nan b then PrimFloat.nan
  else if PrimFloat.leb a b then a else b.

Definition fallbackScore64 (financial : bool) (successful count : nat) : float :=
  let baseScore := if financial then 70%float else 50%float in
  let analysisBonus :=
    PrimFloat.mul (PrimFloat.div (f64_of_nat successful) (f64_of_nat count)) 20%float in
  Math_min64 100%float (Math_max64 30%float (PrimFloat.add baseScore analysisBonus)).

Definition fallbackRating64 (score : float) : string :=
  if PrimFloat.leb 80%float score then "Excellent"
  else if PrimFloat.leb 70%float score then "Good"
  else if PrimFloat.leb 60%float score then "Fair"
  else "Poor".

(** A list of [count] documents, [successful] of them without error. *)
Definition sampleBatch (financial : bool) (successful count : nat) : list DocumentAnalysis :=
  let type := if financial then "bank-statement" else "other" in
  (repeat (plainDocument type None) successful
   ++ repeat (plainDocument type (Some "Failed to analyze document")) (count - successful))%list.

(** Score and rating of the rational model and of the binary64 computation
    coincide on one batch. *)
Definition agrees64 (financial : bool) (successful count : nat) : bool :=
  let score64 := fallbackScore64 financial successful count in
  match generateFallbackAnalysis (sampleBatch financial successful count),
        f64_to_Q score64 with
  | JObj (("score", JNum (Fin score)) :: ("rating", JStr rating) :: _), Some exact64 =>
      Qeq_bool score (inject_Z (Q_round exact64))
      && String.eqb rating (fallbackRating64 score64)
  | _, _ => false
  end.

Definition agrees64_upto (bound : nat) : bool :=
  forallb (fun count =>
             forallb (fun successful =>
                        agrees64 true successful count && agrees64 false successful count)
                     (seq 0 (S count)))
          (seq 1 bound).

(** ** Inference budget *)

(** The time spent waiting between attempts, in milliseconds. *)
Fixpoint waited (log : list Event) : nat :=
  match log with
  | [] => 0
  | Sleep ms :: rest => ms + waited rest
  | Attempt _ _ :: rest => waited rest
  end.

(** The number of page images of a batch. *)
Definition totalPages (docs : list ProcessedDocument) : nat :=
  list_sum (map (fun doc => List.length (images doc)) docs).

(** Every attempt of the backend yields a non-empty reply. *)
Definition healthy (env : OllamaEnv) : Prop :=
  forall (log : list Event) (imagePath prompt : string),
  exists response,
    attemptBody imagePath (image_attempt env log imagePath prompt) = Ok response.

(** A three-page and a one-page PDF. *)
Definition threePageDocument : ProcessedDocument :=
  {| pd_id := "file-2"; pd_originalName := "balance.pdf"; pd_type := "balance-sheet";
     pd_mimetype := "application/pdf"; pd_size := 4096;
     images := ["/srv/temp/file-2/page.1.png"; "/srv/temp/file-2/page.2.png";
                "/srv/temp/file-2/page.3.png"];
     text := ""; metadata_pageCount := Some 3 |}.

(** ** Counting events *)

(** The number of progress events of step [step]. *)
Definition countStep (step : string) (events : list SseEvent) : nat :=
  List.length
    (filter (fun e => match e with
                      | ProgressEvent s _ _ => String.eqb s step
                      | _ => false
                      end) events).

(** One file that is missing on disk between two that are processed. *)
Definition middleFileMissing : ServerEnv :=
  {| baseUrl := "http://localhost:11434";
     version_reachable := true;
     uploadsDir := "/srv/uploads";
     fs_pathExists := fun fileIndex _ => negb (fileIndex =? 2)%nat;
     processDocument := fun fileIndex _ _ =>
       if (fileIndex =? 1)%nat then Ok threePageDocument else Ok statementDocument;
     ollama := proseEnv |}.

(** What may follow the processing phase: progress events of the analysis
    and of its completion with a percentage between 70 and 100, and the
    terminal event. *)
Definition afterProcessing (e : SseEvent) : Prop :=
  match e with
  | ProgressEvent step progress _ =>
      In step ["analysis"; "complete"] /\ (70 <= progress <= 100)%Q
  | _ => True
  end.

Definition balanceFile : UploadedFile :=
  {| uf_id := "file-2"; uf_originalName := "balance.pdf";
     uf_filename := "11c0-balance.pdf"; uf_path := "/srv/uploads/11c0-balance.pdf";
     uf_size := 4096; uf_mimetype := "application/pdf"; uf_type := "balance-sheet" |}.

Definition missingFile : UploadedFile :=
  {| uf_id := "file-3"; uf_originalName := "ledger.pdf";
     uf_filename := "93be-ledger.pdf"; uf_path := "/srv/uploads/93be-ledger.pdf";
     uf_size := 1024; uf_mimetype := "application/pdf"; uf_type := "other" |}.

(** * Further services

    The remaining methods of the services above, the upload handler of
    [server.js] and the stream reader of the browser client ([ApiService]),
    each followed by the notions used to state its properties. *)

(** ** services/documentProcessor.js: [processPDF], [processDocument] *)

(** [String.prototype.includes]. *)
Fixpoint str_includes (s sub : string) : bool :=
  String.prefix sub s
  || match s with
     | String _ rest => str_includes rest sub
     | EmptyString => false
     end.

(** [path.basename] of a path that does not end in a separator: what
    follows the last ['/']. *)
Fixpoint basename (p : string) : string :=
  match p with
  | EmptyString => EmptyString
  | String c rest =>
      if str_includes rest "/" then basename rest
      else if Ascii.eqb c "/" then rest else p
  end.

(** What the PDF library, the page converter and the file system answer to
    the remaining calls of the processor: [PDFDocument.load(pdfBuffer)]
    without options (the loaded document is not used), [fs.ensureDir],
    [pdf2pic.fromPath(path, {savePath, ..}).bulk(-1, ..)] with the paths of
    the page images it wrote, and the size reported by [fs.stat]. *)
Record ConverterEnv : Type := {
  PDFDocument_load_plain : string -> Exc unit;
  fs_ensureDir : string -> Exc unit;
  convert_bulk : string -> string -> Exc (list string);
  fs_stat_size : string -> Exc nat
}.

Section ProcessDocument.
Context {PdfDoc : Type}.
Variable env : PdfEnv PdfDoc.
Variable conv : ConverterEnv.
Variable tempDir : string.

(** The inner [try]/[catch] of [processPDF]: the path of the PDF to
    convert. *)
Definition processedPdfPath (filePath documentId pdfBuffer : string)
    (log : list PdfEvent) : Exc string * list PdfEvent :=
  match PDFDocument_load_plain conv pdfBuffer with
  | Ok _ => (Ok filePath, log)
  | Throw message =>
      if str_includes message "encrypted" || str_includes message "password"
      then handleEncryptedPDF env tempDir filePath documentId log
      else (Throw message, log)
  end.

Definition processPDF (filePath documentId : string) (log : list PdfEvent)
    : Exc (list string) * list PdfEvent :=
  let failed (message : string) : Exc (list string) :=
    Throw ("Failed to process PDF: " ++ message) in
  match fs_readFile env filePath with
  | Throw m => (failed m, log)
  | Ok pdfBuffer =>
      match processedPdfPath filePath documentId pdfBuffer log with
      | (Throw m, log') => (failed m, log')
      | (Ok pdfPath, log') =>
          let outputDir := path_join tempDir documentId in
          match fs_ensureDir conv outputDir with
          | Throw m => (failed m, log')
          | Ok _ =>
              match convert_bulk conv pdfPath outputDir with
              | Throw m => (failed m, log')
              | Ok imagePaths => (Ok imagePaths, log')
              end
          end
      end
  end.

Definition extractTextFromFile (filePath mimetype : string) : Exc string :=
  let* size := fs_stat_size conv filePath in
  Ok ("File: " ++ basename filePath ++ ", Size: " ++ show size ++ " bytes, Type: "
      ++ mimetype).

(** [DocumentProcessor.processDocument]. *)
Definition DocumentProcessor_processDocument (filePath : string) (fileInfo : UploadedFile)
    (log : list PdfEvent) : Exc ProcessedDocument * list PdfEvent :=
  let failed (message : string) : Exc ProcessedDocument :=
    Throw ("Failed to process " ++ uf_originalName fileInfo ++ ": " ++ message) in
  if String.eqb (uf_mimetype fileInfo) "application/pdf" then
    match processPDF filePath (uf_id fileInfo) log with
    | (Ok imagePaths, log') =>
        (Ok {| pd_id := uf_id fileInfo;
               pd_originalName := uf_originalName fileInfo;
               pd_type := uf_type fileInfo;
               pd_mimetype := uf_mimetype fileInfo;
               pd_size := uf_size fileInfo;
               images := imagePaths;
               text := "";
               metadata_pageCount := Some (List.length imagePaths) |}, log')
    | (Throw m, log') => (failed m, log')
    end
  else
    match extractTextFromFile filePath (uf_mimetype fileInfo) with
    | Ok described =>
        (Ok {| pd_id := uf_id fileInfo;
               pd_originalName := uf_originalName fileInfo;
               pd_type := uf_type fileInfo;
               pd_mimetype := uf_mimetype fileInfo;
               pd_size := uf_size fileInfo;
               images := [];
               text := described;
               metadata_pageCount := None |}, log)
    | Throw m => (failed m, log)
    end.

End ProcessDocument.

(** A converter that turns any PDF into two page images of its output
    directory. *)
Definition twoPageConverter (plainLoad : Exc unit) : ConverterEnv :=
  {| PDFDocument_load_plain := fun _ => plainLoad;
     fs_ensureDir := fun _ => Ok tt;
     convert_bulk := fun _ outputDir =>
       Ok [path_join outputDir "page.1.png"; path_join outputDir "page.2.png"];
     fs_stat_size := fun _ => Ok 2048 |}.

(** No password of the list opens the document. *)
Definition lockedPdf : PdfEnv string :=
  {| fs_readFile := fun _ => Ok "encrypted-bytes";
     fs_readFile_at := fun _ _ => Ok "encrypted-bytes";
     PDFDocument_load := fun _ _ => Throw "Input document to PDFDocument.load is encrypted";
     pdfDoc_save := fun _ => Ok "plain-bytes";
     fs_writeFile := fun _ _ _ => Ok tt |}.

Definition spreadsheetFile : UploadedFile :=
  {| uf_id := "file-4"; uf_originalName := "ledger.csv";
     uf_filename := "5d21-ledger.csv"; uf_path := "/srv/uploads/5d21-ledger.csv";
     uf_size := 2048; uf_mimetype := "text/csv"; uf_type := "other" |}.

(** ** services/ollamaService.js: [checkConnection], [isModelAvailable], [pullModel] *)

(** [String.prototype.split] on the line feed. *)
Fixpoint split_lines (s : string) : list string :=
  match s with
  | EmptyString => [EmptyString]
  | String c rest =>
      if Ascii.eqb c (ascii_of_nat 10) then EmptyString :: split_lines rest
      else match split_lines rest with
           | line :: lines => String c line :: lines
           | [] => [String c EmptyString]
           end
  end.

(** Requests sent to the inference backend by the model management. *)
Inductive Request : Type :=
| GetVersion
| GetTags
| PostPull.

(** The answer to [POST /api/pull]: the [fetch] rejects, or it resolves to
    a response. [fetch] is the one of [node-fetch], imported at the head of
    the file: the [body] of its response is a Node.js stream, or [null] when
    the response has no body ([hasBody] tells which). *)
Inductive PullOutcome : Type :=
| PullRejected (message : string)
| PullResponse (ok : bool) (status : nat) (statusText : string) (hasBody : bool).

(** What the backend answers to the model management, given the requests
    sent before; and the string conversion of a parsed value that is not a
    string, a boolean, [null] or [undefined] inside a template literal (it
    throws on an object that cannot be converted). *)
Record RegistryEnv : Type := {
  registry_baseUrl : string;
  get_version : list Request -> FetchOutcome;
  get_tags : list Request -> FetchOutcome;
  post_pull : list Request -> PullOutcome;
  ToString : JValue -> Exc string
}.

Definition model : string := "qwen2.5vl:7b".

Section ModelRegistry.
Variable env : RegistryEnv.

(** [`${v}`]. *)
Definition template (v : JValue) : Exc string :=
  match v with
  | JStr s => Ok s
  | JUndefined => Ok "undefined"
  | JNull => Ok "null"
  | JBool true => Ok "true"
  | JBool false => Ok "false"
  | _ => ToString env v
  end.

(** [OllamaService.checkConnection]. The version is read for the log line
    [`Connected to Ollama version: ${data.version || 'unknown'}`]. *)
Definition OllamaService_checkConnection (log : list Request) : Exc bool * list Request :=
  (try_catch
     (match get_version env log with
      | Rejected message => Throw message
      | Response ok status statusText json =>
          if negb ok
          then Throw ("Ollama server responded with status: " ++ show status)
          else
            let* data := json in
            let* version := get_prop data "version" in
            let* shown := if truthy version then template version else Ok "unknown" in
            Ok true
      end)
     (fun _ =>
        Throw ("Cannot connect to Ollama at " ++ registry_baseUrl env
               ++ ". Please ensure Ollama is running and accessible.")),
   (log ++ [GetVersion])%list).

(** [model.name.includes('qwen2.5vl')]: on a string, on an array, and a
    [TypeError] on anything else. *)
Definition name_includes (name : JValue) : Exc bool :=
  match name with
  | JStr s => Ok (str_includes s "qwen2.5vl")
  | JArr items =>
      Ok (existsb (fun item => match item with
                               | JStr s => String.eqb s "qwen2.5vl"
                               | _ => false
                               end) items)
  | JUndefined => Throw "Cannot read properties of undefined (reading 'includes')"
  | JNull => Throw "Cannot read properties of null (reading 'includes')"
  | _ => Throw "model.name.includes is not a function"
  end.

(** The callback of [some]:
    [model.name === this.model || model.name.includes('qwen2.5vl')]. *)
Definition matchesModel (entry : JValue) : Exc bool :=
  let* name := get_prop entry "name" in
  match name with
  | JStr s => if String.eqb s model then Ok true else name_includes name
  | _ => name_includes name
  end.

(** [Array.prototype.some] with that callback. *)
Fixpoint someModel (entries : list JValue) : Exc bool :=
  match entries with
  | [] => Ok false
  | entry :: rest =>
      let* found := matchesModel entry in
      if found then Ok true else someModel rest
  end.

(** [data.models?.some(..)]. *)
Definition modelExists (data : JValue) : Exc JValue :=
  let* models := get_prop data "models" in
  match models with
  | JUndefined | JNull => Ok JUndefined
  | JArr entries => let* found := someModel entries in Ok (JBool found)
  | _ => Throw "data.models?.some is not a function"
  end.

(** [OllamaService.isModelAvailable]: the value returned, [true], [false]
    or [undefined]. *)
Definition isModelAvailable (log : list Request) : JValue * list Request :=
  match OllamaService_checkConnection log with
  | (Throw _, log1) => (JBool false, log1)
  | (Ok _, log1) =>
      (match
          (match get_tags env log1 with
           | Rejected message => Throw message
           | Response ok status statusText json =>
               if negb ok then Throw ("Failed to fetch models: " ++ statusText)
               else let* data := json in modelExists data
           end)
        with
        | Ok exists_ => exists_
        | Throw _ => JBool false
        end,
       (log1 ++ [GetTags])%list)
  end.

(** [response.body.getReader()] on the response of [node-fetch]: a Node.js
    stream has no method [getReader], which belongs to the streams of the
    browser's [fetch]; the call throws a [TypeError]. *)
Definition body_getReader (hasBody : bool) : string :=
  if hasBody then "response.body.getReader is not a function"
  else "Cannot read properties of null (reading 'getReader')".

(** [OllamaService.pullModel]. The statements that follow
    [response.body.getReader()] in the [try] block, the loop over the chunks
    of the reply and the availability check, are never reached. *)
Definition pullModel (log : list Request) : Exc unit * list Request :=
  let failed (message : string) : Exc unit :=
    Throw ("Failed to pull model " ++ model ++ ": " ++ message) in
  let log1 := (log ++ [PostPull])%list in
  match post_pull env log with
  | PullRejected m => (failed m, log1)
  | PullResponse ok status statusText hasBody =>
      if negb ok
      then (failed ("Failed to pull model: " ++ show status ++ " " ++ statusText), log1)
      else (failed (body_getReader hasBody), log1)
  end.

End ModelRegistry.

(** *** Notions for the model management *)

(** The names listed by a tags reply. *)
Definition listsNames (data : JValue) (names : list string) : Prop :=
  exists entries,
    get_prop data "models" = Ok (JArr entries) /\
    Forall2 (fun entry name => get_prop entry "name" = Ok (JStr name)) entries names.

(** A backend that lists a smaller variant of the model and accepts the
    pull request. *)
Definition variantRegistry : RegistryEnv :=
  {| registry_baseUrl := "http://localhost:11434";
     get_version := fun _ => Response true 200 "OK" (Ok (JObj [("version", JStr "0.5.1")]));
     get_tags := fun _ =>
       Response true 200 "OK"
         (Ok (JObj [("models", JArr [JObj [("name", JStr "llama3:8b")];
                                     JObj [("name", JStr "qwen2.5vl:3b")]])]));
     post_pull := fun _ => PullResponse true 200 "OK" true;
     ToString := fun _ => Ok "[object Object]" |}.

(** *** Fenced replies *)

(** [s] contains no backtick. *)
Fixpoint noBacktick (s : string) : bool :=
  match s with
  | EmptyString => true
  | String c rest => negb (Ascii.eqb c "`") && noBacktick rest
  end.

(** *** The breakdown of a report *)

(** The entry [key] of [report.detailedAnalysis]. *)
Definition breakdown (report : JValue) (key : string) : Exc JValue :=
  let* detailed := get_prop report "detailedAnalysis" in
  get_prop detailed key.

(** ** The wire format of the event stream and its reader

    [server.js] writes every event as [`data: ${JSON.stringify(..)}\n\n`];
    [ApiService.analyzeWithStreaming] of the browser client reads the response
    body chunk by chunk and takes it apart again. *)

(** The object handed to [JSON.stringify] for an event; [resultValue] is
    the analysis as a JSON value. *)
Definition eventValue (resultValue : AnalysisResult -> JValue) (e : SseEvent) : JValue :=
  match e with
  | ProgressEvent step progress message =>
      JObj [("step", JStr step); ("progress", JNum (Fin progress)); ("message", JStr message)]
  | ResultEvent progress result =>
      JObj [("step", JStr "result"); ("progress", JNum (Fin progress));
            ("result", resultValue result)]
  | ErrorEvent progress error =>
      JObj [("step", JStr "error"); ("progress", JNum (Fin progress)); ("error", JStr error)]
  end.

(** [`data: ${data}\n\n`]. *)
Definition sse_frame (data : string) : string := "data: " ++ data ++ nl ++ nl.

(** Everything written to the response for the events [events]. *)
Definition sse_text (stringify : JValue -> string) (resultValue : AnalysisResult -> JValue)
    (events : list SseEvent) : string :=
  String.concat "" (map (fun e => sse_frame (stringify (eventValue resultValue e))) events).

(** The reason of a rejection: [new Error(error)] for the [error] of an
    error event, or an error raised by [fetch], by the reader or by the
    client itself, with its message. *)
Inductive Reason : Type :=
| ErrorOf (error : JValue)
| Raised (message : string).

Inductive PromiseState : Type :=
| Pending
| Resolved (value : JValue)
| Rejects (reason : Reason).

(** The promise returned by [analyzeWithStreaming] and the arguments of the
    calls of [progressCallback] so far. *)
Record ClientState : Type := {
  calls : list JValue;
  promise : PromiseState
}.

Definition initialClient : ClientState := {| calls := []; promise := Pending |}.

(** [resolve] and [reject] settle a pending promise and do nothing
    otherwise. *)
Definition settle (st : ClientState) (outcome : PromiseState) : ClientState :=
  match promise st with
  | Pending => {| calls := calls st; promise := outcome |}
  | _ => st
  end.

(** The answer to the [POST /api/analyze] of the client. *)
Inductive AnalyzeResponse : Type :=
| FetchFailed (message : string)
| HttpResponse (ok : bool) (statusText : string) (body : option (list (Exc string))).

(** [v === s] for a string [s]. *)
Definition is_string (v : JValue) (s : string) : bool :=
  match v with
  | JStr x => String.eqb x s
  | _ => false
  end.

Section StreamingClient.
Variable JSON_parse : string -> Exc JValue.
(** Whether a [progressCallback] was passed. *)
Variable progressCallback : bool.

(** The body of the loop over the complete lines, for one line; the flag
    tells whether the [then] callback has returned. *)
Definition handleLine (line : string) (st : ClientState) : ClientState * bool :=
  if startsWith line "data: " then
    match JSON_parse (drop 6 line) with
    | Throw _ => (st, false)
    | Ok data =>
        match get_prop data "step" with
        | Throw _ => (st, false)
        | Ok step =>
            if is_string step "result" then
              match get_prop data "result" with
              | Ok value => (settle st (Resolved value), true)
              | Throw _ => (st, false)
              end
            else if is_string step "error" then
              match get_prop data "error" with
              | Ok error => (settle st (Rejects (ErrorOf error)), true)
              | Throw _ => (st, false)
              end
            else
              (if progressCallback
               then {| calls := (calls st ++ [data])%list; promise := promise st |}
               else st, false)
        end
    end
  else (st, false).

Fixpoint handleLines (lines : list string) (st : ClientState) : ClientState * bool :=
  match lines with
  | [] => (st, false)
  | line :: rest =>
      match handleLine line st with
      | (st', true) => (st', true)
      | (st', false) => handleLines rest st'
      end
  end.

(** [readStream]: one [reader.read()] per chunk; [buffer] holds the
    incomplete last line. *)
Fixpoint readStream (chunks : list (Exc string)) (buffer : string) (st : ClientState)
    : ClientState :=
  match chunks with
  | [] => st
  | Throw m :: _ => settle st (Rejects (Raised m))
  | Ok value :: rest =>
      let lines := split_lines (buffer ++ value) in
      match handleLines (removelast lines) st with
      | (st', true) => st'
      | (st', false) => readStream rest (last lines "") st'
      end
  end.

Definition analyzeWithStreaming (response : AnalyzeResponse) : ClientState :=
  match response with
  | FetchFailed m => settle initialClient (Rejects (Raised m))
  | HttpResponse ok statusText body =>
      if negb ok
      then settle initialClient (Rejects (Raised ("Analysis failed: " ++ statusText)))
      else match body with
           | None => settle initialClient (Rejects (Raised "No response body"))
           | Some chunks => readStream chunks "" initialClient
           end
  end.

End StreamingClient.

(** [s] contains no line feed. *)
Fixpoint singleLine (s : string) : bool :=
  match s with
  | EmptyString => true
  | String c rest => negb (Ascii.eqb c (ascii_of_nat 10)) && singleLine rest
  end.

(** [JSON.parse] gives back the events of [events] from what
    [JSON.stringify] made of them, on one line each. *)
Definition roundTrip (stringify : JValue -> string) (parse : string -> Exc JValue)
    (resultValue : AnalysisResult -> JValue) (events : list SseEvent) : Prop :=
  forall e, In e events ->
    singleLine (stringify (eventValue resultValue e)) = true /\
    parse (stringify (eventValue resultValue e)) = Ok (eventValue resultValue e).

(** What the promise of the client becomes on the terminal event. *)
Definition outcomeOf (resultValue : AnalysisResult -> JValue) (terminal : SseEvent)
    : PromiseState :=
  match terminal with
  | ResultEvent _ result => Resolved (resultValue result)
  | ErrorEvent _ error => Rejects (ErrorOf (JStr error))
  | ProgressEvent _ _ _ => Pending
  end.

(** A codec for the scenarios: it knows the two events of a request that
    finds the inference backend unreachable. *)
Definition wireStringify (v : JValue) : string :=
  match lookup "step" (match v with JObj fields => fields | _ => [] end) with
  | JStr step => "{step:" ++ step ++ "}"
  | _ => "null"
  end.

Definition wireParse (s : string) : Exc JValue :=
  match filter (fun e => String.eqb s (wireStringify (eventValue (fun _ => JNull) e)))
               (analyzeStream unreachableServer [statementFile]) with
  | e :: _ => Ok (eventValue (fun _ => JNull) e)
  | [] => Throw "Unexpected token"
  end.

(** ** server.js: the [/api/upload] handler and the services it is wired to *)

(** A file as [multer] stored it. *)
Record MulterFile : Type := {
  mf_originalname : string;
  mf_filename : string;
  mf_path : string;
  mf_size : nat;
  mf_mimetype : string
}.

Inductive UploadReply : Type :=
| UploadRejected (status : nat) (error : string)
| UploadAccepted (files : list UploadedFile) (message : string).

(** [req.body.type || 'other'], for a text field of the form that is
    absent ([None]) or present. *)
Definition declaredType (bodyType : option string) : string :=
  match bodyType with
  | Some t => if String.eqb t "" then "other" else t
  | None => "other"
  end.

(** [req.files.map(file => ({ id: uuidv4(), .. }))]; [calls] counts the
    identifiers drawn so far. *)
Fixpoint uploadedFiles (uuidv4 : nat -> string) (calls : nat) (files : list MulterFile)
    (bodyType : option string) : list UploadedFile :=
  match files with
  | [] => []
  | file :: rest =>
      {| uf_id := uuidv4 calls;
         uf_originalName := mf_originalname file;
         uf_filename := mf_filename file;
         uf_path := mf_path file;
         uf_size := mf_size file;
         uf_mimetype := mf_mimetype file;
         uf_type := declaredType bodyType |}
      :: uploadedFiles uuidv4 (S calls) rest bodyType
  end.

(** The handler of [POST /api/upload]; [files] is [req.files]. *)
Definition uploadHandler (uuidv4 : nat -> string) (files : option (list MulterFile))
    (bodyType : option string) : UploadReply :=
  match files with
  | None | Some [] => UploadRejected 400 "No files uploaded"
  | Some files =>
      let uploaded := uploadedFiles uuidv4 0 files bodyType in
      UploadAccepted uploaded
        ("Successfully uploaded " ++ show (List.length uploaded) ++ " files")
  end.

(** The form that [ApiService.uploadDocuments] of the browser client posts
    holds the files only, and no [type] field. *)
Definition clientBodyType : option string := None.

(** The services as [server.js] wires them: the document processor on the
    temporary directory serves the [/api/analyze] handler. *)
Definition assembledServer {PdfDoc : Type} (pdf : PdfEnv PdfDoc) (conv : ConverterEnv)
    (tempDir uploads url : string) (reachable : bool) (onDisk : string -> bool)
    (backend : OllamaEnv) : ServerEnv :=
  {| baseUrl := url;
     version_reachable := reachable;
     uploadsDir := uploads;
     fs_pathExists := fun _ filePath => onDisk filePath;
     processDocument := fun _ filePath file =>
       fst (DocumentProcessor_processDocument pdf conv tempDir filePath file []);
     ollama := backend |}.

(** Two PDF files as stored by [multer]. *)
Definition storedFiles : list MulterFile :=
  [ {| mf_originalname := "statement.pdf"; mf_filename := "7f3a-statement.pdf";
       mf_path := "/srv/uploads/7f3a-statement.pdf"; mf_size := 2048;
       mf_mimetype := "application/pdf" |};
    {| mf_originalname := "balance.pdf"; mf_filename := "11c0-balance.pdf";
       mf_path := "/srv/uploads/11c0-balance.pdf"; mf_size := 4096;
       mf_mimetype := "application/pdf" |} ].

Definition wiredServer : ServerEnv :=
  assembledServer lockedPdf (twoPageConverter (Ok tt)) "/srv/temp" "/srv/uploads"
    "http://localhost:11434" true (fun _ => true) proseEnv.

(** * Properties *)

(** ** Password probing ([handleEncryptedPDF]) *)

Lemma loads_app (l1 l2 : list PdfEvent) : loads (l1 ++ l2)%list = (loads l1 ++ loads l2)%list.
Proof.
  induction l1 as [|[p|p b] l1 IH]; simpl; [reflexivity| now rewrite IH | exact IH].
Qed.

Lemma writes_app (l1 l2 : list PdfEvent) :
  writes (l1 ++ l2)%list = (writes l1 ++ writes l2)%list.
Proof.
  induction l1 as [|[p|p b] l1 IH]; simpl; [reflexivity | exact IH | now rewrite IH].
Qed.

Lemma loads_LoadWith (passwords : list string) : loads (map LoadWith passwords) = passwords.
Proof. induction passwords as [|p rest IH]; simpl; [reflexivity | now rewrite IH]. Qed.

Lemma writes_LoadWith (passwords : list string) : writes (map LoadWith passwords) = [].
Proof. induction passwords as [|p rest IH]; simpl; [reflexivity | exact IH]. Qed.

Section ProbingFacts.
Context {PdfDoc : Type}.
Variable env : PdfEnv PdfDoc.
Variables tempDir filePath documentId : string.

Lemma handed_app (tried later : list string) :
  forall probe,
    handed env filePath probe (tried ++ later)
    = (handed env filePath probe tried
       ++ handed env filePath (probe + List.length tried) later)%list.
Proof.
  induction tried as [|p tried IH]; intros probe.
  - cbn. now rewrite Nat.add_0_r.
  - cbn [app handed List.length]. rewrite IH.
    replace (S probe + List.length tried) with (probe + S (List.length tried)) by lia.
    now destruct (succeeded (fs_readFile_at env probe filePath)).
Qed.

Lemma persists_spec (probe : nat) (password : string) :
  persists env tempDir filePath documentId probe password = true <->
  exists bytes, persisted env tempDir filePath documentId probe password bytes.
Proof.
  unfold persists, persisted. split.
  - destruct (fs_readFile_at env probe filePath) as [buf|] eqn:Hr; [|discriminate].
    destruct (PDFDocument_load env buf password) as [doc|] eqn:Hl; [|discriminate].
    destruct (pdfDoc_save env doc) as [bytes|] eqn:Hs; [|discriminate].
    destruct (fs_writeFile env probe (unencryptedPath tempDir documentId) bytes)
      as [[]|] eqn:Hw; [|discriminate].
    intros _. now exists bytes, buf, doc.
  - intros (bytes & buf & doc & Hr & Hl & Hs & Hw). now rewrite Hr, Hl, Hs, Hw.
Qed.

(** One probe: a written copy, or an error after which the loop goes on. *)
Lemma tryPassword_cases (probe : nat) (password : string) (log : list PdfEvent) :
  (persists env tempDir filePath documentId probe password = true /\
   exists bytes,
     persisted env tempDir filePath documentId probe password bytes /\
     tryPassword env tempDir probe filePath documentId password log
     = (Ok (unencryptedPath tempDir documentId),
        (log ++ [LoadWith password]
             ++ [Written (unencryptedPath tempDir documentId) bytes])%list)) \/
  (persists env tempDir filePath documentId probe password = false /\
   exists m,
     tryPassword env tempDir probe filePath documentId password log
     = (Throw m, (log ++ map LoadWith (handed env filePath probe [password]))%list)).
Proof.
  unfold persists, persisted, tryPassword. cbn [handed].
  destruct (fs_readFile_at env probe filePath) as [buf|m] eqn:Hr; cbn [succeeded map].
  2:{ right. split; [reflexivity|]. exists m. now rewrite app_nil_r. }
  destruct (PDFDocument_load env buf password) as [doc|m] eqn:Hl.
  2:{ right. split; [reflexivity|]. now exists m. }
  destruct (pdfDoc_save env doc) as [bytes|m] eqn:Hs.
  2:{ right. split; [reflexivity|]. now exists m. }
  destruct (fs_writeFile env probe (unencryptedPath tempDir documentId) bytes)
    as [[]|m] eqn:Hw.
  - left. split; [reflexivity|]. exists bytes. split; [now exists buf, doc|].
    now rewrite <- app_assoc.
  - right. split; [reflexivity|]. now exists m.
Qed.

Lemma probePasswords_none (passwords : list string) :
  forall (probe : nat) (log : list PdfEvent),
    (forall i q, nth_error passwords i = Some q ->
                 persists env tempDir filePath documentId (probe + i) q = false) ->
    probePasswords env tempDir probe passwords filePath documentId log
    = (Throw "Could not decrypt PDF - password protected",
       (log ++ map LoadWith (handed env filePath probe passwords))%list).
Proof.
  induction passwords as [|p rest IH]; intros probe log Hno.
  - cbn. now rewrite app_nil_r.
  - cbn [probePasswords].
    destruct (tryPassword_cases probe p log) as [(Hyes & _) | (_ & m & ->)].
    + specialize (Hno 0 p eq_refl). rewrite Nat.add_0_r in Hno. congruence.
    + rewrite IH.
      * rewrite <- app_assoc, <- map_app.
        change (p :: rest) with ([p] ++ rest)%list. rewrite handed_app.
        cbn [List.length]. now replace (probe + 1) with (S probe) by lia.
      * intros i q Hq. replace (S probe + i) with (probe + S i) by lia.
        now apply Hno.
Qed.

Lemma probePasswords_first (tried : list string) (password : string)
    (later : list string) :
  forall (probe : nat) (log : list PdfEvent),
    (forall i q, nth_error tried i = Some q ->
                 persists env tempDir filePath documentId (probe + i) q = false) ->
    persists env tempDir filePath documentId (probe + List.length tried) password = true ->
    exists bytes,
      persisted env tempDir filePath documentId (probe + List.length tried) password bytes /\
      probePasswords env tempDir probe (tried ++ password :: later)%list
        filePath documentId log
      = (Ok (unencryptedPath tempDir documentId),
         (log ++ map LoadWith (handed env filePath probe tried ++ [password])
              ++ [Written (unencryptedPath tempDir documentId) bytes])%list).
Proof.
  induction tried as [|p tried IH]; intros probe log Hno Hyes.
  - cbn [List.length app probePasswords handed map] in *. rewrite Nat.add_0_r in *.
    destruct (tryPassword_cases probe password log)
      as [(_ & bytes & Hcopy & ->) | (Hnot & _)]; [|congruence].
    exists bytes. now split.
  - cbn [List.length app probePasswords].
    destruct (tryPassword_cases probe p log) as [(Hp & _) | (_ & m & ->)].
    + specialize (Hno 0 p eq_refl). rewrite Nat.add_0_r in Hno. congruence.
    + destruct (IH (S probe) (log ++ map LoadWith (handed env filePath probe [p]))%list)
        as (bytes & Hcopy & ->).
      * intros i q Hq. replace (S probe + i) with (probe + S i) by lia. now apply Hno.
      * now replace (S probe + List.length tried)
          with (probe + S (List.length tried)) by lia.
      * exists bytes.
        replace (S probe + List.length tried)
          with (probe + S (List.length tried)) in Hcopy by lia.
        split; [exact Hcopy|].
        rewrite <- !app_assoc. rewrite (app_assoc (map LoadWith _) (map LoadWith _)).
        rewrite <- map_app. cbn [handed].
        destruct (succeeded (fs_readFile_at env probe filePath)); reflexivity.
Qed.

(** Either no probe leads to a written copy, or there is a first one that
    does. *)
Lemma first_persisting (passwords : list string) :
  forall probe,
    (forall i q, nth_error passwords i = Some q ->
                 persists env tempDir filePath documentId (probe + i) q = false) \/
    (exists tried password later,
        passwords = (tried ++ password :: later)%list /\
        (forall i q, nth_error tried i = Some q ->
                     persists env tempDir filePath documentId (probe + i) q = false) /\
        persists env tempDir filePath documentId (probe + List.length tried) password
        = true).
Proof.
  induction passwords as [|p rest IH]; intros probe.
  - left. intros [|i] q H; discriminate H.
  - destruct (persists env tempDir filePath documentId probe p) eqn:Hp.
    + right. exists [], p, rest. split; [reflexivity|].
      split; [intros [|i] q H; discriminate H|].
      cbn [List.length]. now rewrite Nat.add_0_r.
    + destruct (IH (S probe)) as [Hall | (tried & q & later & -> & Hno & Hq)].
      * left. intros [|i] r Hr.
        -- injection Hr as <-. now rewrite Nat.add_0_r.
        -- replace (probe + S i) with (S probe + i) by lia. now apply Hall.
      * right. exists (p :: tried), q, later. split; [reflexivity|]. split.
        -- intros [|i] r Hr.
           ++ injection Hr as <-. now rewrite Nat.add_0_r.
           ++ replace (probe + S i) with (S probe + i) by lia. now apply Hno.
        -- cbn [List.length].
           now replace (probe + S (List.length tried))
             with (S probe + List.length tried) by lia.
Qed.


End ProbingFacts.

(** What [handleEncryptedPDF] returns and writes. *)
Lemma handleEncryptedPDF_result {PdfDoc : Type} (env : PdfEnv PdfDoc)
    (tempDir filePath documentId : string) (log : list PdfEvent) :
  exists events,
    snd (handleEncryptedPDF env tempDir filePath documentId log) = (log ++ events)%list /\
    ((fst (handleEncryptedPDF env tempDir filePath documentId log)
      = Ok (unencryptedPath tempDir documentId) /\
      exists bytes, writes events = [(unencryptedPath tempDir documentId, bytes)]) \/
     (fst (handleEncryptedPDF env tempDir filePath documentId log)
      = Throw "Could not decrypt PDF - password protected" /\
      writes events = [])).
Proof.
  unfold handleEncryptedPDF.
  destruct (first_persisting env tempDir filePath documentId commonPasswords 0)
    as [Hnone | (tried & password & later & Hsplit & Hno & Hyes)].
  - rewrite (probePasswords_none env tempDir filePath documentId commonPasswords 0 log Hnone).
    eexists. split; [reflexivity|]. right. split; [reflexivity | apply writes_LoadWith].
  - destruct (probePasswords_first env tempDir filePath documentId tried password later
                0 log Hno Hyes) as (bytes & _ & Hrun).
    rewrite Hsplit, Hrun. eexists. split; [reflexivity|]. left.
    split; [reflexivity|]. exists bytes. now rewrite writes_app, writes_LoadWith.
Qed.




Example probing_continues_when_copy_cannot_be_written :
  handleEncryptedPDF readOnlyTempPdf "/srv/temp" "/srv/uploads/a.pdf" "file-1" []
  = (Throw "Could not decrypt PDF - password protected",
     [LoadWith ""; LoadWith "password"; LoadWith "123456"; LoadWith "admin";
      LoadWith "user"]).
Proof. reflexivity. Qed.

(** ** Bounded retries ([analyzeImage]) *)

Lemma attempts_app (l1 l2 : list Event) : attempts (l1 ++ l2)%list = attempts l1 + attempts l2.
Proof.
  induction l1 as [|[p q|ms] l1 IH]; simpl; [reflexivity | now rewrite IH | exact IH].
Qed.

Lemma attempts_retryTrace imagePath prompt k :
  1 <= k -> attempts (retryTrace imagePath prompt k) = k.
Proof.
  intros Hk. unfold retryTrace. rewrite attempts_app. simpl.
  assert (H : forall j, attempts (failedRounds imagePath prompt j) = j)
    by (induction j as [|j IH]; simpl; [reflexivity | now rewrite IH]).
  rewrite H. lia.
Qed.

(** The run of [analyzeImage] from retry counter [retryCount]. *)
Lemma analyzeImage_run (env : OllamaEnv) (imagePath prompt : string)
    (retryCount : nat) (log : list Event) :
  retryCount <= maxRetries ->
  exists k,
    1 <= k <= maxRetries + 1 - retryCount /\
    snd (analyzeImage env imagePath prompt retryCount log)
    = (log ++ retryTrace imagePath prompt k)%list /\
    (forall j, j < k - 1 ->
               exists e, attemptOutcome env log imagePath prompt j = Throw e) /\
    match fst (analyzeImage env imagePath prompt retryCount log) with
    | Ok response => attemptOutcome env log imagePath prompt (k - 1) = Ok response
    | Throw message =>
        k = maxRetries + 1 - retryCount /\
        exists e,
          attemptOutcome env log imagePath prompt (k - 1) = Throw e /\
          message = "Failed to analyze image after " ++ show (maxRetries + 1)
                    ++ " attempts: " ++ e
    end.
Proof.
  funelim (analyzeImage env imagePath prompt retryCount log); intros Hle.
  - (* the attempt succeeds *)
    exists 1. split; [lia|]. split; [reflexivity|]. split; [intros j Hj; lia|].
    cbn [fst]. unfold attemptOutcome. change (1 - 1) with 0. cbn [failedRounds].
    now rewrite app_nil_r.
  - (* the attempt fails and a retry follows *)
    rename H into IH.
    destruct IH as (k & Hk & Hlog & Hfail & Hres); [lia|].
    exists (S k). split; [lia|].
    assert (Hshift : forall j,
               attemptOutcome env (log ++ [Attempt imagePath0 prompt] ++ [Sleep retryDelay])%list
                 imagePath0 prompt j
               = attemptOutcome env log imagePath0 prompt (S j)).
    { intros j. unfold attemptOutcome. cbn [failedRounds].
      now rewrite <- app_assoc. }
    replace (S k - 1) with (S (k - 1)) by lia.
    split; [|split].
    + rewrite Hlog. unfold retryTrace. rewrite <- !app_assoc.
      replace (S k - 1) with (S (k - 1)) by lia. reflexivity.
    + intros [|j] Hj.
      * exists message. unfold attemptOutcome. cbn [failedRounds].
        now rewrite app_nil_r.
      * destruct (Hfail j) as [e He]; [lia|]. exists e. now rewrite <- Hshift.
    + destruct (fst (analyzeImage env imagePath0 prompt (S retryCount)
                       (log ++ [Attempt imagePath0 prompt] ++ [Sleep retryDelay])%list)).
      * now rewrite <- Hshift.
      * destruct Hres as (Hkk & e & He & Hm). split; [lia|].
        exists e. split; [now rewrite <- Hshift | exact Hm].
  - (* the attempt fails and the retries are exhausted *)
    exists 1. split; [lia|]. split; [reflexivity|]. split; [intros j Hj; lia|].
    cbn [fst]. split; [lia|]. exists message. split; [|reflexivity].
    unfold attemptOutcome. change (1 - 1) with 0. cbn [failedRounds].
    now rewrite app_nil_r.
Qed.

(** C5. For every image path and prompt, [analyzeImage] makes at most
    [maxRetries + 1 = 4] attempts, separated by waits of the fixed
    [retryDelay] of 2000 ms; it returns the reply of the first attempt that
    succeeds, and when the fourth attempt fails too it throws 'Failed to
    analyze image after 4 attempts: ' followed by the message of that last
    failure. The function is total: the retry counter bounds the recursion. *)
Theorem analyzeImage_bounded_retries :
  forall (env : OllamaEnv) (imagePath prompt : string) (log : list Event),
  exists k,
    1 <= k <= maxRetries + 1 /\ maxRetries + 1 = 4 /\ retryDelay = 2000 /\
    snd (analyzeImage env imagePath prompt 0 log)
    = (log ++ retryTrace imagePath prompt k)%list /\
    attempts (snd (analyzeImage env imagePath prompt 0 log)) = attempts log + k /\
    (forall j, j < k - 1 ->
               exists e, attemptOutcome env log imagePath prompt j = Throw e) /\
    match fst (analyzeImage env imagePath prompt 0 log) with
    | Ok response => attemptOutcome env log imagePath prompt (k - 1) = Ok response
    | Throw message =>
        k = 4 /\
        exists e,
          attemptOutcome env log imagePath prompt 3 = Throw e /\
          message = "Failed to analyze image after 4 attempts: " ++ e
    end.
Proof.
  intros env imagePath prompt log.
  destruct (analyzeImage_run env imagePath prompt 0 log) as (k & Hk & Hlog & Hfail & Hres);
    [unfold maxRetries; lia|].
  exists k. split; [lia|]. split; [reflexivity|]. split; [reflexivity|].
  split; [exact Hlog|]. split; [|split; [exact Hfail|]].
  - rewrite Hlog, attempts_app, attempts_retryTrace by lia. reflexivity.
  - destruct (fst (analyzeImage env imagePath prompt 0 log)); [exact Hres|].
    destruct Hres as (Hkk & e & He & Hm).
    assert (k = 4) by (rewrite Hkk; reflexivity). subst k.
    split; [reflexivity|]. exists e. split; [exact He | exact Hm].
Qed.

(** ** Page-by-page analysis ([analyzeMultipleImages]) *)

Lemma attemptBody_Ok_nonempty path a response :
  attemptBody path a = Ok response -> response <> "".
Proof.
  destruct a as [ | m | m | st stt et | m | [r|]]; simpl; try discriminate.
  destruct (String.eqb r "") eqn:Hr; simpl; [discriminate|].
  intros [= <-] ->. discriminate.
Qed.

(** The outcome of one call [analyzeImage path prompt] with the default
    retry counter. *)
Lemma analyzeImage_outcome (env : OllamaEnv) (path prompt : string) (log : list Event) :
  exists k,
    1 <= k <= 4 /\
    snd (analyzeImage env path prompt 0 log) = (log ++ retryTrace path prompt k)%list /\
    match fst (analyzeImage env path prompt 0 log) with
    | Ok response => response <> ""
    | Throw message => message <> ""
    end.
Proof.
  destruct (analyzeImage_run env path prompt 0 log) as (k & Hk & Hlog & _ & Hres);
    [unfold maxRetries; lia|].
  exists k. split; [unfold maxRetries in Hk; lia|]. split; [exact Hlog|].
  destruct (fst (analyzeImage env path prompt 0 log)) as [r|m].
  - exact (attemptBody_Ok_nonempty _ _ _ Hres).
  - destruct Hres as (_ & e & _ & ->). discriminate.
Qed.

Lemma analyzePages_run (env : OllamaEnv) (prompt : string) (total : nat)
    (rest : list string) :
  forall (i : nat) (results : list PageAnalysisResult) (log : list Event),
  exists new ks,
    fst (analyzePages env prompt total i rest results log) = (results ++ new)%list /\
    map page new = seq (i + 1) (List.length rest) /\
    map imagePath new = rest /\
    Forall recorded new /\
    List.length ks = List.length rest /\
    Forall (fun k => 1 <= k <= 4) ks /\
    snd (analyzePages env prompt total i rest results log)
    = (log ++ pageRuns prompt total i rest ks)%list.
Proof.
  induction rest as [|path rest IH]; intros i results log.
  - exists [], []. simpl. rewrite !app_nil_r. repeat split; constructor.
  - destruct (analyzeImage_outcome env path (pagePrompt prompt i total) log)
      as (k & Hk & Hlog & Hres).
    cbn [analyzePages].
    destruct (analyzeImage env path (pagePrompt prompt i total) 0 log) as [[r|m] log'];
      cbn [fst snd] in Hlog, Hres; subst log'.
    + match goal with
      | |- context [analyzePages env prompt total (S i) rest ?rs ?lg] =>
          destruct (IH (S i) rs lg) as (new & ks & Hnew & Hpages & Hpaths & Hrec & Hlen & Hks & Hrun)
      end.
      eexists (_ :: new), (k :: ks). rewrite Hnew, Hrun, <- !app_assoc.
      split; [reflexivity|]. cbn [map page imagePath List.length seq pageRuns].
      rewrite Hpages, Hpaths, Hlen.
      replace (S i + 1) with (S (i + 1)) by lia.
      repeat split; try reflexivity; try lia.
      * constructor; [|exact Hrec]. left. exists r. now repeat split.
      * constructor; [lia | exact Hks].
    + match goal with
      | |- context [analyzePages env prompt total (S i) rest ?rs ?lg] =>
          destruct (IH (S i) rs lg) as (new & ks & Hnew & Hpages & Hpaths & Hrec & Hlen & Hks & Hrun)
      end.
      eexists (_ :: new), (k :: ks). rewrite Hnew, Hrun, <- !app_assoc.
      split; [reflexivity|]. cbn [map page imagePath List.length seq pageRuns].
      rewrite Hpages, Hpaths, Hlen.
      replace (S i + 1) with (S (i + 1)) by lia.
      repeat split; try reflexivity; try lia.
      * constructor; [|exact Hrec]. right. exists m. now repeat split.
      * constructor; [lia | exact Hks].
Qed.

(** Every result of [analyzeMultipleImages] has one of the two recorded
    shapes. *)
Lemma analyzeMultipleImages_recorded (env : OllamaEnv) (imagePaths : list string)
    (prompt : string) (log : list Event) :
  Forall recorded (fst (analyzeMultipleImages env imagePaths prompt log)).
Proof.
  unfold analyzeMultipleImages.
  destruct (analyzePages_run env prompt (List.length imagePaths) imagePaths 0 [] log)
    as (new & ks & Hnew & _ & _ & Hrec & _).
  rewrite Hnew. exact Hrec.
Qed.

(** The loop of the code is the batch of the specification. *)
Lemma analyzePages_batch (env : OllamaEnv) (prompt : string) (total : nat)
    (rest : list string) :
  forall (i : nat) (results : list PageAnalysisResult) (log : list Event),
    analyzePages env prompt total i rest results log
    = ((results ++ fst (batchFrom env prompt total (i + 1) rest log))%list,
       snd (batchFrom env prompt total (i + 1) rest log)).
Proof.
  induction rest as [|path rest IH]; intros i results log.
  - cbn. now rewrite app_nil_r.
  - cbn [analyzePages batchFrom fst snd].
    change (pagePrompt prompt i total) with (promptOfPage prompt (i + 1) total).
    destruct (analyzeImage env path (promptOfPage prompt (i + 1) total) 0 log)
      as [[narrative|message] log'];
      rewrite IH; cbn [fst snd pageResult];
      replace (S i + 1) with (S (i + 1)) by lia; now rewrite <- app_assoc.
Qed.

(** The result at position [i] of a batch is the outcome of the analysis
    of the image at position [i], made after the images before it. *)
Lemma batchFrom_nth (env : OllamaEnv) (prompt : string) (total : nat)
    (paths : list string) :
  forall (pageNumber : nat) (log : list Event) (i : nat) (path : string),
    nth_error paths i = Some path ->
    nth_error (fst (batchFrom env prompt total pageNumber paths log)) i
    = Some (pageResult (pageNumber + i) path
              (fst (analyzeImage env path (promptOfPage prompt (pageNumber + i) total) 0
                      (snd (batchFrom env prompt total pageNumber (firstn i paths) log))))).
Proof.
  induction paths as [|first paths IH]; intros pageNumber log i path Hpath.
  - destruct i; discriminate Hpath.
  - destruct i as [|i].
    + injection Hpath as <-. cbn [batchFrom fst snd nth_error firstn].
      now rewrite Nat.add_0_r.
    + cbn [batchFrom fst snd nth_error firstn]. cbn [nth_error] in Hpath.
      rewrite (IH (S pageNumber) _ i path Hpath).
      now replace (S pageNumber + i) with (pageNumber + S i) by lia.
Qed.

(** C8. For every list of [n] image paths, [analyzeMultipleImages] returns
    exactly [n] results, with page numbers [1..n] and the image paths in
    input order. The images are analysed one after the other: the result at
    position [i] records the outcome of [analyzeImage] on the image at
    position [i], called after the analyses of the images before it and with
    the prompt extended by a blank line and the suffix 'This is page i+1 of
    n. Please analyze this page ..'; each image is attempted at least once and
    at most four times. Every result carries a narrative and no error
    (success) or an error message and no narrative (failure), so a page that
    exhausts its retries is recorded as a failure and the remaining pages are
    still attempted and recorded. *)
Theorem analyzeMultipleImages_records_every_page :
  forall (env : OllamaEnv) (imagePaths : list string) (prompt : string) (log : list Event),
    let results := fst (analyzeMultipleImages env imagePaths prompt log) in
    let n := List.length imagePaths in
    List.length results = n /\
    map page results = seq 1 n /\
    map imagePath results = imagePaths /\
    Forall recorded results /\
    analyzeMultipleImages env imagePaths prompt log
    = batchFrom env prompt n 1 imagePaths log /\
    (forall (i : nat) (path : string),
        nth_error imagePaths i = Some path ->
        nth_error results i
        = Some (pageResult (i + 1) path
                  (fst (analyzeImage env path
                          (prompt ++ nl ++ nl ++ "This is page " ++ show (i + 1)
                           ++ " of " ++ show n
                           ++ ". Please analyze this page and extract relevant financial information. Be specific and detailed in your analysis.")
                          0
                          (snd (batchFrom env prompt n 1 (firstn i imagePaths) log)))))) /\
    exists ks,
      List.length ks = n /\
      Forall (fun k => 1 <= k <= maxRetries + 1) ks /\
      snd (analyzeMultipleImages env imagePaths prompt log)
      = (log ++ pageRuns prompt n 0 imagePaths ks)%list.
Proof.
  intros env imagePaths prompt log results n. subst results n.
  assert (Hbatch : analyzeMultipleImages env imagePaths prompt log
                   = batchFrom env prompt (List.length imagePaths) 1 imagePaths log).
  { unfold analyzeMultipleImages. rewrite analyzePages_batch. cbn [app Nat.add].
    now destruct (batchFrom env prompt (List.length imagePaths) 1 imagePaths log). }
  assert (Hnth : forall i path,
             nth_error imagePaths i = Some path ->
             nth_error (fst (analyzeMultipleImages env imagePaths prompt log)) i
             = Some (pageResult (i + 1) path
                       (fst (analyzeImage env path
                               (promptOfPage prompt (i + 1) (List.length imagePaths)) 0
                               (snd (batchFrom env prompt (List.length imagePaths) 1
                                       (firstn i imagePaths) log)))))).
  { intros i path Hpath. rewrite Hbatch.
    rewrite (batchFrom_nth env prompt (List.length imagePaths) imagePaths 1 log i path Hpath).
    now rewrite (Nat.add_comm 1 i). }
  unfold analyzeMultipleImages in *.
  destruct (analyzePages_run env prompt (List.length imagePaths) imagePaths 0 [] log)
    as (new & ks & Hnew & Hpages & Hpaths & Hrec & Hlen & Hks & Hrun).
  rewrite Hnew, Hrun in *. cbn [app] in *.
  split; [rewrite <- (length_map page), Hpages; apply length_seq|].
  split; [exact Hpages|]. split; [exact Hpaths|]. split; [exact Hrec|].
  split; [exact Hbatch|]. split; [exact Hnth|].
  exists ks. split; [exact Hlen|]. split; [exact Hks | reflexivity].
Qed.

(** Three pages of which the second fails at each of its four attempts:
    the third page is analysed all the same. *)
Example failed_page_does_not_stop_the_batch :
  let env := {| image_attempt := fun _ imagePath _ =>
                  if String.eqb imagePath "/tmp/doc/page.2.png"
                  then FetchRejected "socket hang up"
                  else Replied (Some ("Text of " ++ imagePath));
                generate := fun _ => Rejected "unused";
                JSON_parse := fun _ => Throw "unused";
                JSON_stringify := fun _ => "[]";
                modelAvailable := true;
                pull := Ok tt;
                toISOString_now := "2024-01-01T00:00:00.000Z" |} in
  fst (analyzeMultipleImages env
         ["/tmp/doc/page.1.png"; "/tmp/doc/page.2.png"; "/tmp/doc/page.3.png"]
         "Extract the figures." [])
  = [ {| page := 1; imagePath := "/tmp/doc/page.1.png";
         analysis := Some "Text of /tmp/doc/page.1.png"; error := None; success := true |};
      {| page := 2; imagePath := "/tmp/doc/page.2.png"; analysis := None;
         error := Some "Failed to analyze image after 4 attempts: socket hang up";
         success := false |};
      {| page := 3; imagePath := "/tmp/doc/page.3.png";
         analysis := Some "Text of /tmp/doc/page.3.png"; error := None; success := true |} ].
Proof. vm_compute. reflexivity. Qed.

(** ** Combining page narratives ([combinePageAnalyses]) *)

Lemma join_cons_nonempty sep c s rest : join sep (String c s :: rest) <> "".
Proof. destruct rest; simpl; discriminate. Qed.

Lemma join_labelled_not_message (p : nat * string) (rest : list (nat * string)) :
  join (nl ++ nl) (map labelled (p :: rest))
  <> "Failed to extract information from document pages".
Proof. destruct rest; cbn; discriminate. Qed.

(** The pages that the filter of the code keeps. *)
Lemma valid_pages_kept (pageAnalyses : list PageAnalysisResult) :
  map pageLabel (filter (fun a => negb (truthy_str (error a))) pageAnalyses)
  = map labelled (keptNarratives pageAnalyses).
Proof.
  unfold keptNarratives.
  induction pageAnalyses as [|r rest IH]; [reflexivity|].
  cbn [filter]. unfold withoutError at 1.
  destruct (error r) as [message|]; cbn [truthy_str].
  - destruct (String.eqb message ""); cbn [negb map]; [|exact IH].
    rewrite IH. reflexivity.
  - cbn [negb map]. rewrite IH. reflexivity.
Qed.

Lemma keptNarratives_nil (pageAnalyses : list PageAnalysisResult) :
  keptNarratives pageAnalyses = [] <->
  (forall r, In r pageAnalyses -> exists message, error r = Some message /\ message <> "").
Proof.
  unfold keptNarratives.
  induction pageAnalyses as [|r rest IH]; [split; [intros _ r [] | reflexivity]|].
  cbn [filter]. unfold withoutError at 1.
  destruct (error r) as [message|] eqn:He.
  - destruct (String.eqb_spec message "") as [-> | Hm]; cbn [map].
    + split; [discriminate|]. intros H.
      destruct (H r (or_introl eq_refl)) as (m & Hr & Hne). congruence.
    + rewrite IH. split.
      * intros H q [<-|Hq]; [now exists message | now apply H].
      * intros H q Hq. apply H. now right.
  - cbn [map]. split; [discriminate|]. intros H.
    destruct (H r (or_introl eq_refl)) as (m & Hr & _). congruence.
Qed.

(** On results as the Model Gateway records them, the pages without error
    are the successful pages. *)
Lemma keptNarratives_recorded (pageAnalyses : list PageAnalysisResult) :
  Forall recorded pageAnalyses ->
  keptNarratives pageAnalyses = successfulNarratives pageAnalyses.
Proof.
  unfold keptNarratives.
  induction 1 as [|r rest Hr _ IH]; [reflexivity|].
  cbn [filter successfulNarratives]. unfold withoutError at 1.
  destruct Hr as [(narrative & Ha & _ & He & Hs) | (message & Ha & He & Hm & Hs)];
    rewrite He, Hs.
  - cbn [map]. rewrite IH, Ha. reflexivity.
  - destruct (String.eqb_spec message ""); [contradiction | exact IH].
Qed.

Lemma successfulNarratives_nil (pageAnalyses : list PageAnalysisResult) :
  successfulNarratives pageAnalyses = [] <->
  (forall r, In r pageAnalyses -> success r = false).
Proof.
  induction pageAnalyses as [|r rest IH]; simpl.
  - split; [intros _ r [] | reflexivity].
  - destruct (success r) eqn:Hs.
    + split; [discriminate|]. intros H. specialize (H r (or_introl eq_refl)). congruence.
    + rewrite IH. split.
      * intros H q [<-|Hq]; [exact Hs | now apply H].
      * intros H q Hq. apply H. now right.
Qed.

(** C7 (amended). For every list of page results, [combinePageAnalyses]
    returns the narratives of the pages whose [error] field is absent or
    empty, each labelled 'Page N: ' (the label of such a page without a
    narrative reads 'Page N: undefined'), in list order and separated by
    blank lines, the pages with a non-empty error being skipped. The result
    is never empty, and it is the message 'Failed to extract information from
    document pages' exactly when every page has a non-empty error. On page
    results as the Model Gateway records them (a narrative and no error, or an
    error message and no narrative) the pages kept are the successful pages,
    and the combined narrative is the one of the specification. *)
Theorem combinePageAnalyses_labels_successful_pages :
  forall pageAnalyses : list PageAnalysisResult,
    combinePageAnalyses pageAnalyses
    = match keptNarratives pageAnalyses with
      | [] => "Failed to extract information from document pages"
      | narratives => join (nl ++ nl) (map labelled narratives)
      end /\
    combinePageAnalyses pageAnalyses <> "" /\
    (combinePageAnalyses pageAnalyses = "Failed to extract information from document pages"
     <-> (forall r, In r pageAnalyses ->
                    exists message, error r = Some message /\ message <> "")) /\
    (Forall recorded pageAnalyses ->
     keptNarratives pageAnalyses = successfulNarratives pageAnalyses /\
     labelsSuccessfulPages pageAnalyses /\
     ((exists r, In r pageAnalyses /\ success r = true) ->
      combinePageAnalyses pageAnalyses
      = join (nl ++ nl) (map labelled (successfulNarratives pageAnalyses))) /\
     ((forall r, In r pageAnalyses -> success r = false) ->
      combinePageAnalyses pageAnalyses
      = "Failed to extract information from document pages")).
Proof.
  intros pageAnalyses.
  assert (Heq : combinePageAnalyses pageAnalyses
                = match keptNarratives pageAnalyses with
                  | [] => "Failed to extract information from document pages"
                  | narratives => join (nl ++ nl) (map labelled narratives)
                  end).
  { unfold combinePageAnalyses.
    rewrite <- (length_map pageLabel), valid_pages_kept, length_map.
    destruct (keptNarratives pageAnalyses); reflexivity. }
  split; [exact Heq|]. rewrite Heq. split; [|split].
  - destruct (keptNarratives pageAnalyses) as [|p ps]; [discriminate|].
    cbn [map]. apply join_cons_nonempty.
  - rewrite <- keptNarratives_nil.
    destruct (keptNarratives pageAnalyses) as [|p ps]; [tauto|]. split.
    + intros H. now destruct (join_labelled_not_message p ps).
    + discriminate.
  - intros Hrec. pose proof (keptNarratives_recorded pageAnalyses Hrec) as Hkept.
    split; [exact Hkept|]. rewrite Hkept.
    split; [unfold labelsSuccessfulPages; now rewrite Heq, Hkept|]. split.
    + intros (r & Hin & Hs).
      destruct (successfulNarratives pageAnalyses) as [|p ps] eqn:Hn; [|reflexivity].
      pose proof (proj1 (successfulNarratives_nil pageAnalyses) Hn r Hin) as Hf.
      rewrite Hf in Hs. discriminate.
    + intros Hall. now rewrite (proj2 (successfulNarratives_nil pageAnalyses) Hall).
Qed.

Lemma combinePageAnalyses_witness :
  combinePageAnalyses twoPages = "Page 1: Revenue 120".
Proof.
  assert (Hrec : Forall recorded twoPages).
  { apply Forall_cons; [|apply Forall_cons; [|apply Forall_nil]].
    - left. exists "Revenue 120". repeat split; discriminate.
    - right. eexists. repeat split; discriminate. }
  destruct (combinePageAnalyses_labels_successful_pages twoPages) as (_ & _ & _ & H).
  destruct (H Hrec) as (_ & _ & Hsome & _).
  apply Hsome. eexists. split; [left; reflexivity | reflexivity].
Defined.

(** C7, as stated, fails on a failed page whose error message is empty:
    the filter keeps the page, which has no narrative, and the result is
    'Page 1: undefined' instead of the failure message. *)
Lemma failed_page_without_message_is_kept :
  ~ labelsSuccessfulPages blankErrorPage.
Proof. unfold labelsSuccessfulPages. cbv. discriminate. Qed.

Example blank_error_page_narrative :
  combinePageAnalyses blankErrorPage = "Page 1: undefined" /\
  combinedNarrative blankErrorPage = "Failed to extract information from document pages".
Proof. split; reflexivity. Qed.

(** ** The fallback report ([generateFallbackAnalysis]) *)

Lemma Q_of_nat_pos n : (0 < Q_of_nat (S n))%Q.
Proof. unfold Q_of_nat, Qlt. simpl. lia. Qed.

Lemma Q_of_nat_le a b : a <= b -> (Q_of_nat a <= Q_of_nat b)%Q.
Proof. intros H. unfold Q_of_nat. rewrite <- Zle_Qle. lia. Qed.

Lemma ratio_bounds s n :
  s <= S n -> (0 <= Q_of_nat s / Q_of_nat (S n) <= 1)%Q.
Proof.
  intros H. split.
  - apply Qle_shift_div_l; [apply Q_of_nat_pos|].
    rewrite Qmult_0_l. apply (Q_of_nat_le 0 s). lia.
  - apply Qle_shift_div_r; [apply Q_of_nat_pos|].
    rewrite Qmult_1_l. now apply Q_of_nat_le.
Qed.

Lemma successfulAnalyses_le extractedData :
  successfulAnalyses extractedData <= List.length extractedData.
Proof. apply filter_length_le. Qed.

Lemma bonus_bounds extractedData :
  extractedData <> [] ->
  (0 <= Q_of_nat (successfulAnalyses extractedData)
        / Q_of_nat (List.length extractedData) * (20 # 1) <= 20 # 1)%Q.
Proof.
  intros Hne. destruct extractedData as [|d l]; [contradiction|].
  pose proof (successfulAnalyses_le (d :: l)) as Hle.
  cbn [List.length] in *.
  destruct (ratio_bounds _ _ Hle) as [H0 H1].
  set (r := (Q_of_nat (successfulAnalyses (d :: l)) / Q_of_nat (S (List.length l)))%Q) in *.
  split.
  - apply Qmult_le_0_compat; [exact H0 | discriminate].
  - setoid_replace (20 # 1)%Q with (1 * (20 # 1))%Q at 2 by ring.
    apply Qmult_le_compat_r; [exact H1 | discriminate].
Qed.

Lemma rawScore_bounds extractedData :
  extractedData <> [] -> (50 # 1 <= rawScore extractedData <= 90 # 1)%Q.
Proof.
  intros Hne. destruct (bonus_bounds extractedData Hne) as [H0 H1].
  unfold rawScore.
  set (b := (Q_of_nat (successfulAnalyses extractedData)
             / Q_of_nat (List.length extractedData) * (20 # 1))%Q) in *.
  destruct (hasFinancialDocs extractedData); split.
  - setoid_replace (50 # 1)%Q with ((50 # 1) + 0)%Q by ring.
    apply Qplus_le_compat; [discriminate | exact H0].
  - setoid_replace (90 # 1)%Q with ((70 # 1) + (20 # 1))%Q by ring.
    apply Qplus_le_compat; [apply Qle_refl | exact H1].
  - setoid_replace (50 # 1)%Q with ((50 # 1) + 0)%Q by ring.
    apply Qplus_le_compat; [apply Qle_refl | exact H0].
  - setoid_replace (90 # 1)%Q with ((70 # 1) + (20 # 1))%Q by ring.
    apply Qplus_le_compat; [discriminate | exact H1].
Qed.

(** On a non-empty list neither clamp changes the sum of base score and
    bonus. *)
Lemma fallbackScore_nonempty extractedData :
  extractedData <> [] ->
  num_add (baseScore extractedData) (analysisBonus extractedData)
  = Fin (rawScore extractedData) /\
  fallbackScore extractedData = Fin (rawScore extractedData).
Proof.
  intros Hne. destruct (rawScore_bounds extractedData Hne) as [Hlo Hhi].
  assert (Hsum : num_add (baseScore extractedData) (analysisBonus extractedData)
                 = Fin (rawScore extractedData)).
  { unfold baseScore, analysisBonus, rawScore, length_ratio.
    destruct extractedData as [|d l]; [contradiction|].
    cbn [List.length]. destruct (hasFinancialDocs (d :: l)); reflexivity. }
  split; [exact Hsum|].
  unfold fallbackScore. rewrite Hsum. cbn [Math_max Math_min].
  assert (H30 : Qle_bool (30 # 1) (rawScore extractedData) = true).
  { apply Qle_bool_iff. apply Qle_trans with (50 # 1)%Q; [discriminate | exact Hlo]. }
  rewrite H30.
  destruct (Qle_bool (100 # 1) (rawScore extractedData)) eqn:H100; [|reflexivity].
  apply Qle_bool_iff in H100. exfalso.
  apply (Qle_not_lt _ _ (Qle_trans _ _ _ H100 Hhi)). reflexivity.
Qed.

Lemma Qfloor_half (k : Z) : Qfloor (inject_Z k + (1 # 2)) = k.
Proof.
  assert (H1 := Qfloor_le (inject_Z k + (1 # 2))).
  assert (H2 := Qlt_floor (inject_Z k + (1 # 2))).
  set (f := Qfloor (inject_Z k + (1 # 2))) in *.
  unfold Qle, Qlt, inject_Z, Qplus in H1, H2.
  cbn [Qnum Qden Pos.mul] in H1, H2. lia.
Qed.

Lemma Q_round_integer (x : Q) (k : Z) : (x == inject_Z k)%Q -> Q_round x = k.
Proof.
  intros Hx. unfold Q_round.
  rewrite (Qfloor_comp (x + (1 # 2)) (inject_Z k + (1 # 2))).
  - apply Qfloor_half.
  - now apply Qplus_comp.
Qed.

Lemma Q_round_bounds (x : Q) (lo hi : Z) :
  (inject_Z lo <= x)%Q -> (x <= inject_Z hi)%Q -> (lo <= Q_round x <= hi)%Z.
Proof.
  intros Hlo Hhi. unfold Q_round. split.
  - rewrite <- (Qfloor_Z lo). apply Qfloor_resp_le.
    setoid_replace (inject_Z lo) with (inject_Z lo + 0)%Q by ring.
    apply Qplus_le_compat; [exact Hlo | discriminate].
  - assert (H : (Qfloor (x + (1 # 2)) <= Qfloor (inject_Z hi + (1 # 2)))%Z).
    { apply Qfloor_resp_le. apply Qplus_le_compat; [exact Hhi | apply Qle_refl]. }
    rewrite Qfloor_half in H. exact H.
Qed.

Lemma score_field extractedData :
  get_prop (generateFallbackAnalysis extractedData) "score"
  = Ok (JNum (Math_round (fallbackScore extractedData))).
Proof. reflexivity. Qed.

Lemma rating_field extractedData :
  get_prop (generateFallbackAnalysis extractedData) "rating"
  = Ok (JStr (fallbackRating (fallbackScore extractedData))).
Proof. reflexivity. Qed.

Lemma coreFinancialType_includes t :
  includes financialTypes t = coreFinancialType t.
Proof.
  unfold includes, financialTypes, coreFinancialType. cbn [existsb].
  now rewrite orb_false_r, orb_assoc.
Qed.

Lemma specBaseScore_code extractedData :
  specBaseScore extractedData
  = if hasFinancialDocs extractedData then (70 # 1)%Q else (50 # 1)%Q.
Proof.
  unfold specBaseScore, hasFinancialDocs.
  replace (existsb (fun doc => coreFinancialType (documentType doc)) extractedData)
    with (existsb (fun doc => includes financialTypes (documentType doc)) extractedData);
    [reflexivity|].
  induction extractedData as [|d l IH]; [reflexivity|].
  cbn [existsb]. now rewrite IH, coreFinancialType_includes.
Qed.

Lemma withoutErrorMessage_code extractedData :
  withoutErrorMessage extractedData = successfulAnalyses extractedData.
Proof.
  unfold withoutErrorMessage, successfulAnalyses.
  induction extractedData as [|d l IH]; [reflexivity|].
  cbn [filter].
  assert (Hd : match doc_error d with
               | None => true
               | Some message => String.eqb message ""
               end = negb (truthy_str (doc_error d))).
  { destruct (doc_error d) as [m|]; [|reflexivity]. cbn [truthy_str].
    now rewrite negb_involutive. }
  rewrite Hd. destruct (negb (truthy_str (doc_error d))); cbn [List.length];
    rewrite IH; reflexivity.
Qed.

Lemma withoutErrorField_message extractedData :
  (forall doc, In doc extractedData -> doc_error doc <> Some "") ->
  withoutErrorField extractedData = withoutErrorMessage extractedData.
Proof.
  unfold withoutErrorField, withoutErrorMessage.
  induction extractedData as [|d l IH]; intros Hmsg; [reflexivity|].
  cbn [filter].
  assert (Hd : match doc_error d with None => true | Some _ => false end
               = match doc_error d with
                 | None => true
                 | Some message => String.eqb message ""
                 end).
  { specialize (Hmsg d (or_introl eq_refl)).
    destruct (doc_error d) as [m|]; [|reflexivity].
    destruct (String.eqb_spec m ""); [subst; contradiction | reflexivity]. }
  rewrite Hd.
  destruct (match doc_error d with
            | None => true
            | Some message => String.eqb message ""
            end); cbn [List.length];
    rewrite IH by (intros doc Hdoc; apply Hmsg; now right); reflexivity.
Qed.

(** C4 (amended). For every non-empty list of per-document results, the
    fallback score is [clamp (baseScore + bonus, 30, 100)] rounded to the
    nearest integer, where [baseScore] is 70 if some document's declared type
    is profit-loss, balance-sheet or bank-statement and 50 otherwise, and
    [bonus] is the number of documents whose error field is absent or empty
    divided by the number of documents, times 20; the score is an integer
    between 30 and 100. When no document carries an empty error message, the
    documents counted are the documents without an error field, and the score
    is the one of the specification. *)
Theorem fallback_score_formula :
  forall extractedData : list DocumentAnalysis,
    extractedData <> [] ->
    (exists z : Z,
        get_prop (generateFallbackAnalysis extractedData) "score"
        = Ok (JNum (Fin (inject_Z z))) /\
        (inject_Z z <= amendedScore extractedData + (1 # 2))%Q /\
        (amendedScore extractedData + (1 # 2) < inject_Z (z + 1))%Q /\
        (30 <= z <= 100)%Z) /\
    ((forall doc, In doc extractedData -> doc_error doc <> Some "") ->
     withoutErrorMessage extractedData = withoutErrorField extractedData /\
     scoreAsStated extractedData).
Proof.
  intros extractedData Hne.
  destruct (fallbackScore_nonempty extractedData Hne) as [_ Hscore].
  destruct (rawScore_bounds extractedData Hne) as [Hlo Hhi].
  assert (Hamended : (amendedScore extractedData == rawScore extractedData)%Q).
  { assert (Hraw : (specBaseScore extractedData + amendedBonus extractedData
                    == rawScore extractedData)%Q).
    { unfold amendedBonus, rawScore.
      rewrite specBaseScore_code, withoutErrorMessage_code. reflexivity. }
    unfold amendedScore, clamp. rewrite Hraw.
    rewrite (Q.min_r (100 # 1) (rawScore extractedData))
      by (apply Qle_trans with (90 # 1)%Q; [exact Hhi | discriminate]).
    apply Q.max_r. apply Qle_trans with (50 # 1)%Q; [discriminate | exact Hlo]. }
  assert (Hround : (inject_Z (Q_round (rawScore extractedData))
                    <= rawScore extractedData + (1 # 2))%Q /\
                   (rawScore extractedData + (1 # 2)
                    < inject_Z (Q_round (rawScore extractedData) + 1))%Q).
  { unfold Q_round. split; [apply Qfloor_le | apply Qlt_floor]. }
  assert (Hrange : (30 <= Q_round (rawScore extractedData) <= 100)%Z).
  { assert (H := Q_round_bounds (rawScore extractedData) 50 90 Hlo Hhi). lia. }
  split.
  - exists (Q_round (rawScore extractedData)).
    rewrite score_field, Hscore. cbn [Math_round]. split; [reflexivity|].
    rewrite Hamended. destruct Hround as [H1 H2]. now repeat split.
  - intros Hmsg.
    pose proof (withoutErrorField_message extractedData Hmsg) as Hcount.
    split; [now symmetry|].
    assert (Hstated : (specScore extractedData == rawScore extractedData)%Q).
    { rewrite <- Hamended. unfold specScore, amendedScore, specBonus, amendedBonus.
      now rewrite Hcount. }
    exists (Q_round (rawScore extractedData)).
    rewrite score_field, Hscore. cbn [Math_round]. split; [reflexivity|].
    unfold roundsTo. rewrite Hstated. destruct Hround as [H1 H2]. now repeat split.
Qed.

Lemma fallback_score_formula_witness :
  exists z : Z,
    get_prop (generateFallbackAnalysis
                [plainDocument "bank-statement" None;
                 plainDocument "other" (Some "Failed to analyze document")]) "score"
    = Ok (JNum (Fin (inject_Z z))) /\ z = 80%Z.
Proof.
  destruct (fallback_score_formula
              [plainDocument "bank-statement" None;
               plainDocument "other" (Some "Failed to analyze document")])
    as ((z & Hz & _) & _).
  - discriminate.
  - exists z. split; [exact Hz|].
    cbv in Hz. injection Hz as Hz. symmetry. exact Hz.
Defined.

(** C4, as stated, fails on a document whose error message is empty: the
    code counts it as analysed, and the score is 70 where the formula of the
    specification gives 50. *)
Lemma empty_error_counts_as_success :
  ~ scoreAsStated [plainDocument "other" (Some "")].
Proof.
  intros (z & Hz & [Hround _] & _).
  assert (Hscore : z = 70%Z).
  { cbv in Hz. injection Hz as Hz. symmetry. exact Hz. }
  subst z. revert Hround. vm_compute. intros H. now apply H.
Qed.

Example score_of_document_with_empty_error :
  get_prop (generateFallbackAnalysis [plainDocument "other" (Some "")]) "score"
  = Ok (JNum (Fin (70 # 1))) /\
  (specScore [plainDocument "other" (Some "")] == 50 # 1)%Q /\
  (amendedScore [plainDocument "other" (Some "")] == 70 # 1)%Q.
Proof. repeat split. Qed.

(** C10. For every non-empty list of per-document results the base score
    is at least 50 and the bonus lies between 0 and 20, so neither the lower
    clamp at 30 nor the upper clamp at 100 changes their sum, and the fallback
    score is an integer between 50 and 90. *)
Theorem fallback_score_tight_range :
  forall extractedData : list DocumentAnalysis,
    extractedData <> [] ->
    exists (base bonus : Q) (z : Z),
      baseScore extractedData = Fin base /\
      analysisBonus extractedData = Fin bonus /\
      (50 # 1 <= base)%Q /\ (0 <= bonus <= 20 # 1)%Q /\
      fallbackScore extractedData = Fin (base + bonus)%Q /\
      get_prop (generateFallbackAnalysis extractedData) "score"
      = Ok (JNum (Fin (inject_Z z))) /\
      (50 <= z <= 90)%Z.
Proof.
  intros extractedData Hne.
  destruct (fallbackScore_nonempty extractedData Hne) as [_ Hscore].
  destruct (rawScore_bounds extractedData Hne) as [Hlo Hhi].
  exists (if hasFinancialDocs extractedData then 70 # 1 else 50 # 1)%Q.
  exists (Q_of_nat (successfulAnalyses extractedData)
          / Q_of_nat (List.length extractedData) * (20 # 1))%Q.
  exists (Q_round (rawScore extractedData)).
  split; [unfold baseScore; destruct (hasFinancialDocs extractedData); reflexivity|].
  split.
  { unfold analysisBonus, length_ratio.
    destruct extractedData as [|d l]; [contradiction | reflexivity]. }
  split; [destruct (hasFinancialDocs extractedData); discriminate|].
  split; [exact (bonus_bounds extractedData Hne)|].
  split; [exact Hscore|].
  split; [rewrite score_field, Hscore; reflexivity|].
  exact (Q_round_bounds (rawScore extractedData) 50 90 Hlo Hhi).
Qed.

Lemma fallback_score_tight_range_witness :
  exists (base bonus : Q) (z : Z),
    baseScore [plainDocument "other" None] = Fin base /\
    analysisBonus [plainDocument "other" None] = Fin bonus /\
    (50 # 1 <= base)%Q /\ (0 <= bonus <= 20 # 1)%Q /\
    fallbackScore [plainDocument "other" None] = Fin (base + bonus)%Q /\
    get_prop (generateFallbackAnalysis [plainDocument "other" None]) "score"
    = Ok (JNum (Fin (inject_Z z))) /\
    (50 <= z <= 90)%Z.
Proof.
  apply (fallback_score_tight_range [plainDocument "other" None]). discriminate.
Defined.

(** ** The report-generation call ([generateCreditAnalysis]) *)

Lemma invalidStructure_spec (v : JValue) :
  invalidStructure v = Ok false <-> hasScoreRatingSummary v = true.
Proof.
  unfold invalidStructure, hasScoreRatingSummary.
  destruct v as [ | | b | n | s | items | fields ]; cbn [get_prop bind truthy negb];
    try (split; discriminate).
  destruct (truthy (lookup "score" fields)); cbn [negb andb]; [|split; discriminate].
  destruct (truthy (lookup "rating" fields)); cbn [negb andb]; [|split; discriminate].
  destruct (truthy (lookup "summary" fields)); cbn [negb]; split; congruence.
Qed.

Lemma parseAnalysis_usable (env : OllamaEnv) (data : JValue) (trimmed : string)
    (report : JValue) :
  response_trim data = Ok trimmed ->
  JSON_parse env (stripFences trimmed) = Ok report ->
  hasScoreRatingSummary report = true ->
  parseAnalysis env data = Ok report.
Proof.
  intros Ht Hp Hv. unfold parseAnalysis. rewrite Ht. cbn [bind]. rewrite Hp. cbn [bind].
  rewrite (proj2 (invalidStructure_spec report) Hv). reflexivity.
Qed.

Lemma parseAnalysis_Ok (env : OllamaEnv) (data report : JValue) :
  parseAnalysis env data = Ok report ->
  exists trimmed,
    response_trim data = Ok trimmed /\
    JSON_parse env (stripFences trimmed) = Ok report /\
    hasScoreRatingSummary report = true.
Proof.
  unfold parseAnalysis.
  destruct (response_trim data) as [trimmed|]; cbn [bind]; [|discriminate].
  destruct (JSON_parse env (stripFences trimmed)) as [parsed|] eqn:Hp; cbn [bind];
    [|discriminate].
  destruct (invalidStructure parsed) as [[|]|] eqn:Hi; cbn [bind]; try discriminate.
  intros [= <-]. exists trimmed. split; [reflexivity|]. split; [exact Hp|].
  now apply invalidStructure_spec.
Qed.

(** After a failed parse the handler reads [data.response] once more and
    returns the fallback; if that read throws, the outer handler returns the
    fallback. *)
Lemma fallback_after_parse_failure (extractedData : list DocumentAnalysis)
    (data : JValue) (body : Exc JValue) :
  (forall report, body <> Ok report) ->
  try_catch
    (try_catch body
       (fun _ => let* raw := get_prop data "response" in
                 Ok (generateFallbackAnalysis extractedData)))
    (fun _ => Ok (generateFallbackAnalysis extractedData))
  = Ok (generateFallbackAnalysis extractedData).
Proof.
  intros Hbody. destruct body as [report|m]; [now destruct (Hbody report)|].
  cbn [try_catch]. destruct (get_prop data "response"); reflexivity.
Qed.

Lemma generateCreditAnalysis_on_failure (env : OllamaEnv)
    (extractedData : list DocumentAnalysis) (documentTypes : list string) :
  reportCallFails env (creditPrompt (JSON_stringify env extractedData) documentTypes) ->
  generateCreditAnalysis env extractedData documentTypes
  = Ok (generateFallbackAnalysis extractedData).
Proof.
  intros Hfail. unfold generateCreditAnalysis.
  destruct Hfail as [ m Hg | st stt json Hg | st stt m Hg | st stt data m Hg Ht
                    | st stt data trimmed m Hg Ht Hp
                    | st stt data trimmed parsed Hg Ht Hp Hv ];
    rewrite Hg; cbn [negb bind try_catch]; try reflexivity.
  - apply fallback_after_parse_failure. intros report.
    unfold parseAnalysis. rewrite Ht. discriminate.
  - apply fallback_after_parse_failure. intros report.
    unfold parseAnalysis. rewrite Ht. cbn [bind]. rewrite Hp. discriminate.
  - apply fallback_after_parse_failure. intros report Hr.
    apply parseAnalysis_Ok in Hr. destruct Hr as (trimmed' & Ht' & Hp' & Hv').
    rewrite Ht in Ht'. injection Ht' as <-. rewrite Hp in Hp'. injection Hp' as <-.
    congruence.
Qed.

Lemma generateCreditAnalysis_on_success (env : OllamaEnv)
    (extractedData : list DocumentAnalysis) (documentTypes : list string)
    (report : JValue) :
  reportCallYields env (creditPrompt (JSON_stringify env extractedData) documentTypes) report ->
  generateCreditAnalysis env extractedData documentTypes = Ok report.
Proof.
  intros (st & stt & data & trimmed & Hg & Ht & Hp & Hv).
  unfold generateCreditAnalysis. rewrite Hg. cbn [negb bind].
  rewrite (parseAnalysis_usable env data trimmed report Ht Hp Hv). reflexivity.
Qed.

(** The call either yields a usable report or fails in one of the listed
    ways. *)
Lemma reportCall_cases (env : OllamaEnv) (prompt : string) :
  reportCallFails env prompt \/ exists report, reportCallYields env prompt report.
Proof.
  destruct (generate env prompt) as [m | [|] st stt [data|m]] eqn:Hg.
  - left. eapply network_error; eassumption.
  - destruct (response_trim data) as [trimmed|m] eqn:Ht.
    + destruct (JSON_parse env (stripFences trimmed)) as [parsed|m] eqn:Hp.
      * destruct (hasScoreRatingSummary parsed) eqn:Hv.
        -- right. exists parsed, st, stt, data, trimmed. now repeat split.
        -- left. eapply invalid_structure; eassumption.
      * left. eapply unparseable_json; eassumption.
    + left. eapply no_response_text; eassumption.
  - left. eapply body_not_json; eassumption.
  - left. eapply http_not_ok; eassumption.
  - left. eapply http_not_ok; eassumption.
Qed.

Lemma fallbackRating_values (score : number) :
  fallbackRating score = "Excellent" \/ fallbackRating score = "Good" \/
  fallbackRating score = "Fair" \/ fallbackRating score = "Poor".
Proof.
  unfold fallbackRating.
  destruct (num_ge score (80 # 1)); [now left|].
  destruct (num_ge score (70 # 1)); [now right; left|].
  destruct (num_ge score (60 # 1)); [now right; right; left | now right; right; right].
Qed.

(** C1. For every aggregation request [generateCreditAnalysis] returns a
    report and never throws; whenever the report-generation call fails (the
    request is rejected, the HTTP status is not OK, the body is not JSON, the
    reply text is missing or is not parseable JSON, or the parsed reply lacks a
    truthy score, rating or summary) the report returned is the deterministic
    fallback report, whose rating is one of the four rating names. *)
Theorem generateCreditAnalysis_falls_back :
  forall (env : OllamaEnv) (extractedData : list DocumentAnalysis)
         (documentTypes : list string),
    (exists report, generateCreditAnalysis env extractedData documentTypes = Ok report) /\
    (reportCallFails env (creditPrompt (JSON_stringify env extractedData) documentTypes) ->
     generateCreditAnalysis env extractedData documentTypes
     = Ok (generateFallbackAnalysis extractedData) /\
     exists rating,
       get_prop (generateFallbackAnalysis extractedData) "rating" = Ok (JStr rating) /\
       (rating = "Excellent" \/ rating = "Good" \/ rating = "Fair" \/ rating = "Poor")).
Proof.
  intros env extractedData documentTypes. split.
  - destruct (reportCall_cases env
                (creditPrompt (JSON_stringify env extractedData) documentTypes))
      as [Hfail | [report Hyield]].
    + eexists. now apply generateCreditAnalysis_on_failure.
    + exists report. now apply generateCreditAnalysis_on_success.
  - intros Hfail. split; [now apply generateCreditAnalysis_on_failure|].
    eexists. split; [apply rating_field | apply fallbackRating_values].
Qed.

Lemma generateCreditAnalysis_falls_back_witness :
  generateCreditAnalysis proseEnv [plainDocument "bank-statement" None] ["bank-statement"]
  = Ok (generateFallbackAnalysis [plainDocument "bank-statement" None]).
Proof.
  apply (generateCreditAnalysis_falls_back proseEnv
           [plainDocument "bank-statement" None] ["bank-statement"]).
  eapply unparseable_json; reflexivity.
Defined.

(** ** Rating and score of a report *)

Lemma threshold_on_rounded (t z : Z) (x : Q) :
  (inject_Z z <= x)%Q -> (x < inject_Z (z + 1))%Q ->
  (Qle_bool (inject_Z t) x = true <-> (t <= z)%Z).
Proof.
  intros Hlo Hhi. rewrite Qle_bool_iff. split.
  - intros Ht. assert (H : (inject_Z t < inject_Z (z + 1))%Q)
      by (eapply Qle_lt_trans; eassumption).
    rewrite <- Zlt_Qlt in H. lia.
  - intros Ht. apply Qle_trans with (inject_Z z); [|exact Hlo].
    now rewrite <- Zle_Qle.
Qed.

Lemma fallback_rating_consistent (extractedData : list DocumentAnalysis) :
  extractedData <> [] ->
  roundsDown extractedData ->
  ratingConsistent (generateFallbackAnalysis extractedData).
Proof.
  intros Hne Hdown. unfold roundsDown in Hdown.
  destruct (fallbackScore_nonempty extractedData Hne) as [_ Hscore].
  set (x := rawScore extractedData) in *.
  assert (Hhi : (x < inject_Z (Q_round x + 1))%Q).
  { apply Qle_lt_trans with (x + (1 # 2))%Q; [|apply Qlt_floor].
    setoid_replace x with (x + 0)%Q at 1 by ring.
    apply Qplus_le_compat; [apply Qle_refl | discriminate]. }
  exists (Q_round x), (fallbackRating (Fin x)).
  rewrite score_field, rating_field, Hscore.
  split; [reflexivity|]. split; [reflexivity|].
  pose proof (threshold_on_rounded 80 (Q_round x) x Hdown Hhi) as H80.
  pose proof (threshold_on_rounded 70 (Q_round x) x Hdown Hhi) as H70.
  pose proof (threshold_on_rounded 60 (Q_round x) x Hdown Hhi) as H60.
  unfold fallbackRating, num_ge.
  change (80 # 1)%Q with (inject_Z 80). change (70 # 1)%Q with (inject_Z 70).
  change (60 # 1)%Q with (inject_Z 60).
  destruct (Qle_bool (inject_Z 80) x);
    destruct (Qle_bool (inject_Z 70) x);
    destruct (Qle_bool (inject_Z 60) x);
    repeat split; intros; try discriminate; try reflexivity;
    try (assert (80 <= Q_round x)%Z by (apply H80; reflexivity));
    try (assert (70 <= Q_round x)%Z by (apply H70; reflexivity));
    try (assert (60 <= Q_round x)%Z by (apply H60; reflexivity));
    try (assert (~ (80 <= Q_round x)%Z) by (intros Hc; apply H80 in Hc; discriminate));
    try (assert (~ (70 <= Q_round x)%Z) by (intros Hc; apply H70 in Hc; discriminate));
    try (assert (~ (60 <= Q_round x)%Z) by (intros Hc; apply H60 in Hc; discriminate));
    lia.
Qed.

(** *** What [analyzeDocuments] hands to the report generation *)

Lemma analyzeDocument_returns (env : OllamaEnv) (doc : ProcessedDocument) (log : list Event) :
  exists findings log', analyzeDocument env doc log = (Ok findings, log').
Proof.
  unfold analyzeDocument.
  destruct (0 <? List.length (images doc))%nat.
  - destruct (analyzeMultipleImages env (images doc) (getDocumentPrompt (pd_type doc)) log)
      as [imageAnalyses log'].
    now eexists _, _.
  - now eexists _, _.
Qed.

Section ExtractedData.
Context {Sink : Type}.
Variable env : OllamaEnv.
Variable progressCallback : string -> Q -> string -> Sink -> Sink.

Lemma extractAll_data (total : nat) (rest : list ProcessedDocument) :
  forall (docIndex : nat) (extractedData : list DocumentAnalysis) (log : list Event)
         (sink : Sink),
  exists new,
    fst (fst (extractAll env progressCallback total docIndex rest extractedData log sink))
    = (extractedData ++ new)%list /\
    List.length new = List.length rest /\
    Forall (fun d => doc_error d = None) new.
Proof.
  induction rest as [|doc rest IH]; intros docIndex extractedData log sink.
  - exists []. cbn. rewrite app_nil_r. repeat split. constructor.
  - cbn [extractAll].
    destruct (analyzeDocument_returns env doc log) as (findings & log' & ->).
    match goal with
    | |- context [extractAll env progressCallback total (S docIndex) rest ?d ?l ?s] =>
        destruct (IH (S docIndex) d l s) as (new & -> & Hlen & Hnew)
    end.
    exists (withIdentity findings doc :: new). rewrite <- app_assoc.
    split; [reflexivity|]. split; [cbn [List.length]; now rewrite Hlen|].
    constructor; [reflexivity | exact Hnew].
Qed.

(** A returned result carries the report generated from the extracted data,
    one entry per processed document, none with an error field. *)
Lemma analyzeDocuments_result (docs : list ProcessedDocument) (log : list Event)
    (sink : Sink) (result : AnalysisResult) (log' : list Event) (sink' : Sink) :
  analyzeDocuments env progressCallback docs log sink = (Ok result, log', sink') ->
  List.length (documentAnalysis result) = List.length docs /\
  Forall (fun d => doc_error d = None) (documentAnalysis result) /\
  metadata_documentTypes result = map pd_type docs /\
  generateCreditAnalysis env (documentAnalysis result) (metadata_documentTypes result)
  = Ok (creditAnalysis result).
Proof.
  unfold analyzeDocuments, analyzeDocuments_body.
  destruct (if negb (modelAvailable env) then pull env else Ok tt) as [u|m];
    [|discriminate].
  match goal with
  | |- context [extractAll env progressCallback ?t ?i docs ?d log ?s] =>
      destruct (extractAll_data t docs i d log s) as (new & Hfst & Hlen & Hnew);
      destruct (extractAll env progressCallback t i docs d log s)
        as [[extractedData log3] sink3]
  end.
  cbn [fst app] in Hfst. subst extractedData.
  destruct (generateCreditAnalysis env new (map pd_type docs)) as [credit|m] eqn:Hg;
    [|discriminate].
  intros [= <- _ _]. cbn [documentAnalysis metadata_documentTypes creditAnalysis].
  now repeat split.
Qed.

End ExtractedData.

Lemma roundsDown_without_errors (extractedData : list DocumentAnalysis) :
  extractedData <> [] ->
  Forall (fun d => doc_error d = None) extractedData ->
  roundsDown extractedData.
Proof.
  intros Hne Hnone.
  assert (Hall : successfulAnalyses extractedData = List.length extractedData).
  { unfold successfulAnalyses. induction Hnone as [|d l Hd _ IH]; [reflexivity|].
    cbn [filter]. rewrite Hd. cbn [truthy_str negb List.length].
    destruct l as [|d' l']; [reflexivity|]. now rewrite IH. }
  unfold roundsDown, rawScore. rewrite Hall.
  destruct extractedData as [|d l]; [contradiction|]. cbn [List.length].
  assert (Hone : (Q_of_nat (S (List.length l)) / Q_of_nat (S (List.length l)) == 1)%Q).
  { apply Qmult_inv_r. intros H0. pose proof (Q_of_nat_pos (List.length l)) as Hpos.
    rewrite H0 in Hpos. discriminate Hpos. }
  destruct (hasFinancialDocs (d :: l)).
  - assert (Hx : ((70 # 1) + Q_of_nat (S (List.length l)) / Q_of_nat (S (List.length l))
                             * (20 # 1) == inject_Z 90)%Q)
      by (rewrite Hone; reflexivity).
    rewrite (Q_round_integer _ _ Hx), Hx. apply Qle_refl.
  - assert (Hx : ((50 # 1) + Q_of_nat (S (List.length l)) / Q_of_nat (S (List.length l))
                             * (20 # 1) == inject_Z 70)%Q)
      by (rewrite Hone; reflexivity).
    rewrite (Q_round_integer _ _ Hx), Hx. apply Qle_refl.
Qed.

(** C2 (amended). Every report that [analyzeDocuments] returns for a
    non-empty batch is either the fallback report, and then its rating follows
    the thresholds 80/70/60 applied to its integer score, or the report parsed
    from the model's reply, which carries a truthy score, rating and summary
    exactly as the model wrote them. *)
Theorem pipeline_report_rating :
  forall (Sink : Type) (progressCallback : string -> Q -> string -> Sink -> Sink)
         (env : OllamaEnv) (docs : list ProcessedDocument) (log : list Event)
         (sink : Sink) (result : AnalysisResult) (log' : list Event) (sink' : Sink),
    docs <> [] ->
    analyzeDocuments env progressCallback docs log sink = (Ok result, log', sink') ->
    (creditAnalysis result = generateFallbackAnalysis (documentAnalysis result) /\
     ratingConsistent (creditAnalysis result)) \/
    reportCallYields env
      (creditPrompt (JSON_stringify env (documentAnalysis result))
         (metadata_documentTypes result))
      (creditAnalysis result).
Proof.
  intros Sink progressCallback env docs log sink result log' sink' Hne Hrun.
  destruct (analyzeDocuments_result env progressCallback docs log sink result log' sink' Hrun)
    as (Hlen & Hnone & _ & Hcredit).
  assert (Hdata : documentAnalysis result <> []).
  { intros Hnil. rewrite Hnil in Hlen. destruct docs; [contradiction | discriminate]. }
  destruct (reportCall_cases env
              (creditPrompt (JSON_stringify env (documentAnalysis result))
                 (metadata_documentTypes result)))
    as [Hfail | [report Hyield]].
  - left. rewrite (generateCreditAnalysis_on_failure _ _ _ Hfail) in Hcredit.
    injection Hcredit as Hcredit. rewrite <- Hcredit. split; [reflexivity|].
    apply fallback_rating_consistent; [exact Hdata|].
    now apply roundsDown_without_errors.
  - right. rewrite (generateCreditAnalysis_on_success _ _ _ _ Hyield) in Hcredit.
    injection Hcredit as Hcredit. now rewrite <- Hcredit.
Qed.

Lemma pipeline_report_rating_witness :
  exists result,
    fst (fst (analyzeDocuments proseEnv sendProgress [statementDocument] [] [])) = Ok result /\
    ratingConsistent (creditAnalysis result).
Proof.
  destruct (analyzeDocuments proseEnv sendProgress [statementDocument] [] [])
    as [[[result|m] log'] sink'] eqn:Hrun.
  - exists result. split; [reflexivity|].
    destruct (pipeline_report_rating (list SseEvent) sendProgress proseEnv
                [statementDocument] [] [] result log' sink')
      as [[_ Hok] | (st & stt & data & trimmed & Hg & Ht & Hp & _)];
      [discriminate | exact Hrun | exact Hok |].
    exfalso. cbn in Hg. injection Hg as _ _ Hd. subst data.
    cbn in Ht. injection Ht as Ht. subst trimmed. cbn in Hp. discriminate.
  - exfalso. vm_compute in Hrun. discriminate.
Defined.

(** C2, as stated, fails on the model path: the report parsed from the
    reply is returned unchanged, with score 10 and rating 'Excellent'. *)
Lemma model_rating_not_checked :
  ~ reportsAlwaysConsistent overratedEnv [statementDocument].
Proof.
  intros Hall.
  destruct (analyzeDocuments overratedEnv sendProgress [statementDocument] [] [])
    as [[[result|m] log'] sink'] eqn:Hrun; [|vm_compute in Hrun; discriminate].
  specialize (Hall result log' sink' Hrun).
  assert (Hcredit : creditAnalysis result = overratedReport).
  { vm_compute in Hrun. injection Hrun as Hr _ _. now rewrite <- Hr. }
  rewrite Hcredit in Hall.
  destruct Hall as (z & rating & Hs & Hr & HE & _).
  cbn in Hs, Hr. injection Hs as Hs. injection Hr as Hr.
  assert (80 <= z)%Z by (apply HE; now rewrite <- Hr). lia.
Qed.

(** [generateFallbackAnalysis] rates the score before rounding it: on a list
    with error entries, 70 + 10/21 * 20 is reported as 80 and rated 'Good'. *)
Example fallback_rating_before_rounding :
  get_prop (generateFallbackAnalysis tenOfTwentyOne) "score" = Ok (JNum (Fin (80 # 1))) /\
  get_prop (generateFallbackAnalysis tenOfTwentyOne) "rating" = Ok (JStr "Good").
Proof. split; vm_compute; reflexivity. Qed.

(** ** The event stream of a request ([/api/analyze]) *)

Lemma generateCreditAnalysis_returns (env : OllamaEnv)
    (extractedData : list DocumentAnalysis) (documentTypes : list string) :
  exists report, generateCreditAnalysis env extractedData documentTypes = Ok report.
Proof.
  destruct (reportCall_cases env
              (creditPrompt (JSON_stringify env extractedData) documentTypes))
    as [Hfail | [report Hyield]].
  - eexists. now apply generateCreditAnalysis_on_failure.
  - exists report. now apply generateCreditAnalysis_on_success.
Qed.

Lemma sorted_app (l1 l2 : list Q) (lo mid hi : Q) :
  StronglySorted Qle l1 -> StronglySorted Qle l2 ->
  within lo mid l1 -> within mid hi l2 ->
  (lo <= mid)%Q -> (mid <= hi)%Q ->
  StronglySorted Qle (l1 ++ l2) /\ within lo hi (l1 ++ l2).
Proof.
  intros S1 S2 W1 W2 Hlm Hmh. split.
  - induction S1 as [|a l1 S1 IH Ha]; [exact S2|].
    cbn [app]. inversion W1 as [|? ? [_ Ham] W1']; subst.
    constructor; [now apply IH|].
    apply Forall_app. split; [exact Ha|].
    eapply Forall_impl; [|exact W2]. intros b [Hb _]. cbv beta in Hb.
    now apply Qle_trans with mid.
  - apply Forall_app. split.
    + eapply Forall_impl; [|exact W1]. intros q [H1 H2].
      split; [exact H1 | now apply Qle_trans with mid].
    + eapply Forall_impl; [|exact W2]. intros q [H1 H2].
      split; [now apply Qle_trans with mid | exact H2].
Qed.

Lemma documentPercentage_le (n i j : nat) :
  i <= j -> (documentPercentage (S n) i <= documentPercentage (S n) j)%Q.
Proof.
  intros Hij. unfold documentPercentage.
  apply Qplus_le_compat; [apply Qle_refl|].
  apply Qmult_le_compat_r; [|discriminate].
  unfold Qdiv. apply Qmult_le_compat_r; [now apply Q_of_nat_le|].
  apply Qinv_le_0_compat. apply Qlt_le_weak, Q_of_nat_pos.
Qed.

Lemma documentPercentage_bounds (n i : nat) :
  i <= S n -> (80 <= documentPercentage (S n) i <= 95)%Q.
Proof.
  intros Hi. destruct (ratio_bounds i n Hi) as [H0 H1]. unfold documentPercentage.
  set (r := (Q_of_nat i / Q_of_nat (S n))%Q) in *. split.
  - setoid_replace 80%Q with (80 + 0 * 15)%Q by ring.
    apply Qplus_le_compat; [apply Qle_refl|].
    apply Qmult_le_compat_r; [exact H0 | discriminate].
  - setoid_replace 95%Q with (80 + 1 * 15)%Q by ring.
    apply Qplus_le_compat; [apply Qle_refl|].
    apply Qmult_le_compat_r; [exact H1 | discriminate].
Qed.

Lemma documentPercentages_sorted (n start count : nat) :
  start + count <= S (S n) ->
  StronglySorted Qle (map (documentPercentage (S n)) (seq start count)) /\
  within 80 95 (map (documentPercentage (S n)) (seq start count)).
Proof.
  revert start. induction count as [|count IH]; intros start Hle.
  - split; constructor.
  - destruct (IH (S start)) as [Hs Hw]; [lia|]. cbn [seq map]. split.
    + constructor; [exact Hs|].
      apply Forall_map, Forall_forall. intros j Hj. apply in_seq in Hj.
      apply documentPercentage_le. lia.
    + constructor; [apply documentPercentage_bounds; lia | exact Hw].
Qed.

Lemma processFiles_run (env : ServerEnv) (total : nat) (rest : list UploadedFile) :
  forall (fileIndex : nat) (processed : list ProcessedDocument) (stream : list SseEvent),
  exists evs,
    processFiles env total fileIndex rest processed stream
    = ((processed ++ successfullyProcessed env fileIndex rest)%list,
       (stream ++ evs)%list) /\
    Forall (progressOf ["initialization"; "processing"]) evs.
Proof.
  induction rest as [|file rest IH]; intros fileIndex processed stream.
  - exists []. cbn. rewrite !app_nil_r. split; [reflexivity | constructor].
  - cbn [processFiles successfullyProcessed].
    destruct (fs_pathExists env (S fileIndex)
                (path_join (uploadsDir env) (uf_filename file))); cbn [negb].
    + destruct (processDocument env (S fileIndex)
                  (path_join (uploadsDir env) (uf_filename file)) file) as [doc|m].
      * match goal with
        | |- context [processFiles env total (S fileIndex) rest ?p ?s] =>
            destruct (IH (S fileIndex) p s) as (evs & -> & Hevs)
        end.
        eexists (_ :: _ :: evs). unfold sendProgress.
        rewrite <- !app_assoc. cbn [app]. split; [reflexivity|].
        constructor; [cbn; auto | constructor; [cbn; auto | exact Hevs]].
      * match goal with
        | |- context [processFiles env total (S fileIndex) rest ?p ?s] =>
            destruct (IH (S fileIndex) p s) as (evs & -> & Hevs)
        end.
        eexists (_ :: _ :: evs). unfold sendProgress.
        rewrite <- !app_assoc. cbn [app]. split; [reflexivity|].
        constructor; [cbn; auto | constructor; [cbn; auto | exact Hevs]].
    + match goal with
      | |- context [processFiles env total (S fileIndex) rest ?p ?s] =>
          destruct (IH (S fileIndex) p s) as (evs & -> & Hevs)
      end.
      eexists (_ :: _ :: evs). unfold sendProgress.
      rewrite <- !app_assoc. cbn [app]. split; [reflexivity|].
      constructor; [cbn; auto | constructor; [cbn; auto | exact Hevs]].
Qed.

Lemma extractAll_run (env : OllamaEnv) (total : nat) (rest : list ProcessedDocument) :
  forall (docIndex : nat) (extractedData : list DocumentAnalysis) (log : list Event)
         (sink : list SseEvent),
  exists evs,
    snd (extractAll env sendProgress total docIndex rest extractedData log sink)
    = (sink ++ evs)%list /\
    Forall (progressOf ["analysis"; "complete"]) evs /\
    percentages evs = map (documentPercentage total) (seq (S docIndex) (List.length rest)).
Proof.
  induction rest as [|doc rest IH]; intros docIndex extractedData log sink.
  - exists []. cbn. rewrite app_nil_r. repeat split. constructor.
  - cbn [extractAll].
    destruct (analyzeDocument env doc log) as [[findings|m] log'].
    + match goal with
      | |- context [extractAll env sendProgress total (S docIndex) rest ?d ?l ?s] =>
          destruct (IH (S docIndex) d l s) as (evs & -> & Hevs & Hp)
      end.
      eexists (_ :: evs). unfold sendProgress. rewrite <- app_assoc. cbn [app].
      split; [reflexivity|]. split; [constructor; [cbn; auto | exact Hevs]|].
      cbn [percentages map percentage List.length seq]. unfold percentages in Hp.
      rewrite Hp. reflexivity.
    + match goal with
      | |- context [extractAll env sendProgress total (S docIndex) rest ?d ?l ?s] =>
          destruct (IH (S docIndex) d l s) as (evs & -> & Hevs & Hp)
      end.
      eexists (_ :: evs). unfold sendProgress. rewrite <- app_assoc. cbn [app].
      split; [reflexivity|]. split; [constructor; [cbn; auto | exact Hevs]|].
      cbn [percentages map percentage List.length seq]. unfold percentages in Hp.
      rewrite Hp. reflexivity.
Qed.

(** The events that [analyzeDocuments] sends to the stream: either the
    model installation fails after the download notice, or the analysis
    events follow with non-decreasing percentages between 75 and 95. *)
Lemma analyzeDocuments_run (env : OllamaEnv) (docs : list ProcessedDocument)
    (log : list Event) (sink : list SseEvent) :
  docs <> [] ->
  (modelAvailable env = false /\
   exists m log',
     pull env = Throw m /\
     analyzeDocuments env sendProgress docs log sink
     = (Throw ("Failed to complete credit analysis: " ++ m), log',
        (sink ++ [ProgressEvent "analysis" 75%Q
                    "Downloading AI model (this may take a few minutes)..."])%list)) \/
  (exists result log' evs,
     analyzeDocuments env sendProgress docs log sink = (Ok result, log', (sink ++ evs)%list) /\
     Forall (progressOf ["analysis"; "complete"]) evs /\
     StronglySorted Qle (percentages evs) /\
     within 75 95 (percentages evs)).
Proof.
  intros Hne. unfold analyzeDocuments, analyzeDocuments_body.
  assert (Hloop : forall sink2,
             exists result log' evs,
               (let '(extractedData, log3, sink3) :=
                  extractAll env sendProgress (List.length docs) 0 docs [] log
                    (sendProgress "analysis" 80%Q
                       "Extracting financial data from documents..." sink2) in
                match generateCreditAnalysis env extractedData (map pd_type docs) with
                | Ok credit =>
                    (Ok {| creditAnalysis := credit;
                           documentAnalysis := extractedData;
                           metadata_totalDocuments := List.length docs;
                           metadata_documentTypes := map pd_type docs;
                           metadata_analysisDate := toISOString_now env |},
                     log3,
                     sendProgress "analysis" 95%Q "Generating credit recommendation..." sink3)
                | Throw message =>
                    (Throw message, log3,
                     sendProgress "analysis" 95%Q "Generating credit recommendation..." sink3)
                end) = (Ok result, log', (sink2 ++ evs)%list) /\
               Forall (progressOf ["analysis"; "complete"]) evs /\
               StronglySorted Qle (percentages evs) /\
               within 80 95 (percentages evs)).
  { intros sink2.
    destruct (extractAll_run env (List.length docs) docs 0 [] log
                (sendProgress "analysis" 80%Q
                   "Extracting financial data from documents..." sink2))
      as (evs & Hsnd & Hevs & Hp).
    destruct (extractAll env sendProgress (List.length docs) 0 docs [] log
                (sendProgress "analysis" 80%Q
                   "Extracting financial data from documents..." sink2))
      as [[extractedData log3] sink3].
    cbn [snd] in Hsnd. subst sink3.
    destruct (generateCreditAnalysis_returns env extractedData (map pd_type docs))
      as [credit ->].
    eexists _, log3, (ProgressEvent "analysis" 80%Q _ :: evs ++ [ProgressEvent "analysis" 95%Q _])%list.
    unfold sendProgress. rewrite <- !app_assoc. cbn [app].
    split; [reflexivity|].
    assert (Hmid : StronglySorted Qle (percentages evs) /\ within 80 95 (percentages evs)).
    { rewrite Hp. destruct docs as [|d docs']; [contradiction|]. cbn [List.length].
      apply documentPercentages_sorted. lia. }
    destruct Hmid as [Hs Hw].
    assert (Htail : StronglySorted Qle (percentages evs ++ [95%Q]) /\
                    within 80 95 (percentages evs ++ [95%Q])).
    { apply (sorted_app _ _ 80%Q 95%Q 95%Q); try assumption; try discriminate.
      - repeat constructor.
      - repeat constructor; discriminate. }
    destruct Htail as [Hs' Hw'].
    split; [|split].
    - constructor; [cbn; auto|]. apply Forall_app. split; [exact Hevs|].
      constructor; [cbn; auto | constructor].
    - unfold percentages. cbn [map percentage]. rewrite map_app. cbn [map percentage].
      constructor; [exact Hs'|].
      eapply Forall_impl; [|exact Hw']. intros q [Hq _]. exact Hq.
    - unfold percentages. cbn [map percentage]. rewrite map_app. cbn [map percentage].
      constructor; [split; discriminate | exact Hw']. }
  destruct (modelAvailable env) eqn:Hav; cbn [negb].
  - right. destruct (Hloop sink) as (result & log' & evs & Heq & Hevs & Hs & Hw).
    exists result, log', evs. rewrite Heq. split; [reflexivity|].
    split; [exact Hevs|]. split; [exact Hs|].
    eapply Forall_impl; [|exact Hw]. intros q [H1 H2].
    split; [apply Qle_trans with 80%Q; [discriminate | exact H1] | exact H2].
  - destruct (pull env) as [[]|m] eqn:Hpull.
    + right.
      destruct (Hloop (sendProgress "analysis" 75%Q
                         "Downloading AI model (this may take a few minutes)..." sink))
        as (result & log' & evs & Heq & Hevs & Hs & Hw).
      exists result, log', (ProgressEvent "analysis" 75%Q
                              "Downloading AI model (this may take a few minutes)..." :: evs).
      rewrite Heq. unfold sendProgress. rewrite <- app_assoc. cbn [app].
      split; [reflexivity|]. split; [constructor; [cbn; auto | exact Hevs]|].
      unfold percentages. cbn [map percentage]. split.
      * constructor; [exact Hs|].
        eapply Forall_impl; [|exact Hw]. intros q [H1 _].
        apply Qle_trans with 80%Q; [discriminate | exact H1].
      * constructor; [split; discriminate|].
        eapply Forall_impl; [|exact Hw]. intros q [H1 H2].
        split; [apply Qle_trans with 80%Q; [discriminate | exact H1] | exact H2].
    + left. split; [reflexivity|]. exists m, log. split; reflexivity.
Qed.

(** The shape of the event stream of one request. *)
Lemma analyzeStream_shape (env : ServerEnv) (files : list UploadedFile) :
  exists early late terminal,
    analyzeStream env files = (early ++ late ++ [terminal])%list /\
    Forall (progressOf ["initialization"; "processing"]) early /\
    Forall (progressOf ["analysis"; "complete"]) late /\
    StronglySorted Qle (percentages late) /\
    within 70 100 (percentages late) /\
    ((version_reachable env = false /\ late = [] /\
      exists m, terminal = ErrorEvent 0%Q m) \/
     (version_reachable env = true /\ successfullyProcessed env 0 files = [] /\
      late = [] /\ terminal = ErrorEvent 0%Q noDocumentsMessage) \/
     (version_reachable env = true /\ successfullyProcessed env 0 files <> [] /\
      modelAvailable (ollama env) = false /\
      exists m rest,
        pull (ollama env) = Throw m /\ late = analysisStarted :: rest /\
        terminal = ErrorEvent 0%Q ("Failed to complete credit analysis: " ++ m)) \/
     (version_reachable env = true /\ successfullyProcessed env 0 files <> [] /\
      exists result rest,
        late = analysisStarted :: rest /\ terminal = ResultEvent 100%Q result)).
Proof.
  unfold analyzeStream, checkConnection.
  destruct (version_reachable env) eqn:Hreach.
  - destruct (processFiles_run env (List.length files) files 0 []
                (sendProgress "processing" 10%Q "Starting document processing..."
                   (sendProgress "initialization" 5%Q
                      "Checking AI service connection..." [])))
      as (evs & -> & Hevs).
    cbn [app]. set (docs := successfullyProcessed env 0 files).
    assert (Hearly : Forall (progressOf ["initialization"; "processing"])
                       (ProgressEvent "initialization" 5%Q "Checking AI service connection..."
                        :: ProgressEvent "processing" 10%Q "Starting document processing..."
                        :: evs))
      by (constructor; [cbn; auto | constructor; [cbn; auto | exact Hevs]]).
    destruct docs as [|d docs'] eqn:Hdocs.
    + cbn [List.length Nat.eqb].
      exists (ProgressEvent "initialization" 5%Q "Checking AI service connection..."
                 :: ProgressEvent "processing" 10%Q "Starting document processing..."
                 :: evs), [], (ErrorEvent 0%Q noDocumentsMessage).
      split; [unfold sendProgress; cbn [app]; reflexivity|].
      split; [exact Hearly|]. split; [constructor|]. split; [constructor|].
      split; [constructor|]. right; left. now repeat split.
    + cbn [List.length Nat.eqb].
      destruct (analyzeDocuments_run (ollama env) (d :: docs') []
                  (sendProgress "analysis" 70%Q "Analyzing documents with AI..."
                     (sendProgress "processing" 10%Q "Starting document processing..."
                        (sendProgress "initialization" 5%Q
                           "Checking AI service connection..." []) ++ evs)))
        as [(Hav & m & log' & Hpull & ->) | (result & log' & aevs & -> & Haevs & Hs & Hw)];
        [discriminate| |].
      * exists (ProgressEvent "initialization" 5%Q "Checking AI service connection..."
                 :: ProgressEvent "processing" 10%Q "Starting document processing..."
                 :: evs),
          [analysisStarted;
           ProgressEvent "analysis" 75%Q
             "Downloading AI model (this may take a few minutes)..."],
          (ErrorEvent 0%Q ("Failed to complete credit analysis: " ++ m)).
        unfold sendProgress, analysisStarted. cbn [app].
        repeat (rewrite <- app_assoc; cbn [app]).
        split; [reflexivity|]. split; [exact Hearly|].
        split; [constructor; [cbn; auto | constructor; [cbn; auto | constructor]]|].
        split; [repeat constructor; discriminate|].
        split; [repeat constructor; discriminate|].
        right; right; left. split; [reflexivity|]. split; [discriminate|].
        split; [exact Hav|]. exists m. eexists. now repeat split.
      * exists (ProgressEvent "initialization" 5%Q "Checking AI service connection..."
                 :: ProgressEvent "processing" 10%Q "Starting document processing..."
                 :: evs),
          (analysisStarted :: aevs
             ++ [ProgressEvent "complete" 100%Q "Analysis complete!"])%list,
          (ResultEvent 100%Q result).
        unfold sendProgress, analysisStarted. cbn [app].
        repeat (rewrite <- app_assoc; cbn [app]).
        split; [reflexivity|]. split; [exact Hearly|].
        assert (Htail : StronglySorted Qle (percentages aevs ++ [100%Q]) /\
                        within 75 100 (percentages aevs ++ [100%Q])).
        { apply (sorted_app _ _ 75%Q 95%Q 100%Q); try assumption; try discriminate.
          - repeat constructor.
          - repeat constructor; discriminate. }
        destruct Htail as [Hs' Hw'].
        split; [|split; [|split]].
        -- constructor; [cbn; auto|]. apply Forall_app. split; [exact Haevs|].
           constructor; [cbn; auto | constructor].
        -- unfold percentages. cbn [map percentage]. rewrite map_app. cbn [map percentage].
           constructor; [exact Hs'|].
           eapply Forall_impl; [|exact Hw']. intros q [Hq _].
           apply Qle_trans with 75%Q; [discriminate | exact Hq].
        -- unfold percentages. cbn [map percentage]. rewrite map_app. cbn [map percentage].
           constructor; [split; discriminate|].
           eapply Forall_impl; [|exact Hw']. intros q [H1 H2].
           split; [apply Qle_trans with 75%Q; [discriminate | exact H1] | exact H2].
        -- right; right; right. split; [reflexivity|]. split; [discriminate|].
           exists result. eexists. split; reflexivity.
  - eexists [_], [], (ErrorEvent 0%Q _). unfold sendProgress. cbn [app].
    split; [reflexivity|]. split; [constructor; [cbn; auto | constructor]|].
    split; [constructor|]. split; [constructor|]. split; [constructor|].
    left. split; [reflexivity|]. split; [reflexivity|]. eexists. reflexivity.
Qed.

Lemma endsWith_unique (events : list SseEvent) (a b : SseEvent) :
  endsWith events a -> endsWith events b -> a = b.
Proof.
  intros [l1 H1] [l2 H2]. rewrite H1 in H2. now apply app_inj_tail in H2.
Qed.


(** C3 (amended). The event stream of every request consists of the
    initialization and per-file processing events, then the events of the
    analysis and finalization steps, then one terminal event. The percentages
    of the analysis and finalization events lie between 70 and 100 and are
    non-decreasing, and remain so up to and including a terminal result event;
    a terminal error event carries the percentage 0. *)
Theorem analysis_percentages_non_decreasing :
  forall (env : ServerEnv) (files : list UploadedFile),
  exists early late terminal,
    analyzeStream env files = (early ++ late ++ [terminal])%list /\
    Forall (progressOf ["initialization"; "processing"]) early /\
    Forall (progressOf ["analysis"; "complete"]) late /\
    nonDecreasing (percentages late) /\
    within 70 100 (percentages late) /\
    match terminal with
    | ResultEvent _ _ =>
        late <> [] /\ nonDecreasing (percentages (late ++ [terminal]))
    | ErrorEvent progress _ => progress = 0%Q
    | ProgressEvent _ _ _ => False
    end.
Proof.
  intros env files.
  destruct (analyzeStream_shape env files)
    as (early & late & terminal & Hstream & Hearly & Hlate & Hs & Hw & Hcase).
  exists early, late, terminal.
  split; [exact Hstream|]. split; [exact Hearly|]. split; [exact Hlate|].
  split; [now apply StronglySorted_Sorted|]. split; [exact Hw|].
  destruct Hcase as [(_ & _ & m & ->) | [(_ & _ & _ & ->)
                    | [(_ & _ & _ & m & rest & _ & _ & ->)
                    | (_ & _ & result & rest & Hl & ->)]]]; try reflexivity.
  split; [rewrite Hl; discriminate|].
  unfold percentages. rewrite map_app. cbn [map percentage].
  apply StronglySorted_Sorted.
  apply (sorted_app _ _ 70%Q 100%Q 100%Q); try assumption; try discriminate.
  - repeat constructor.
  - repeat constructor; discriminate.
Qed.

(** C3, as stated, fails already when the backend cannot be reached: the
    stream is a progress event with percentage 5 followed by the error event
    with percentage 0. *)
Lemma percentage_drops_at_error_event :
  ~ nonDecreasing (percentages (analyzeStream unreachableServer [statementFile])).
Proof.
  assert (Hs : percentages (analyzeStream unreachableServer [statementFile])
               = [5%Q; 0%Q]) by reflexivity.
  rewrite Hs. intros H. inversion H as [|a l _ Hd]; subst.
  inversion Hd as [|b l' Hle]; subst.
  unfold Qle in Hle. cbn in Hle. lia.
Qed.

(** The processing step of a healthy one-file request announces 10 and
    then 5. *)
Example processing_percentages_one_file :
  map Qred (percentages (analyzeStream healthyServer [statementFile]))
  = [5; 10; 5; 60; 70; 80; 95; 95; 100; 100]%Q.
Proof. vm_compute. reflexivity. Qed.




(** ** Cross-check against binary64 arithmetic *)

(** For every batch of up to 40 documents the score and the rating computed
    over the rationals are those of the binary64 computation. *)
Lemma fallback_agrees_with_binary64 : agrees64_upto 40 = true.
Proof. vm_compute. reflexivity. Qed.

(** * Further properties of the services *)

(** ** Document analysis ([analyzeDocument], [analyzeDocuments]) *)

Lemma waited_app (l1 l2 : list Event) : waited (l1 ++ l2)%list = waited l1 + waited l2.
Proof.
  induction l1 as [|[p q|ms] l1 IH]; simpl; [reflexivity | exact IH | rewrite IH; lia].
Qed.

Lemma failedRounds_counts imagePath prompt j :
  attempts (failedRounds imagePath prompt j) = j /\
  waited (failedRounds imagePath prompt j) = retryDelay * j.
Proof.
  induction j as [|j [IHa IHw]]; [split; [reflexivity | cbn; lia]|].
  cbn [failedRounds attempts waited]. rewrite IHa, IHw. split; lia.
Qed.

Lemma retryTrace_counts imagePath prompt k :
  1 <= k ->
  attempts (retryTrace imagePath prompt k) = k /\
  waited (retryTrace imagePath prompt k) = retryDelay * (k - 1).
Proof.
  intros Hk. unfold retryTrace. rewrite attempts_app, waited_app.
  destruct (failedRounds_counts imagePath prompt (k - 1)) as [-> ->].
  cbn [attempts waited]. split; lia.
Qed.

Lemma pageRuns_counts (prompt : string) (total : nat) (paths : list string) :
  forall (i : nat) (ks : list nat),
    List.length ks = List.length paths ->
    Forall (fun k => 1 <= k <= 4) ks ->
    attempts (pageRuns prompt total i paths ks) = list_sum ks /\
    waited (pageRuns prompt total i paths ks) = retryDelay * (list_sum ks - List.length paths) /\
    List.length paths <= list_sum ks <= 4 * List.length paths.
Proof.
  induction paths as [|path paths IH]; intros i [|k ks] Hlen Hks; try discriminate.
  - cbn. repeat split; lia.
  - inversion Hks as [|? ? Hk Hks']; subst. cbn [List.length] in Hlen.
    destruct (IH (S i) ks) as (Ha & Hw & Hb); [lia | exact Hks'|].
    destruct (retryTrace_counts path (promptOfPage prompt (i + 1) total) k) as [Hta Htw]; [lia|].
    change (list_sum (k :: ks)) with (k + list_sum ks).
    cbn [pageRuns List.length]. rewrite attempts_app, waited_app, Hta, Htw, Ha, Hw.
    unfold retryDelay. repeat split; lia.
Qed.

(** The attempts and the waiting time that one call of
    [analyzeMultipleImages] adds to the log. *)
Lemma analyzeMultipleImages_budget (env : OllamaEnv) (imagePaths : list string)
    (prompt : string) (log : list Event) :
  exists a,
    attempts (snd (analyzeMultipleImages env imagePaths prompt log)) = attempts log + a /\
    waited (snd (analyzeMultipleImages env imagePaths prompt log))
    = waited log + retryDelay * (a - List.length imagePaths) /\
    List.length imagePaths <= a <= 4 * List.length imagePaths.
Proof.
  unfold analyzeMultipleImages.
  destruct (analyzePages_run env prompt (List.length imagePaths) imagePaths 0 [] log)
    as (new & ks & _ & _ & _ & _ & Hlen & Hks & Hrun).
  destruct (pageRuns_counts prompt (List.length imagePaths) imagePaths 0 ks Hlen Hks)
    as (Ha & Hw & Hb).
  exists (list_sum ks). rewrite Hrun, attempts_app, waited_app, Ha, Hw.
  repeat split; lia.
Qed.

Lemma analyzeDocument_budget (env : OllamaEnv) (doc : ProcessedDocument) (log : list Event) :
  exists a,
    attempts (snd (analyzeDocument env doc log)) = attempts log + a /\
    waited (snd (analyzeDocument env doc log))
    = waited log + retryDelay * (a - List.length (images doc)) /\
    List.length (images doc) <= a <= 4 * List.length (images doc).
Proof.
  unfold analyzeDocument.
  destruct (0 <? List.length (images doc))%nat eqn:Himg.
  - destruct (analyzeMultipleImages_budget env (images doc)
                (getDocumentPrompt (pd_type doc)) log) as (a & Ha & Hw & Hb).
    destruct (analyzeMultipleImages env (images doc) (getDocumentPrompt (pd_type doc)) log)
      as [imageAnalyses log'].
    exists a. cbn [snd] in *. now repeat split.
  - apply Nat.ltb_ge in Himg. exists 0. cbn [snd]. repeat split; lia.
Qed.

Section AnalysisBudget.
Context {Sink : Type}.
Variable env : OllamaEnv.
Variable progressCallback : string -> Q -> string -> Sink -> Sink.

Lemma extractAll_budget (total : nat) (rest : list ProcessedDocument) :
  forall (docIndex : nat) (extractedData : list DocumentAnalysis) (log : list Event)
         (sink : Sink),
  exists a,
    attempts (snd (fst (extractAll env progressCallback total docIndex rest
                          extractedData log sink)))
    = attempts log + a /\
    waited (snd (fst (extractAll env progressCallback total docIndex rest
                        extractedData log sink)))
    = waited log + retryDelay * (a - totalPages rest) /\
    totalPages rest <= a <= 4 * totalPages rest.
Proof.
  induction rest as [|doc rest IH]; intros docIndex extractedData log sink.
  - exists 0. cbn. repeat split; lia.
  - cbn [extractAll]. change (totalPages (doc :: rest))
      with (List.length (images doc) + totalPages rest).
    destruct (analyzeDocument_budget env doc log) as (a1 & Ha1 & Hw1 & Hb1).
    destruct (analyzeDocument_returns env doc log) as (findings & log' & Hd).
    rewrite Hd in *. cbn [snd] in Ha1, Hw1.
    match goal with
    | |- context [extractAll env progressCallback total (S docIndex) rest ?d ?l ?s] =>
        destruct (IH (S docIndex) d l s) as (a2 & Ha2 & Hw2 & Hb2)
    end.
    exists (a1 + a2). rewrite Ha2, Hw2, Ha1, Hw1. unfold retryDelay. repeat split; lia.
Qed.

End AnalysisBudget.

(** X1. Inference budget of a batch: analysing the documents makes at
    most four attempts per page image, and the time spent waiting between
    attempts is [retryDelay] (2000 ms) for every attempt beyond the first of
    a page, hence at most three delays per page; when a report is returned
    every page has been attempted at least once. *)
Theorem analyzeDocuments_inference_budget :
  forall (Sink : Type) (progressCallback : string -> Q -> string -> Sink -> Sink)
         (env : OllamaEnv) (docs : list ProcessedDocument) (log : list Event) (sink : Sink),
  exists a,
    attempts (snd (fst (analyzeDocuments env progressCallback docs log sink)))
    = attempts log + a /\
    a <= 4 * totalPages docs /\
    waited (snd (fst (analyzeDocuments env progressCallback docs log sink)))
    <= waited log + 3 * retryDelay * totalPages docs /\
    (forall result,
        fst (fst (analyzeDocuments env progressCallback docs log sink)) = Ok result ->
        totalPages docs <= a /\
        waited (snd (fst (analyzeDocuments env progressCallback docs log sink)))
        = waited log + retryDelay * (a - totalPages docs)).
Proof.
  intros Sink progressCallback env docs log sink.
  unfold analyzeDocuments, analyzeDocuments_body.
  destruct (if negb (modelAvailable env) then pull env else Ok tt) as [u|m].
  - match goal with
    | |- context [extractAll env progressCallback ?t ?i docs ?d log ?s] =>
        destruct (extractAll_budget env progressCallback t docs i d log s)
          as (a & Ha & Hw & Hb);
        destruct (extractAll env progressCallback t i docs d log s)
          as [[extractedData log3] sink3]
    end.
    cbn [fst snd] in Ha, Hw.
    destruct (generateCreditAnalysis env extractedData (map pd_type docs)) as [credit|m];
      cbn [fst snd]; exists a;
      (split; [exact Ha|]); (split; [lia|]);
      (split; [unfold retryDelay in *; lia|]);
      intros result Hr; try discriminate; split; [lia | exact Hw].
  - exists 0. cbn [fst snd]. split; [lia|]. split; [lia|]. split; [lia|].
    intros result Hr. discriminate.
Qed.

Lemma analyzeImage_healthy (env : OllamaEnv) (path prompt : string) (log : list Event) :
  healthy env ->
  exists response,
    analyzeImage env path prompt 0 log
    = (Ok response, (log ++ [Attempt path prompt])%list).
Proof.
  intros Hh. destruct (Hh log path prompt) as [response Hr].
  exists response. simp analyzeImage. rewrite Hr. reflexivity.
Qed.

Lemma analyzePages_healthy (env : OllamaEnv) (prompt : string) (total : nat)
    (rest : list string) :
  healthy env ->
  forall (i : nat) (results : list PageAnalysisResult) (log : list Event),
    attempts (snd (analyzePages env prompt total i rest results log))
    = attempts log + List.length rest /\
    waited (snd (analyzePages env prompt total i rest results log)) = waited log.
Proof.
  intros Hh. induction rest as [|path rest IH]; intros i results log.
  - cbn. split; lia.
  - cbn [analyzePages].
    destruct (analyzeImage_healthy env path (pagePrompt prompt i total) log Hh) as [r ->].
    match goal with
    | |- context [analyzePages env prompt total (S i) rest ?rs ?lg] =>
        destruct (IH (S i) rs lg) as [Ha Hw]
    end.
    rewrite Ha, Hw, attempts_app, waited_app. cbn. split; lia.
Qed.

Section HealthyBudget.
Context {Sink : Type}.
Variable env : OllamaEnv.
Variable progressCallback : string -> Q -> string -> Sink -> Sink.
Hypothesis Hhealthy : healthy env.

Lemma analyzeDocument_healthy (doc : ProcessedDocument) (log : list Event) :
  attempts (snd (analyzeDocument env doc log)) = attempts log + List.length (images doc) /\
  waited (snd (analyzeDocument env doc log)) = waited log.
Proof.
  unfold analyzeDocument.
  destruct (0 <? List.length (images doc))%nat eqn:Himg.
  - pose proof (analyzePages_healthy env (getDocumentPrompt (pd_type doc))
                  (List.length (images doc)) (images doc) Hhealthy 0 [] log) as H.
    unfold analyzeMultipleImages.
    destruct (analyzePages env (getDocumentPrompt (pd_type doc))
                (List.length (images doc)) 0 (images doc) [] log) as [rs log'].
    exact H.
  - apply Nat.ltb_ge in Himg. cbn [snd]. split; lia.
Qed.

Lemma extractAll_healthy (total : nat) (rest : list ProcessedDocument) :
  forall (docIndex : nat) (extractedData : list DocumentAnalysis) (log : list Event)
         (sink : Sink),
    attempts (snd (fst (extractAll env progressCallback total docIndex rest
                          extractedData log sink)))
    = attempts log + totalPages rest /\
    waited (snd (fst (extractAll env progressCallback total docIndex rest
                        extractedData log sink)))
    = waited log.
Proof.
  induction rest as [|doc rest IH]; intros docIndex extractedData log sink.
  - cbn. split; lia.
  - cbn [extractAll]. change (totalPages (doc :: rest))
      with (List.length (images doc) + totalPages rest).
    destruct (analyzeDocument_healthy doc log) as [Ha1 Hw1].
    destruct (analyzeDocument_returns env doc log) as (findings & log' & Hd).
    rewrite Hd in *. cbn [snd] in Ha1, Hw1.
    match goal with
    | |- context [extractAll env progressCallback total (S docIndex) rest ?d ?l ?s] =>
        destruct (IH (S docIndex) d l s) as [Ha2 Hw2]
    end.
    rewrite Ha2, Hw2, Ha1, Hw1. split; lia.
Qed.

End HealthyBudget.

(** X2. On a backend whose every attempt yields a non-empty reply, a batch
    whose model is installed (or can be installed) is analysed with exactly
    one inference call per page image and without any waiting. *)
Theorem analyzeDocuments_healthy_backend :
  forall (Sink : Type) (progressCallback : string -> Q -> string -> Sink -> Sink)
         (env : OllamaEnv) (docs : list ProcessedDocument) (log : list Event) (sink : Sink)
         (result : AnalysisResult) (log' : list Event) (sink' : Sink),
    healthy env ->
    analyzeDocuments env progressCallback docs log sink = (Ok result, log', sink') ->
    attempts log' = attempts log + totalPages docs /\
    waited log' = waited log.
Proof.
  intros Sink progressCallback env docs log sink result log' sink' Hh.
  unfold analyzeDocuments, analyzeDocuments_body.
  destruct (if negb (modelAvailable env) then pull env else Ok tt) as [u|m];
    [|discriminate].
  match goal with
  | |- context [extractAll env progressCallback ?t ?i docs ?d log ?s] =>
      destruct (extractAll_healthy env progressCallback Hh t docs i d log s) as [Ha Hw];
      destruct (extractAll env progressCallback t i docs d log s)
        as [[extractedData log3] sink3]
  end.
  cbn [fst snd] in Ha, Hw.
  destruct (generateCreditAnalysis env extractedData (map pd_type docs)) as [credit|m];
    [|discriminate].
  intros [= _ <- _]. split; [exact Ha | exact Hw].
Qed.

Lemma analyzeDocuments_healthy_backend_witness :
  exists result log' sink',
    analyzeDocuments proseEnv sendProgress [threePageDocument; statementDocument] [] []
    = (Ok result, log', sink') /\
    attempts log' = 4 /\ waited log' = 0.
Proof.
  destruct (analyzeDocuments proseEnv sendProgress [threePageDocument; statementDocument] [] [])
    as [[[result|m] log'] sink'] eqn:Hrun; [|vm_compute in Hrun; discriminate].
  exists result, log', sink'. split; [reflexivity|].
  apply (analyzeDocuments_healthy_backend (list SseEvent) sendProgress proseEnv
           [threePageDocument; statementDocument] [] [] result log' sink').
  - intros log p q. now exists "Revenue 120".
  - exact Hrun.
Defined.

Section ExtractedIdentity.
Context {Sink : Type}.
Variable env : OllamaEnv.
Variable progressCallback : string -> Q -> string -> Sink -> Sink.

Lemma extractAll_identity (total : nat) (rest : list ProcessedDocument) :
  forall (docIndex : nat) (extractedData : list DocumentAnalysis) (log : list Event)
         (sink : Sink),
  exists new,
    fst (fst (extractAll env progressCallback total docIndex rest extractedData log sink))
    = (extractedData ++ new)%list /\
    map documentId new = map pd_id rest /\
    map documentName new = map pd_originalName rest /\
    map documentType new = map pd_type rest.
Proof.
  induction rest as [|doc rest IH]; intros docIndex extractedData log sink.
  - exists []. cbn. rewrite app_nil_r. now repeat split.
  - cbn [extractAll].
    destruct (analyzeDocument_returns env doc log) as (findings & log' & ->).
    match goal with
    | |- context [extractAll env progressCallback total (S docIndex) rest ?d ?l ?s] =>
        destruct (IH (S docIndex) d l s) as (new & -> & Hid & Hname & Htype)
    end.
    exists (withIdentity findings doc :: new). rewrite <- app_assoc.
    split; [reflexivity|]. cbn [map]. rewrite Hid, Hname, Htype. now repeat split.
Qed.

End ExtractedIdentity.

(** The identity of the analysed documents in a returned report. *)
Lemma analyzeDocuments_identity (Sink : Type)
    (progressCallback : string -> Q -> string -> Sink -> Sink)
    (env : OllamaEnv) (docs : list ProcessedDocument) (log : list Event) (sink : Sink)
    (result : AnalysisResult) (log' : list Event) (sink' : Sink) :
  analyzeDocuments env progressCallback docs log sink = (Ok result, log', sink') ->
  map documentId (documentAnalysis result) = map pd_id docs /\
  map documentName (documentAnalysis result) = map pd_originalName docs /\
  map documentType (documentAnalysis result) = map pd_type docs /\
  metadata_totalDocuments result = List.length docs.
Proof.
  unfold analyzeDocuments, analyzeDocuments_body.
  destruct (if negb (modelAvailable env) then pull env else Ok tt) as [u|m];
    [|discriminate].
  match goal with
  | |- context [extractAll env progressCallback ?t ?i docs ?d log ?s] =>
      destruct (extractAll_identity env progressCallback t docs i d log s)
        as (new & Hfst & Hid & Hname & Htype);
      destruct (extractAll env progressCallback t i docs d log s)
        as [[extractedData log3] sink3]
  end.
  cbn [fst app] in Hfst. subst extractedData.
  destruct (generateCreditAnalysis env new (map pd_type docs)) as [credit|m];
    [|discriminate].
  intros [= <- _ _]. cbn [documentAnalysis metadata_totalDocuments]. now repeat split.
Qed.

(** X3. A report returned by [analyzeDocuments] lists the processed
    documents one by one and in their order: the identifiers, names and
    declared types of its document analyses are those of the processed
    documents, no analysis carries an error, and the metadata give the number
    of documents and their types. *)
Theorem analyzeDocuments_lists_every_document :
  forall (Sink : Type) (progressCallback : string -> Q -> string -> Sink -> Sink)
         (env : OllamaEnv) (docs : list ProcessedDocument) (log : list Event) (sink : Sink)
         (result : AnalysisResult) (log' : list Event) (sink' : Sink),
    analyzeDocuments env progressCallback docs log sink = (Ok result, log', sink') ->
    map documentId (documentAnalysis result) = map pd_id docs /\
    map documentName (documentAnalysis result) = map pd_originalName docs /\
    map documentType (documentAnalysis result) = map pd_type docs /\
    Forall (fun d => doc_error d = None) (documentAnalysis result) /\
    metadata_totalDocuments result = List.length docs /\
    metadata_documentTypes result = map pd_type docs.
Proof.
  intros Sink progressCallback env docs log sink result log' sink' Hrun.
  destruct (analyzeDocuments_result env progressCallback docs log sink result log' sink' Hrun)
    as (_ & Hnone & Htypes & _).
  destruct (analyzeDocuments_identity Sink progressCallback env docs log sink
              result log' sink' Hrun) as (Hid & Hname & Htype & Htotal).
  split; [exact Hid|]. split; [exact Hname|]. split; [exact Htype|].
  split; [exact Hnone|]. split; [exact Htotal | exact Htypes].
Qed.

Lemma analyzeDocuments_lists_every_document_witness :
  exists result,
    fst (fst (analyzeDocuments proseEnv sendProgress
                [threePageDocument; statementDocument] [] [])) = Ok result /\
    map documentId (documentAnalysis result) = ["file-2"; "file-1"].
Proof.
  destruct (analyzeDocuments proseEnv sendProgress [threePageDocument; statementDocument] [] [])
    as [[[result|m] log'] sink'] eqn:Hrun; [|vm_compute in Hrun; discriminate].
  exists result. split; [reflexivity|].
  apply (analyzeDocuments_lists_every_document (list SseEvent) sendProgress proseEnv
           [threePageDocument; statementDocument] [] [] result log' sink' Hrun).
Defined.

(** X4. [analyzeDocuments] fails in one way only: the model is not
    installed and its installation fails; the error then is 'Failed to
    complete credit analysis: ' followed by the installation error, raised
    after the download notice and before any document is analysed. In every
    other case it returns a report, whatever the documents and the replies of
    the backend. *)
Theorem analyzeDocuments_fails_only_on_install :
  forall (Sink : Type) (progressCallback : string -> Q -> string -> Sink -> Sink)
         (env : OllamaEnv) (docs : list ProcessedDocument) (log : list Event) (sink : Sink),
    (forall m,
        modelAvailable env = false -> pull env = Throw m ->
        analyzeDocuments env progressCallback docs log sink
        = (Throw ("Failed to complete credit analysis: " ++ m), log,
           progressCallback "analysis" 75%Q
             "Downloading AI model (this may take a few minutes)..." sink)) /\
    (modelAvailable env = true \/ pull env = Ok tt ->
     exists result,
       fst (fst (analyzeDocuments env progressCallback docs log sink)) = Ok result) /\
    (forall m,
        fst (fst (analyzeDocuments env progressCallback docs log sink)) = Throw m ->
        modelAvailable env = false /\
        exists cause,
          pull env = Throw cause /\ m = "Failed to complete credit analysis: " ++ cause).
Proof.
  intros Sink progressCallback env docs log sink.
  assert (Hok : (if negb (modelAvailable env) then pull env else Ok tt) = Ok tt ->
                exists result,
                  fst (fst (analyzeDocuments env progressCallback docs log sink)) = Ok result).
  { intros Hp. unfold analyzeDocuments, analyzeDocuments_body. rewrite Hp.
    match goal with
    | |- context [extractAll env progressCallback ?t ?i docs ?d log ?s] =>
        destruct (extractAll env progressCallback t i docs d log s)
          as [[extractedData log3] sink3]
    end.
    destruct (generateCreditAnalysis_returns env extractedData (map pd_type docs))
      as [credit ->].
    eexists. reflexivity. }
  split; [|split].
  - intros m Hav Hpull. unfold analyzeDocuments, analyzeDocuments_body.
    rewrite Hav. cbn [negb]. rewrite Hpull. reflexivity.
  - intros [Hav | Hpull]; apply Hok.
    + now rewrite Hav.
    + rewrite Hpull. now destruct (negb (modelAvailable env)).
  - intros m Hm. destruct (modelAvailable env) eqn:Hav.
    + destruct Hok as [result Hr]; [reflexivity|]. rewrite Hr in Hm. discriminate.
    + destruct (pull env) as [[]|cause] eqn:Hpull.
      * destruct Hok as [result Hr]; [reflexivity|]. rewrite Hr in Hm. discriminate.
      * split; [reflexivity|]. exists cause. split; [reflexivity|].
        revert Hm. unfold analyzeDocuments, analyzeDocuments_body.
        rewrite Hav. cbn [negb]. rewrite Hpull. cbn [fst]. now intros [= <-].
Qed.

(** X5. [analyzeDocument] returns findings for every document. For a
    document with page images it records one page analysis per image, the
    number of images as page count, and a narrative that is not empty; for a
    document without images it makes no inference call and hands on the
    document's text, or 'No content extracted' when the text is empty. *)
Theorem analyzeDocument_findings :
  forall (env : OllamaEnv) (doc : ProcessedDocument) (log : list Event),
  exists findings log',
    analyzeDocument env doc log = (Ok findings, log') /\
    f_type findings = pd_type doc /\
    (images doc <> [] ->
     f_pageCount findings = Some (List.length (images doc)) /\
     (exists pages,
         f_pageAnalyses findings = Some pages /\
         List.length pages = List.length (images doc) /\
         map imagePath pages = images doc /\
         f_extractedInfo findings = combinePageAnalyses pages) /\
     f_extractedInfo findings <> "" /\
     f_textAnalysis findings = false) /\
    (images doc = [] ->
     log' = log /\
     f_textAnalysis findings = true /\
     f_pageCount findings = None /\
     f_pageAnalyses findings = None /\
     f_extractedInfo findings
     = (if String.eqb (text doc) "" then "No content extracted" else text doc) /\
     f_extractedInfo findings <> "").
Proof.
  intros env doc log. unfold analyzeDocument.
  destruct (images doc) as [|image others] eqn:Himg.
  - cbn [List.length Nat.ltb Nat.leb]. eexists _, _. split; [reflexivity|].
    cbn [f_type f_pageCount f_pageAnalyses f_extractedInfo f_textAnalysis].
    split; [reflexivity|]. split; [intros H; now destruct H|]. intros _.
    repeat split. destruct (String.eqb_spec (text doc) ""); [discriminate | assumption].
  - change (0 <? List.length (image :: others))%nat with true. cbv iota.
    destruct (analyzePages_run env (getDocumentPrompt (pd_type doc))
                (List.length (image :: others)) (image :: others) 0 [] log)
      as (new & ks & Hnew & Hpages & Hpaths & Hrec & _).
    unfold analyzeMultipleImages.
    destruct (analyzePages env (getDocumentPrompt (pd_type doc))
                (List.length (image :: others)) 0 (image :: others) [] log)
      as [pages log'].
    cbn [fst app] in Hnew. subst pages.
    eexists _, _. split; [reflexivity|].
    cbn [f_type f_pageCount f_pageAnalyses f_extractedInfo f_textAnalysis].
    split; [reflexivity|]. split; [|intros H; discriminate H]. intros _.
    split; [reflexivity|]. split; [|split; [|reflexivity]].
    + exists new. split; [reflexivity|].
      split; [rewrite <- (length_map imagePath), Hpaths; reflexivity|].
      split; [exact Hpaths | reflexivity].
    + unfold combinePageAnalyses.
      destruct (filter (fun a => negb (truthy_str (error a))) new) as [|r valid];
        cbn [List.length Nat.eqb]; [discriminate|].
      cbn [map]. apply join_cons_nonempty.
Qed.

(** ** The event stream, continued *)

Lemma Q_of_nat_S (i : nat) : (Q_of_nat (S i) == Q_of_nat i + 1)%Q.
Proof.
  unfold Q_of_nat. rewrite Nat2Z.inj_succ. unfold Z.succ. rewrite inject_Z_plus.
  reflexivity.
Qed.

Lemma completion_percentage (i : nat) (t : Q) :
  (0 < t)%Q -> (Q_of_nat i / t * 60 + 60 / t == Q_of_nat (S i) / t * 60)%Q.
Proof.
  intros Ht. rewrite Q_of_nat_S. field. intros H. rewrite H in Ht. discriminate.
Qed.

(** The two events of the file at position [i + 1] of [S n] files. *)
Lemma file_percentages (n i : nat) :
  i <= n ->
  (5 <= Q_of_nat i / Q_of_nat (S n) * 60 + 5 <= 65)%Q /\
  (0 <= Q_of_nat i / Q_of_nat (S n) * 60 + 60 / Q_of_nat (S n) <= 60)%Q.
Proof.
  intros Hi.
  destruct (ratio_bounds i n) as [H0 H1]; [lia|].
  destruct (ratio_bounds (S i) n) as [H0' H1']; [lia|].
  split; split.
  - setoid_replace 5%Q with (0 * 60 + 5)%Q at 1 by ring.
    apply Qplus_le_compat; [|apply Qle_refl].
    apply Qmult_le_compat_r; [exact H0 | discriminate].
  - setoid_replace 65%Q with (1 * 60 + 5)%Q by ring.
    apply Qplus_le_compat; [|apply Qle_refl].
    apply Qmult_le_compat_r; [exact H1 | discriminate].
  - rewrite (completion_percentage i _ (Q_of_nat_pos n)).
    setoid_replace 0%Q with (0 * 60)%Q at 1 by ring.
    apply Qmult_le_compat_r; [exact H0' | discriminate].
  - rewrite (completion_percentage i _ (Q_of_nat_pos n)).
    setoid_replace 60%Q with (1 * 60)%Q at 2 by ring.
    apply Qmult_le_compat_r; [exact H1' | discriminate].
Qed.

Lemma processFiles_events (env : ServerEnv) (n : nat) (rest : list UploadedFile) :
  forall (fileIndex : nat) (processed : list ProcessedDocument) (stream : list SseEvent),
    fileIndex + List.length rest <= S n ->
    exists evs,
      snd (processFiles env (S n) fileIndex rest processed stream) = (stream ++ evs)%list /\
      List.length evs = 2 * List.length rest /\
      countStep "processing" evs = 2 * List.length rest /\
      Forall (fun e => progressOf ["processing"] e /\ (0 <= percentage e <= 65)%Q) evs.
Proof.
  induction rest as [|file rest IH]; intros fileIndex processed stream Hle.
  - exists []. cbn. rewrite app_nil_r. repeat split. constructor.
  - cbn [List.length] in Hle.
    destruct (file_percentages n fileIndex) as [[Ha1 Ha2] [Hb1 Hb2]]; [lia|].
    assert (Hstart : forall m,
               progressOf ["processing"]
                 (ProgressEvent "processing"
                    (Q_of_nat (S fileIndex - 1) / Q_of_nat (S n) * 60 + 5)%Q m) /\
               (0 <= Q_of_nat (S fileIndex - 1) / Q_of_nat (S n) * 60 + 5 <= 65)%Q).
    { intros m. replace (S fileIndex - 1) with fileIndex by lia.
      split; [cbn; auto|]. split; [|exact Ha2].
      apply Qle_trans with 5%Q; [discriminate | exact Ha1]. }
    assert (Hend : forall m,
               progressOf ["processing"]
                 (ProgressEvent "processing"
                    (Q_of_nat (S fileIndex - 1) / Q_of_nat (S n) * 60
                     + 60 / Q_of_nat (S n))%Q m) /\
               (0 <= Q_of_nat (S fileIndex - 1) / Q_of_nat (S n) * 60
                     + 60 / Q_of_nat (S n) <= 65)%Q).
    { intros m. replace (S fileIndex - 1) with fileIndex by lia.
      split; [cbn; auto|]. split; [exact Hb1|].
      apply Qle_trans with 60%Q; [exact Hb2 | discriminate]. }
    cbn [processFiles].
    destruct (fs_pathExists env (S fileIndex)
                (path_join (uploadsDir env) (uf_filename file))); cbn [negb];
      [destruct (processDocument env (S fileIndex)
                   (path_join (uploadsDir env) (uf_filename file)) file) as [doc|m]|];
      match goal with
      | |- context [processFiles env (S n) (S fileIndex) rest ?p ?s] =>
          destruct (IH (S fileIndex) p s) as (evs & -> & Hlen & Hcount & Hevs); [lia|]
      end;
      eexists (_ :: _ :: evs); unfold sendProgress;
      rewrite <- !app_assoc; cbn [app];
      (split; [reflexivity|]);
      (split; [cbn [List.length]; lia|]);
      (split; [unfold countStep in *; cbn [filter String.eqb Ascii.eqb Bool.eqb List.length];
               cbn [List.length]; lia|]);
      (constructor; [apply Hstart | constructor; [apply Hend | exact Hevs]]).
Qed.


Lemma countStep_app (step : string) (a b : list SseEvent) :
  countStep step (a ++ b) = countStep step a + countStep step b.
Proof. unfold countStep. now rewrite filter_app, length_app. Qed.

Lemma countStep_afterProcessing (events : list SseEvent) :
  Forall afterProcessing events -> countStep "processing" events = 0.
Proof.
  induction 1 as [|e events He _ IH]; [reflexivity|].
  change (e :: events) with ([e] ++ events)%list. rewrite countStep_app, IH.
  destruct e as [step p m| |]; [|reflexivity|reflexivity].
  destruct He as [[<- | [<- | []]] _]; reflexivity.
Qed.

(** The terminal result event carries what [analyzeDocuments] returned for
    the successfully processed documents. *)
Lemma analyzeStream_result (env : ServerEnv) (files : list UploadedFile)
    (p : Q) (result : AnalysisResult) :
  endsWith (analyzeStream env files) (ResultEvent p result) ->
  p = 100%Q /\
  version_reachable env = true /\
  successfullyProcessed env 0 files <> [] /\
  exists sink log' sink',
    analyzeDocuments (ollama env) sendProgress (successfullyProcessed env 0 files) [] sink
    = (Ok result, log', sink') /\
    analyzeStream env files
    = (sink' ++ [ProgressEvent "complete" 100%Q "Analysis complete!";
                 ResultEvent 100%Q result])%list.
Proof.
  unfold analyzeStream, checkConnection.
  destruct (version_reachable env) eqn:Hreach.
  - destruct (processFiles_run env (List.length files) files 0 []
                (sendProgress "processing" 10%Q "Starting document processing..."
                   (sendProgress "initialization" 5%Q
                      "Checking AI service connection..." [])))
      as (evs & -> & _).
    cbn [app]. destruct (successfullyProcessed env 0 files) as [|d docs'] eqn:Hdocs.
    + cbn [List.length Nat.eqb]. intros Hend.
      pose proof (endsWith_unique _ _ _ Hend (ex_intro _ _ eq_refl)) as Heq.
      discriminate Heq.
    + cbn [List.length Nat.eqb].
      match goal with
      | |- context [analyzeDocuments ?e ?cb ?ds ?l ?s] =>
          destruct (analyzeDocuments e cb ds l s) as [[[analysis|m] log'] sink'] eqn:Hrun
      end.
      * intros Hend.
        pose proof (endsWith_unique _ _ _ Hend (ex_intro _ _ eq_refl)) as Heq.
        injection Heq as -> ->.
        split; [reflexivity|]. split; [reflexivity|]. split; [discriminate|].
        eexists _, log', sink'. split; [exact Hrun|].
        unfold sendProgress. rewrite <- app_assoc. reflexivity.
      * intros Hend.
        pose proof (endsWith_unique _ _ _ Hend (ex_intro _ _ eq_refl)) as Heq.
        discriminate Heq.
  - intros Hend.
    pose proof (endsWith_unique _ _ _ Hend (ex_intro _ _ eq_refl)) as Heq.
    discriminate Heq.
Qed.

(** X6. Once the connectivity check has passed, the stream opens with the
    initialization event (5) and the announcement of the processing (10),
    followed by exactly two processing events for every file of the request,
    whether the file is missing, processed or fails: [1 + 2 * n] processing
    events in all. Their percentages lie between 0 and 65; whatever follows
    them is an analysis or completion event with a percentage between 70 and
    100, or the terminal event. *)
Theorem analyzeStream_processing_phase :
  forall (env : ServerEnv) (files : list UploadedFile),
    version_reachable env = true ->
    exists perFile rest,
      analyzeStream env files
      = (ProgressEvent "initialization" 5%Q "Checking AI service connection..."
         :: ProgressEvent "processing" 10%Q "Starting document processing..."
         :: perFile ++ rest)%list /\
      List.length perFile = 2 * List.length files /\
      Forall (fun e => progressOf ["processing"] e /\ (0 <= percentage e <= 65)%Q) perFile /\
      rest <> [] /\
      Forall afterProcessing rest /\
      countStep "processing" (analyzeStream env files) = 1 + 2 * List.length files.
Proof.
  intros env files Hreach.
  assert (Hmain : exists perFile rest,
             analyzeStream env files
             = (ProgressEvent "initialization" 5%Q "Checking AI service connection..."
                :: ProgressEvent "processing" 10%Q "Starting document processing..."
                :: perFile ++ rest)%list /\
             List.length perFile = 2 * List.length files /\
             countStep "processing" perFile = 2 * List.length files /\
             Forall (fun e => progressOf ["processing"] e /\ (0 <= percentage e <= 65)%Q)
               perFile /\
             rest <> [] /\
             Forall afterProcessing rest).
  { unfold analyzeStream, checkConnection. rewrite Hreach.
    set (stream2 := sendProgress "processing" 10%Q "Starting document processing..."
                      (sendProgress "initialization" 5%Q
                         "Checking AI service connection..." [])).
    assert (Hfiles : exists perFile,
               snd (processFiles env (List.length files) 0 files [] stream2)
               = (stream2 ++ perFile)%list /\
               List.length perFile = 2 * List.length files /\
               countStep "processing" perFile = 2 * List.length files /\
               Forall (fun e => progressOf ["processing"] e /\ (0 <= percentage e <= 65)%Q)
                 perFile).
    { destruct files as [|file files'].
      - exists []. cbn [processFiles snd List.length]. rewrite app_nil_r.
        repeat split. constructor.
      - cbn [List.length].
        apply (processFiles_events env (List.length files') (file :: files') 0 [] stream2).
        cbn [List.length]. lia. }
    destruct Hfiles as (perFile & Hsnd & Hlen & Hcount & Hbounds).
    destruct (processFiles_run env (List.length files) files 0 [] stream2)
      as (evs & Hrun & _).
    rewrite Hrun in Hsnd. cbn [snd] in Hsnd. apply app_inv_head in Hsnd. subst evs.
    rewrite Hrun. cbn [app].
    exists perFile.
    destruct (successfullyProcessed env 0 files) as [|d docs'] eqn:Hdocs.
    - cbn [List.length Nat.eqb].
      exists [ErrorEvent 0%Q "No documents could be processed successfully"].
      unfold stream2, sendProgress. cbn [app].
      split; [reflexivity|]. split; [exact Hlen|]. split; [exact Hcount|].
      split; [exact Hbounds|]. split; [discriminate|].
      constructor; [exact I | constructor].
    - cbn [List.length Nat.eqb].
      destruct (analyzeDocuments_run (ollama env) (d :: docs') []
                  (sendProgress "analysis" 70%Q "Analyzing documents with AI..."
                     (stream2 ++ perFile)))
        as [(Hav & m & log' & Hpull & ->) | (result & log' & aevs & -> & Haevs & _ & Hw)];
        [discriminate| |].
      + eexists (analysisStarted :: _ :: [_]).
        unfold stream2, sendProgress, analysisStarted.
        rewrite <- !app_assoc. cbn [app].
        split; [reflexivity|]. split; [exact Hlen|]. split; [exact Hcount|].
        split; [exact Hbounds|]. split; [discriminate|].
        constructor; [cbn; split; [auto | split; discriminate]|].
        constructor; [cbn; split; [auto | split; discriminate]|].
        constructor; [exact I | constructor].
      + eexists (analysisStarted :: aevs ++ [_; _])%list.
        unfold stream2, sendProgress, analysisStarted.
        rewrite <- !app_assoc. cbn [app].
        split; [reflexivity|]. split; [exact Hlen|]. split; [exact Hcount|].
        split; [exact Hbounds|]. split; [discriminate|].
        constructor; [cbn; split; [auto | split; discriminate]|].
        apply Forall_app. split.
        * clear - Haevs Hw. unfold within, percentages in Hw.
          rewrite Forall_map in Hw.
          rewrite Forall_forall in *. intros e He.
          specialize (Haevs e He). specialize (Hw e He).
          destruct e as [step p m| |]; cbn in Haevs; [|contradiction|contradiction].
          cbn in Hw. split; [exact Haevs|]. destruct Hw as [H1 H2]. split.
          -- apply Qle_trans with 75%Q; [discriminate | exact H1].
          -- apply Qle_trans with 95%Q; [exact H2 | discriminate].
        * constructor; [cbn; split; [auto | split; discriminate]|].
          constructor; [exact I | constructor]. }
  destruct Hmain as (perFile & rest & Heq & Hlen & Hcount & Hbounds & Hne & Hrest).
  exists perFile, rest.
  split; [exact Heq|]. split; [exact Hlen|]. split; [exact Hbounds|].
  split; [exact Hne|]. split; [exact Hrest|].
  rewrite Heq.
  change (ProgressEvent "initialization" 5%Q "Checking AI service connection..."
          :: ProgressEvent "processing" 10%Q "Starting document processing..."
          :: perFile ++ rest)%list
    with ([ProgressEvent "initialization" 5%Q "Checking AI service connection...";
           ProgressEvent "processing" 10%Q "Starting document processing..."]
          ++ perFile ++ rest)%list.
  rewrite !countStep_app, Hcount, (countStep_afterProcessing rest Hrest).
  change (countStep "processing"
            [ProgressEvent "initialization" 5%Q "Checking AI service connection...";
             ProgressEvent "processing" 10%Q "Starting document processing..."]) with 1.
  lia.
Qed.

Lemma analyzeStream_processing_phase_witness :
  countStep "processing" (analyzeStream middleFileMissing
                            [balanceFile; missingFile; statementFile]) = 7.
Proof.
  destruct (analyzeStream_processing_phase middleFileMissing
              [balanceFile; missingFile; statementFile] eq_refl)
    as (perFile & rest & _ & _ & _ & _ & _ & Hcount).
  exact Hcount.
Defined.

(** X7. A request that ends with a result event reports exactly the
    documents that were found on disk and processed without error, in upload
    order: the result event has percentage 100 and follows the 'Analysis
    complete!' event, there is at least one such document, and the
    identifiers, names and types of the document analyses and the document
    count of the metadata are those of the processed documents; files that
    were missing or failed to process do not appear. *)
Theorem result_event_lists_processed_documents :
  forall (env : ServerEnv) (files : list UploadedFile) (p : Q) (result : AnalysisResult),
    endsWith (analyzeStream env files) (ResultEvent p result) ->
    p = 100%Q /\
    (exists before,
        analyzeStream env files
        = (before ++ [ProgressEvent "complete" 100%Q "Analysis complete!";
                      ResultEvent 100%Q result])%list) /\
    successfullyProcessed env 0 files <> [] /\
    map documentId (documentAnalysis result)
    = map pd_id (successfullyProcessed env 0 files) /\
    map documentName (documentAnalysis result)
    = map pd_originalName (successfullyProcessed env 0 files) /\
    map documentType (documentAnalysis result)
    = map pd_type (successfullyProcessed env 0 files) /\
    metadata_totalDocuments result = List.length (successfullyProcessed env 0 files) /\
    metadata_totalDocuments result <= List.length files.
Proof.
  intros env files p result Hend.
  destruct (analyzeStream_result env files p result Hend)
    as (Hp & _ & Hne & sink & log' & sink' & Hrun & Hstream).
  destruct (analyzeDocuments_identity _ _ _ _ _ _ _ _ _ Hrun)
    as (Hid & Hname & Htype & Htotal).
  split; [exact Hp|]. split; [exists sink'; exact Hstream|]. split; [exact Hne|].
  split; [exact Hid|]. split; [exact Hname|]. split; [exact Htype|].
  split; [exact Htotal|]. rewrite Htotal.
  clear. generalize 0 as fileIndex.
  induction files as [|file rest IH]; intros fileIndex; [cbn; lia|].
  cbn [successfullyProcessed List.length].
  destruct (fs_pathExists env (S fileIndex) _);
    [destruct (processDocument env (S fileIndex) _ file)|];
    cbn [List.length]; specialize (IH (S fileIndex)); lia.
Qed.

Lemma result_event_lists_processed_documents_witness :
  exists result,
    endsWith (analyzeStream middleFileMissing [balanceFile; missingFile; statementFile])
      (ResultEvent 100%Q result) /\
    map documentId (documentAnalysis result) = ["file-2"; "file-1"].
Proof.
  destruct (last (analyzeStream middleFileMissing [balanceFile; missingFile; statementFile])
              (ErrorEvent 0%Q ""))
    as [step p m|p result|p m] eqn:Hlast;
    [vm_compute in Hlast; discriminate Hlast | | vm_compute in Hlast; discriminate Hlast].
  assert (Hend : endsWith (analyzeStream middleFileMissing
                             [balanceFile; missingFile; statementFile])
                   (ResultEvent p result)).
  { exists (removelast (analyzeStream middleFileMissing
                          [balanceFile; missingFile; statementFile])).
    rewrite <- Hlast. apply app_removelast_last. vm_compute. discriminate. }
  destruct (result_event_lists_processed_documents middleFileMissing
              [balanceFile; missingFile; statementFile] p result Hend)
    as (Hp & _ & _ & Hid & _).
  exists result. split; [rewrite <- Hp; exact Hend | exact Hid].
Defined.


(** ** The document processor ([processPDF], [processDocument]) *)

(** X8. Whatever the file system and the PDF library answer, at each probe
    anew, [handleEncryptedPDF] ends in one of two ways. Either it returns the
    path [<tempDir>/<documentId>_unencrypted.pdf]: then it has gone through an
    initial part of the password list, has handed to the library those
    passwords at whose probe the file could be read, the last of them opened
    the document as read at its probe, and the decrypted copy saved and
    written at that probe is the one thing it wrote. Or it throws
    'Could not decrypt PDF - password protected', whatever the underlying
    errors were (file not readable, document not opened, copy not writable):
    then nothing was written, and the passwords handed to the library are
    those of the whole list at whose probe the file could be read. *)
Theorem handleEncryptedPDF_outcomes :
  forall (PdfDoc : Type) (env : PdfEnv PdfDoc) (tempDir filePath documentId : string)
         (log : list PdfEvent),
  exists events,
    snd (handleEncryptedPDF env tempDir filePath documentId log) = (log ++ events)%list /\
    ((exists tried password later bytes,
         fst (handleEncryptedPDF env tempDir filePath documentId log)
         = Ok (unencryptedPath tempDir documentId) /\
         commonPasswords = (tried ++ password :: later)%list /\
         loads events = (handed env filePath 0 tried ++ [password])%list /\
         persisted env tempDir filePath documentId (List.length tried) password bytes /\
         writes events = [(unencryptedPath tempDir documentId, bytes)]) \/
     (fst (handleEncryptedPDF env tempDir filePath documentId log)
      = Throw "Could not decrypt PDF - password protected" /\
      writes events = [] /\
      loads events = handed env filePath 0 commonPasswords)).
Proof.
  intros PdfDoc env tempDir filePath documentId log. unfold handleEncryptedPDF.
  destruct (first_persisting env tempDir filePath documentId commonPasswords 0)
    as [Hnone | (tried & password & later & Hsplit & Hno & Hyes)].
  - rewrite (probePasswords_none env tempDir filePath documentId commonPasswords 0 log Hnone).
    eexists. split; [reflexivity|]. right. split; [reflexivity|].
    split; [apply writes_LoadWith | apply loads_LoadWith].
  - destruct (probePasswords_first env tempDir filePath documentId tried password later
                0 log Hno Hyes) as (bytes & Hcopy & Hrun).
    rewrite <- Hsplit in Hrun. rewrite Hrun.
    eexists. split; [reflexivity|]. left. exists tried, password, later, bytes.
    split; [reflexivity|]. split; [exact Hsplit|].
    split; [rewrite loads_app, loads_LoadWith; cbn; now rewrite app_nil_r|].
    split; [exact Hcopy|]. now rewrite writes_app, writes_LoadWith.
Qed.

(** X22. With a PDF library that answers without regard to the [password]
    option, as [pdf-lib] does, and a file system that answers at every probe
    as at the first, the first probe decides: either the copy is written at
    the first probe, with the empty password, or no probe leads to a copy and
    [handleEncryptedPDF] throws 'Could not decrypt PDF - password protected'.
    No password of the list opens what the empty password did not open. *)
Theorem blind_library_first_probe_decides :
  forall (PdfDoc : Type) (env : PdfEnv PdfDoc) (tempDir filePath documentId : string)
         (log : list PdfEvent),
    passwordBlind env ->
    steadyFiles env filePath ->
    (exists bytes,
        persisted env tempDir filePath documentId 0 "" bytes /\
        handleEncryptedPDF env tempDir filePath documentId log
        = (Ok (unencryptedPath tempDir documentId),
           (log ++ [LoadWith ""; Written (unencryptedPath tempDir documentId) bytes])%list)) \/
    ((forall probe password bytes,
         ~ persisted env tempDir filePath documentId probe password bytes) /\
     fst (handleEncryptedPDF env tempDir filePath documentId log)
     = Throw "Could not decrypt PDF - password protected" /\
     writes (snd (handleEncryptedPDF env tempDir filePath documentId log)) = writes log).
Proof.
  intros PdfDoc env tempDir filePath documentId log Hblind Hsteady.
  assert (Hsame : forall probe password,
             persists env tempDir filePath documentId probe password
             = persists env tempDir filePath documentId 0 "").
  { intros probe password. unfold persists.
    destruct (Hsteady probe) as [-> Hwrite].
    destruct (fs_readFile_at env 0 filePath) as [pdfBuffer|m]; [|reflexivity].
    rewrite (Hblind pdfBuffer password "").
    destruct (PDFDocument_load env pdfBuffer "") as [pdfDoc|m]; [|reflexivity].
    destruct (pdfDoc_save env pdfDoc) as [bytes|m]; [|reflexivity].
    now rewrite Hwrite. }
  unfold handleEncryptedPDF.
  destruct (persists env tempDir filePath documentId 0 "") eqn:Hfirst.
  - left.
    destruct (probePasswords_first env tempDir filePath documentId []
                "" ["password"; "123456"; "admin"; "user"] 0 log)
      as (bytes & Hcopy & Hrun).
    + intros [|i] q Hq; discriminate Hq.
    + exact Hfirst.
    + exists bytes. split; [exact Hcopy|].
      change ([] ++ "" :: ["password"; "123456"; "admin"; "user"])%list
        with commonPasswords in Hrun.
      now rewrite Hrun.
  - right.
    rewrite (probePasswords_none env tempDir filePath documentId commonPasswords 0 log)
      by (intros i q _; apply Hsame).
    split; [|split; [reflexivity|]].
    + intros probe password bytes Hcopy.
      assert (Hyes : persists env tempDir filePath documentId probe password = true)
        by (apply persists_spec; now exists bytes).
      rewrite Hsame in Hyes. discriminate Hyes.
    + cbn [snd]. now rewrite writes_app, writes_LoadWith, app_nil_r.
Qed.

Lemma blind_library_first_probe_decides_witness :
  fst (handleEncryptedPDF lockedPdf "/srv/temp" "/srv/uploads/7f3a-statement.pdf" "file-1" [])
  = Throw "Could not decrypt PDF - password protected".
Proof.
  destruct (blind_library_first_probe_decides string lockedPdf "/srv/temp"
              "/srv/uploads/7f3a-statement.pdf" "file-1" [])
    as [(bytes & (pdfBuffer & pdfDoc & _ & Hload & _) & _) | (_ & Hthrow & _)].
  - intros pdfBuffer password password'. reflexivity.
  - intros probe. split; [reflexivity | intros path bytes; reflexivity].
  - discriminate Hload.
  - exact Hthrow.
Defined.

(** [processPDF] returns page images or throws a wrapped error. *)
Lemma processPDF_result {PdfDoc : Type} (env : PdfEnv PdfDoc) (conv : ConverterEnv)
    (tempDir filePath documentId : string) (log : list PdfEvent) :
  exists events,
    snd (processPDF env conv tempDir filePath documentId log) = (log ++ events)%list /\
    ((exists imagePaths,
         fst (processPDF env conv tempDir filePath documentId log) = Ok imagePaths) \/
     (exists cause,
         fst (processPDF env conv tempDir filePath documentId log)
         = Throw ("Failed to process PDF: " ++ cause))).
Proof.
  unfold processPDF.
  destruct (fs_readFile env filePath) as [pdfBuffer|m].
  2:{ exists []. cbn [fst snd]. split; [now rewrite app_nil_r | right; now exists m]. }
  assert (Hpath : exists events,
             snd (processedPdfPath env conv tempDir filePath documentId pdfBuffer log)
             = (log ++ events)%list).
  { unfold processedPdfPath.
    destruct (PDFDocument_load_plain conv pdfBuffer) as [[]|message];
      [exists []; cbn; now rewrite app_nil_r|].
    destruct (str_includes message "encrypted" || str_includes message "password");
      [|exists []; cbn; now rewrite app_nil_r].
    destruct (handleEncryptedPDF_result env tempDir filePath documentId log)
      as (events & Hsnd & _).
    now exists events. }
  destruct Hpath as (events & Hsnd). exists events.
  destruct (processedPdfPath env conv tempDir filePath documentId pdfBuffer log)
    as [[pdfPath|m] log'].
  - cbn [snd] in Hsnd. subst log'.
    destruct (fs_ensureDir conv (path_join tempDir documentId)) as [[]|m1];
      [destruct (convert_bulk conv pdfPath (path_join tempDir documentId))
         as [imagePaths|m2]|];
      cbn [fst snd]; (split; [reflexivity|]).
    + left. now exists imagePaths.
    + right. now exists m2.
    + right. now exists m1.
  - cbn [snd] in Hsnd. subst log'. cbn [fst snd]. split; [reflexivity|].
    right. now exists m.
Qed.

(** X9. [processPDF] converts the uploaded file itself when the PDF library
    loads it, and the decrypted copy when the load failed with a message that
    mentions 'encrypted' or 'password' and one of the common passwords opened
    the document. Passwords are probed in that case only; a load error of any
    other kind is reported without probing. Every error is reported as
    'Failed to process PDF: ' followed by its cause. *)
Theorem processPDF_converts_what_it_opened :
  forall (PdfDoc : Type) (env : PdfEnv PdfDoc) (conv : ConverterEnv)
         (tempDir filePath documentId : string) (log : list PdfEvent),
  exists events,
    snd (processPDF env conv tempDir filePath documentId log) = (log ++ events)%list /\
    (events <> [] ->
     exists pdfBuffer message,
       fs_readFile env filePath = Ok pdfBuffer /\
       PDFDocument_load_plain conv pdfBuffer = Throw message /\
       (str_includes message "encrypted" || str_includes message "password") = true) /\
    ((exists imagePaths pdfPath,
         fst (processPDF env conv tempDir filePath documentId log) = Ok imagePaths /\
         convert_bulk conv pdfPath (path_join tempDir documentId) = Ok imagePaths /\
         ((pdfPath = filePath /\ events = [] /\
           exists pdfBuffer,
             fs_readFile env filePath = Ok pdfBuffer /\
             PDFDocument_load_plain conv pdfBuffer = Ok tt) \/
          (pdfPath = unencryptedPath tempDir documentId /\
           exists bytes, writes events = [(pdfPath, bytes)]))) \/
     (exists cause,
         fst (processPDF env conv tempDir filePath documentId log)
         = Throw ("Failed to process PDF: " ++ cause) /\
         (forall pdfBuffer message,
             fs_readFile env filePath = Ok pdfBuffer ->
             PDFDocument_load_plain conv pdfBuffer = Throw message ->
             (str_includes message "encrypted" || str_includes message "password") = false ->
             cause = message /\ events = []))).
Proof.
  intros PdfDoc env conv tempDir filePath documentId log.
  unfold processPDF, processedPdfPath.
  destruct (fs_readFile env filePath) as [pdfBuffer|m] eqn:Hread.
  2:{ exists []. cbn [fst snd]. split; [now rewrite app_nil_r|].
      split; [intros H; now destruct H|]. right. exists m. split; [reflexivity|].
      intros b msg H. discriminate H. }
  destruct (PDFDocument_load_plain conv pdfBuffer) as [[]|message] eqn:Hload.
  - exists []. rewrite app_nil_r.
    destruct (fs_ensureDir conv (path_join tempDir documentId)) as [[]|m1];
      [destruct (convert_bulk conv filePath (path_join tempDir documentId))
         as [imagePaths|m2] eqn:Hconv|];
      cbn [fst snd]; (split; [reflexivity|]); (split; [intros H; now destruct H|]).
    + left. exists imagePaths, filePath. split; [reflexivity|]. split; [exact Hconv|].
      left. split; [reflexivity|]. split; [reflexivity|]. now exists pdfBuffer.
    + right. exists m2. split; [reflexivity|].
      intros b msg [= <-] H. rewrite Hload in H. discriminate H.
    + right. exists m1. split; [reflexivity|].
      intros b msg [= <-] H. rewrite Hload in H. discriminate H.
  - destruct (str_includes message "encrypted" || str_includes message "password")
      eqn:Henc.
    + destruct (handleEncryptedPDF_result env tempDir filePath documentId log)
        as (events & Hsnd & Hcase).
      destruct (handleEncryptedPDF env tempDir filePath documentId log) as [r log'].
      cbn [fst snd] in Hsnd, Hcase. subst log'. exists events.
      assert (Hprobed : events <> [] ->
                exists b msg,
                  Ok pdfBuffer = Ok b /\ PDFDocument_load_plain conv b = Throw msg /\
                  (str_includes msg "encrypted" || str_includes msg "password") = true)
        by (intros _; now exists pdfBuffer, message).
      assert (Hother : forall b msg,
                 Ok pdfBuffer = Ok b -> PDFDocument_load_plain conv b = Throw msg ->
                 (str_includes msg "encrypted" || str_includes msg "password") = false ->
                 False).
      { intros b msg [= <-] Hmsg Hno. rewrite Hload in Hmsg. injection Hmsg as <-.
        rewrite Henc in Hno. discriminate Hno. }
      destruct Hcase as [(-> & bytes & Hw) | (-> & _)].
      * destruct (fs_ensureDir conv (path_join tempDir documentId)) as [[]|m1];
          [destruct (convert_bulk conv (unencryptedPath tempDir documentId)
                       (path_join tempDir documentId)) as [imagePaths|m2] eqn:Hconv|];
          cbn [fst snd]; (split; [reflexivity|]); (split; [exact Hprobed|]).
        -- left. exists imagePaths, (unencryptedPath tempDir documentId).
           split; [reflexivity|]. split; [exact Hconv|]. right.
           split; [reflexivity|]. now exists bytes.
        -- right. exists m2. split; [reflexivity|].
           intros b msg H1 H2 H3. destruct (Hother b msg H1 H2 H3).
        -- right. exists m1. split; [reflexivity|].
           intros b msg H1 H2 H3. destruct (Hother b msg H1 H2 H3).
      * cbn [fst snd]. split; [reflexivity|]. split; [exact Hprobed|].
        right. eexists. split; [reflexivity|].
        intros b msg H1 H2 H3. destruct (Hother b msg H1 H2 H3).
    + exists []. cbn [fst snd]. split; [now rewrite app_nil_r|].
      split; [intros H; now destruct H|]. right. exists message.
      split; [reflexivity|].
      intros b msg [= <-] Hmsg _. rewrite Hload in Hmsg. injection Hmsg as <-.
      now split.
Qed.

(** X10. [processDocument] either returns a document that carries the
    identifier, name, declared type, MIME type and size of the upload, or
    throws 'Failed to process <name>: ' followed by the cause. For a PDF the
    document holds the page images of [processPDF], their number as page
    count and no text, and an error reads 'Failed to process <name>: Failed to
    process PDF: ...'. Any other file is not opened: the document has no
    images and no page count, and its text is the descriptor
    'File: <base name>, Size: <n> bytes, Type: <mimetype>'. *)
Theorem processDocument_outcomes :
  forall (PdfDoc : Type) (env : PdfEnv PdfDoc) (conv : ConverterEnv)
         (tempDir filePath : string) (fileInfo : UploadedFile) (log : list PdfEvent),
  exists events,
    snd (DocumentProcessor_processDocument env conv tempDir filePath fileInfo log)
    = (log ++ events)%list /\
    ((exists doc,
         fst (DocumentProcessor_processDocument env conv tempDir filePath fileInfo log)
         = Ok doc /\
         pd_id doc = uf_id fileInfo /\
         pd_originalName doc = uf_originalName fileInfo /\
         pd_type doc = uf_type fileInfo /\
         pd_mimetype doc = uf_mimetype fileInfo /\
         pd_size doc = uf_size fileInfo /\
         (uf_mimetype fileInfo = "application/pdf" ->
          text doc = "" /\
          metadata_pageCount doc = Some (List.length (images doc)) /\
          fst (processPDF env conv tempDir filePath (uf_id fileInfo) log)
          = Ok (images doc)) /\
         (uf_mimetype fileInfo <> "application/pdf" ->
          images doc = [] /\
          metadata_pageCount doc = None /\
          events = [] /\
          exists size,
            fs_stat_size conv filePath = Ok size /\
            text doc = "File: " ++ basename filePath ++ ", Size: " ++ show size
                       ++ " bytes, Type: " ++ uf_mimetype fileInfo)) \/
     (exists cause,
         fst (DocumentProcessor_processDocument env conv tempDir filePath fileInfo log)
         = Throw ("Failed to process " ++ uf_originalName fileInfo ++ ": " ++ cause) /\
         (uf_mimetype fileInfo = "application/pdf" ->
          exists inner, cause = "Failed to process PDF: " ++ inner) /\
         (uf_mimetype fileInfo <> "application/pdf" ->
          fs_stat_size conv filePath = Throw cause /\ events = []))).
Proof.
  intros PdfDoc env conv tempDir filePath fileInfo log.
  unfold DocumentProcessor_processDocument.
  destruct (String.eqb_spec (uf_mimetype fileInfo) "application/pdf") as [Hpdf | Hother].
  - destruct (processPDF_result env conv tempDir filePath (uf_id fileInfo) log)
      as (events & Hsnd & Hcase).
    destruct (processPDF env conv tempDir filePath (uf_id fileInfo) log) as [r log'].
    cbn [fst snd] in Hsnd, Hcase. subst log'. exists events.
    destruct Hcase as [(imagePaths & ->) | (cause & ->)];
      cbn [fst snd]; (split; [reflexivity|]).
    + left. eexists. split; [reflexivity|].
      cbn [pd_id pd_originalName pd_type pd_mimetype pd_size images text
           metadata_pageCount].
      repeat (split; [reflexivity|]).
      split; [intros _; now repeat split | intros H; contradiction].
    + right. exists ("Failed to process PDF: " ++ cause). split; [reflexivity|].
      split; [intros _; now exists cause | intros H; contradiction].
  - exists []. unfold extractTextFromFile.
    destruct (fs_stat_size conv filePath) as [size|m] eqn:Hstat; cbn [bind fst snd];
      (split; [now rewrite app_nil_r|]).
    + left. eexists. split; [reflexivity|].
      cbn [pd_id pd_originalName pd_type pd_mimetype pd_size images text
           metadata_pageCount].
      repeat (split; [reflexivity|]).
      split; [intros H; contradiction|]. intros _.
      repeat (split; [reflexivity|]). now exists size.
    + right. exists m. split; [reflexivity|].
      split; [intros H; contradiction | intros _; now split].
Qed.

Lemma combinePageAnalyses_not_default (pages : list PageAnalysisResult) :
  combinePageAnalyses pages <> "No content extracted".
Proof.
  unfold combinePageAnalyses.
  destruct (filter (fun a => negb (truthy_str (error a))) pages) as [|r valid];
    cbn [List.length Nat.eqb]; [discriminate|].
  cbn [map join]. destruct (map pageLabel valid); unfold pageLabel; discriminate.
Qed.

(** X11. What the analysis makes of a document that [processDocument]
    returned. A document that is not a PDF is never sent to the model: no
    inference call is made and its narrative is the file descriptor. The
    narrative is 'No content extracted' exactly for a PDF that was converted
    to no page image at all; such a document is analysed as text and loses its
    page count, while every other document keeps the page count of the
    processor. *)
Theorem processed_document_analysis :
  forall (PdfDoc : Type) (env : PdfEnv PdfDoc) (conv : ConverterEnv)
         (tempDir filePath : string) (fileInfo : UploadedFile) (log log' : list PdfEvent)
         (doc : ProcessedDocument) (backend : OllamaEnv) (calls : list Event),
    DocumentProcessor_processDocument env conv tempDir filePath fileInfo log
    = (Ok doc, log') ->
    exists findings calls',
      analyzeDocument backend doc calls = (Ok findings, calls') /\
      (f_extractedInfo findings = "No content extracted" <->
       uf_mimetype fileInfo = "application/pdf" /\ images doc = []) /\
      (uf_mimetype fileInfo <> "application/pdf" ->
       calls' = calls /\
       f_textAnalysis findings = true /\
       exists size,
         fs_stat_size conv filePath = Ok size /\
         f_extractedInfo findings
         = "File: " ++ basename filePath ++ ", Size: " ++ show size
           ++ " bytes, Type: " ++ uf_mimetype fileInfo) /\
      (images doc = [] -> calls' = calls /\ f_pageCount findings = None) /\
      (images doc <> [] ->
       uf_mimetype fileInfo = "application/pdf" /\
       f_pageCount findings = metadata_pageCount doc /\
       f_textAnalysis findings = false).
Proof.
  intros PdfDoc env conv tempDir filePath fileInfo log log' doc backend calls.
  unfold DocumentProcessor_processDocument, analyzeDocument.
  destruct (String.eqb_spec (uf_mimetype fileInfo) "application/pdf") as [Hmime | Hmime].
  - destruct (processPDF env conv tempDir filePath (uf_id fileInfo) log)
      as [[imagePaths|m] log2]; [|discriminate].
    intros [= <- _]. cbn [images text pd_type metadata_pageCount].
    destruct imagePaths as [|image others].
    + cbn [List.length Nat.ltb Nat.leb]. eexists _, _. split; [reflexivity|].
      cbn [f_extractedInfo f_textAnalysis f_pageCount String.eqb].
      split; [split; [intros _; now split | reflexivity]|].
      split; [intros H; contradiction|].
      split; [intros _; now split | intros H; now destruct H].
    + change (0 <? List.length (image :: others))%nat with true. cbv iota.
      destruct (analyzeMultipleImages backend (image :: others)
                  (getDocumentPrompt (uf_type fileInfo)) calls) as [pages calls'].
      eexists _, _. split; [reflexivity|].
      cbn [f_extractedInfo f_textAnalysis f_pageCount].
      split; [split; [intros H; now apply combinePageAnalyses_not_default in H
                     | intros [_ H]; discriminate H]|].
      split; [intros H; contradiction|].
      split; [intros H; discriminate H|]. intros _.
      split; [exact Hmime|]. now split.
  - unfold extractTextFromFile.
    destruct (fs_stat_size conv filePath) as [size|m] eqn:Hstat; cbn [bind];
      [|discriminate].
    intros [= <- _]. cbn [images text pd_type metadata_pageCount].
    cbn [List.length Nat.ltb Nat.leb]. eexists _, _.
    split; [reflexivity|]. cbn [f_extractedInfo f_textAnalysis f_pageCount].
    cbn [String.eqb append Ascii.eqb Bool.eqb].
    split; [split; [intros H; discriminate H | intros [H _]; contradiction]|].
    split; [intros _; split; [reflexivity|]; split; [reflexivity|]; now exists size|].
    split; [intros _; now split | intros H; now destruct H].
Qed.

Lemma processed_document_analysis_witness :
  exists findings,
    analyzeDocument proseEnv
      {| pd_id := "file-4"; pd_originalName := "ledger.csv"; pd_type := "other";
         pd_mimetype := "text/csv"; pd_size := 2048; images := [];
         text := "File: 5d21-ledger.csv, Size: 2048 bytes, Type: text/csv";
         metadata_pageCount := None |} []
    = (Ok findings, []) /\
    f_extractedInfo findings = "File: 5d21-ledger.csv, Size: 2048 bytes, Type: text/csv".
Proof.
  destruct (processed_document_analysis string lockedPdf (twoPageConverter (Ok tt))
              "/srv/temp" "/srv/uploads/5d21-ledger.csv" spreadsheetFile [] []
              {| pd_id := "file-4"; pd_originalName := "ledger.csv"; pd_type := "other";
                 pd_mimetype := "text/csv"; pd_size := 2048; images := [];
                 text := "File: 5d21-ledger.csv, Size: 2048 bytes, Type: text/csv";
                 metadata_pageCount := None |}
              proseEnv [] eq_refl)
    as (findings & calls' & Hrun & _ & Hother & _).
  destruct Hother as (Hcalls & _ & size & Hsize & Hinfo); [discriminate|].
  exists findings. split; [rewrite Hrun, Hcalls; reflexivity|].
  injection Hsize as <-. exact Hinfo.
Defined.

(** An encrypted PDF that no common password opens, and a file that is
    replaced by a plain one while the passwords are probed. *)
Example locked_pdf_is_reported :
  DocumentProcessor_processDocument lockedPdf
    (twoPageConverter (Throw "Input document to PDFDocument.load is encrypted"))
    "/srv/temp" "/srv/uploads/7f3a-statement.pdf" statementFile []
  = (Throw "Failed to process statement.pdf: Failed to process PDF: Could not decrypt PDF - password protected",
     map LoadWith commonPasswords).
Proof. reflexivity. Qed.

Example replaced_pdf_is_converted_from_its_copy :
  processPDF replacedPdf
    {| PDFDocument_load_plain := fun _ => Throw "Input document to PDFDocument.load is encrypted";
       fs_ensureDir := fun _ => Ok tt;
       convert_bulk := fun pdfPath outputDir => Ok [pdfPath ++ " -> " ++ outputDir ++ "/page.1.png"];
       fs_stat_size := fun _ => Ok 2048 |}
    "/srv/temp" "/srv/uploads/7f3a-statement.pdf" "file-1" []
  = (Ok ["/srv/temp/file-1_unencrypted.pdf -> /srv/temp/file-1/page.1.png"],
     [LoadWith ""; LoadWith "password"; LoadWith "123456";
      Written "/srv/temp/file-1_unencrypted.pdf" "plain-bytes"]).
Proof. reflexivity. Qed.


(** ** Model management ([isModelAvailable], [pullModel]) *)

Lemma someModel_names (entries : list JValue) (names : list string) :
  Forall2 (fun entry name => get_prop entry "name" = Ok (JStr name)) entries names ->
  someModel entries = Ok (existsb (fun name => str_includes name "qwen2.5vl") names).
Proof.
  induction 1 as [|entry name entries names Hname _ IH]; [reflexivity|].
  cbn [someModel existsb]. unfold matchesModel. rewrite Hname. cbn [bind].
  destruct (String.eqb_spec name model) as [-> | Hother].
  - reflexivity.
  - cbn [name_includes bind].
    destruct (str_includes name "qwen2.5vl"); [reflexivity | exact IH].
Qed.

(** The values that [isModelAvailable] returns, and the requests it
    makes. *)
Lemma isModelAvailable_cases (env : RegistryEnv) (log : list Request) :
  (fst (OllamaService_checkConnection env log) = Ok true /\
   snd (isModelAvailable env log) = (log ++ [GetVersion; GetTags])%list /\
   (fst (isModelAvailable env log) = JBool true \/
    fst (isModelAvailable env log) = JBool false \/
    fst (isModelAvailable env log) = JUndefined)) \/
  ((exists m, fst (OllamaService_checkConnection env log) = Throw m) /\
   isModelAvailable env log = (JBool false, (log ++ [GetVersion])%list)).
Proof.
  unfold isModelAvailable.
  assert (Hc : (fst (OllamaService_checkConnection env log) = Ok true \/
                exists m, fst (OllamaService_checkConnection env log) = Throw m) /\
               snd (OllamaService_checkConnection env log) = (log ++ [GetVersion])%list).
  { unfold OllamaService_checkConnection. cbn [fst snd]. split; [|reflexivity].
    destruct (get_version env log) as [m|[] status statusText [data|m]];
      cbn [negb try_catch bind]; try (right; eexists; reflexivity).
    destruct (get_prop data "version") as [version|m]; cbn [bind try_catch];
      [|right; eexists; reflexivity].
    destruct (if truthy version then template env version else Ok "unknown");
      cbn [bind try_catch]; [left; reflexivity | right; eexists; reflexivity]. }
  destruct Hc as [Hfst Hsnd].
  destruct (OllamaService_checkConnection env log) as [r log1].
  cbn [fst snd] in Hfst, Hsnd. subst log1.
  destruct Hfst as [-> | [m ->]].
  - left. split; [reflexivity|]. cbn [fst snd]. rewrite <- app_assoc.
    split; [reflexivity|].
    destruct (get_tags env (log ++ [GetVersion])%list) as [m|[] status statusText [data|m]];
      cbn [negb bind]; auto.
    unfold modelExists.
    destruct (get_prop data "models") as [[| | | | |entries|]|m]; cbn [bind]; auto.
    destruct (someModel entries) as [[]|m]; cbn [bind]; auto.
  - right. split; [now exists m | reflexivity].
Qed.

(** X12. When the backend is reachable and its tags reply lists models by
    name, [isModelAvailable] answers whether some listed name contains
    'qwen2.5vl': any variant or tag of the model counts as the model
    'qwen2.5vl:7b' that the requests name. It makes one version request and
    one tags request. *)
Theorem isModelAvailable_accepts_any_variant :
  forall (env : RegistryEnv) (log : list Request) (status : nat) (statusText : string)
         (data : JValue) (names : list string),
    fst (OllamaService_checkConnection env log) = Ok true ->
    get_tags env (log ++ [GetVersion])%list = Response true status statusText (Ok data) ->
    listsNames data names ->
    isModelAvailable env log
    = (JBool (existsb (fun name => str_includes name "qwen2.5vl") names),
       (log ++ [GetVersion; GetTags])%list).
Proof.
  intros env log status statusText data names Hconn Htags (entries & Hmodels & Hnames).
  unfold isModelAvailable.
  assert (Hsnd : snd (OllamaService_checkConnection env log) = (log ++ [GetVersion])%list)
    by reflexivity.
  destruct (OllamaService_checkConnection env log) as [r log1].
  cbn [fst snd] in Hconn, Hsnd. subst r log1.
  rewrite Htags. cbn [negb bind]. unfold modelExists. rewrite Hmodels. cbn [bind].
  rewrite (someModel_names entries names Hnames). cbn [bind].
  now rewrite <- app_assoc.
Qed.

Lemma isModelAvailable_accepts_any_variant_witness :
  isModelAvailable variantRegistry [] = (JBool true, [GetVersion; GetTags]).
Proof.
  apply (isModelAvailable_accepts_any_variant variantRegistry [] 200 "OK"
           (JObj [("models", JArr [JObj [("name", JStr "llama3:8b")];
                                   JObj [("name", JStr "qwen2.5vl:3b")]])])
           ["llama3:8b"; "qwen2.5vl:3b"]).
  - reflexivity.
  - reflexivity.
  - eexists. split; [reflexivity|]. repeat constructor.
Defined.

(** X13. [pullModel] never succeeds. It sends the pull request and nothing
    else, and throws 'Failed to pull model qwen2.5vl:7b: ' followed by the
    cause: the error of the request when it was rejected, 'Failed to pull
    model: <status> <statusText>' when the backend refused it, and, when the
    backend accepted it, the [TypeError] of [response.body.getReader()], which
    the response of [node-fetch] does not have. The reply of an accepted pull
    is not read, and the availability of the model is not checked. *)
Theorem pullModel_outcomes :
  forall (env : RegistryEnv) (log : list Request),
    snd (pullModel env log) = (log ++ [PostPull])%list /\
    (exists cause,
        fst (pullModel env log) = Throw ("Failed to pull model qwen2.5vl:7b: " ++ cause) /\
        ((exists message, post_pull env log = PullRejected message /\ cause = message) \/
         (exists status statusText hasBody,
             post_pull env log = PullResponse false status statusText hasBody /\
             cause = "Failed to pull model: " ++ show status ++ " " ++ statusText) \/
         (exists status statusText,
             post_pull env log = PullResponse true status statusText true /\
             cause = "response.body.getReader is not a function") \/
         (exists status statusText,
             post_pull env log = PullResponse true status statusText false /\
             cause = "Cannot read properties of null (reading 'getReader')"))).
Proof.
  intros env log. unfold pullModel.
  destruct (post_pull env log) as [m|[] status statusText []]; cbn [negb fst snd];
    (split; [reflexivity|]); eexists; (split; [reflexivity|]).
  - left. now exists m.
  - right. right. left. now exists status, statusText.
  - right. right. right. now exists status, statusText.
  - right. left. now exists status, statusText, true.
  - right. left. now exists status, statusText, false.
Qed.

Example accepted_pull_fails :
  pullModel variantRegistry []
  = (Throw "Failed to pull model qwen2.5vl:7b: response.body.getReader is not a function",
     [PostPull]).
Proof. reflexivity. Qed.


(** ** Fenced replies ([generateCreditAnalysis]) *)

Lemma prefix_append (p s : string) : String.prefix p (p ++ s) = true.
Proof.
  induction p as [|c p IH]; [now destruct s|]. cbn [append String.prefix].
  destruct (ascii_dec c c) as [_|H]; [exact IH | now destruct H].
Qed.

Lemma drop_append (p s : string) : drop (String.length p) (p ++ s) = s.
Proof.
  induction p as [|c p IH]; [now destruct s|]. exact IH.
Qed.

Lemma replace_fence_ws_opening (fence rest : string) :
  replace_fence_ws fence (fence ++ rest) = trimStart rest.
Proof.
  assert (H : replace_fence_ws fence (fence ++ rest)
              = if String.prefix fence (fence ++ rest)
                then trimStart (drop (String.length fence) (fence ++ rest))
                else fence ++ rest).
  { destruct (fence ++ rest) eqn:E; cbn [replace_fence_ws];
      rewrite <- E, prefix_append; reflexivity. }
  now rewrite H, prefix_append, drop_append.
Qed.

Lemma trimStart_head (s : string) :
  trimStart s = match ws_head s with Some rest => trimStart rest | None => s end.
Proof.
  destruct s as [|c1 rest1]; [reflexivity|]. cbn [ws_head].
  replace (trimStart (String c1 rest1))
    with (if is_ws c1 then trimStart rest1
          else match rest1 with
               | String c2 rest2 =>
                   if is_ws2 c1 c2 then trimStart rest2
                   else match rest2 with
                        | String c3 rest3 =>
                            if is_ws3 c1 c2 c3 then trimStart rest3 else String c1 rest1
                        | EmptyString => String c1 rest1
                        end
               | EmptyString => String c1 rest1
               end) by reflexivity.
  destruct (is_ws c1); [reflexivity|]. destruct rest1 as [|c2 rest2]; [reflexivity|].
  destruct (is_ws2 c1 c2); [reflexivity|]. destruct rest2 as [|c3 rest3]; [reflexivity|].
  destruct (is_ws3 c1 c2 c3); reflexivity.
Qed.

Lemma all_ws_head (s : string) :
  all_ws s = match s with
             | EmptyString => true
             | _ => match ws_head s with Some rest => all_ws rest | None => false end
             end.
Proof.
  destruct s as [|c1 rest1]; [reflexivity|]. cbn [ws_head].
  replace (all_ws (String c1 rest1))
    with (if is_ws c1 then all_ws rest1
          else match rest1 with
               | String c2 rest2 =>
                   if is_ws2 c1 c2 then all_ws rest2
                   else match rest2 with
                        | String c3 rest3 => is_ws3 c1 c2 c3 && all_ws rest3
                        | EmptyString => false
                        end
               | EmptyString => false
               end) by reflexivity.
  destruct (is_ws c1); [reflexivity|]. destruct rest1 as [|c2 rest2]; [reflexivity|].
  destruct (is_ws2 c1 c2); [reflexivity|]. destruct rest2 as [|c3 rest3]; [reflexivity|].
  destruct (is_ws3 c1 c2 c3); reflexivity.
Qed.

Lemma ws_head_shorter (s rest : string) :
  ws_head s = Some rest -> String.length rest < String.length s.
Proof.
  destruct s as [|c1 [|c2 [|c3 r]]]; cbn [ws_head String.length];
    repeat match goal with
           | |- context [if ?b then _ else _] => destruct b
           end; intros H; inversion H; subst; cbn [String.length]; lia.
Qed.

Lemma ws_head_append (s rest tail : string) :
  ws_head s = Some rest -> ws_head (s ++ tail) = Some (rest ++ tail).
Proof.
  destruct s as [|c1 [|c2 [|c3 r]]]; cbn [ws_head append];
    repeat match goal with
           | |- context [if ?b then _ else _] => destruct b
           end; intros H; inversion H; subst; reflexivity.
Qed.

Ltac case_comparisons :=
  repeat match goal with
         | |- context [N.eqb ?x ?y] => destruct (N.eqb x y)
         | |- context [N.leb ?x ?y] => destruct (N.leb x y)
         end.

Lemma is_ws2_backtick (c : ascii) : is_ws2 c "`" = false.
Proof. unfold is_ws2. cbn. apply andb_false_r. Qed.

Lemma is_ws3_backtick (c1 c2 : ascii) : is_ws3 c1 c2 "`" = false.
Proof.
  unfold is_ws3. generalize (N_of_ascii c1) (N_of_ascii c2). intros a b.
  cbn. case_comparisons; reflexivity.
Qed.

Lemma is_ws3_backtick_mid (c1 c3 : ascii) : is_ws3 c1 "`" c3 = false.
Proof.
  unfold is_ws3. generalize (N_of_ascii c1) (N_of_ascii c3). intros a c.
  cbn. case_comparisons; reflexivity.
Qed.

(** White space does not reach into a fence. *)
Lemma ws_head_fence (body tail : string) :
  ws_head body = None -> ws_head (body ++ String "`" tail) = None.
Proof.
  destruct body as [|c1 [|c2 [|c3 r]]]; cbn [ws_head append].
  - intros _. destruct tail as [|c2 [|c3 r]]; reflexivity.
  - destruct (is_ws c1); [discriminate|]. intros _. rewrite is_ws2_backtick.
    destruct tail as [|c3 r]; [reflexivity|]. now rewrite is_ws3_backtick_mid.
  - destruct (is_ws c1); [discriminate|]. destruct (is_ws2 c1 c2); [discriminate|].
    intros _. now rewrite is_ws3_backtick.
  - destruct (is_ws c1); [discriminate|]. destruct (is_ws2 c1 c2); [discriminate|].
    destruct (is_ws3 c1 c2 c3); [discriminate | reflexivity].
Qed.

Lemma ws_head_suffix (s rest : string) :
  ws_head s = Some rest -> noBacktick s = true -> noBacktick rest = true.
Proof.
  destruct s as [|c1 [|c2 [|c3 r]]]; cbn [ws_head noBacktick];
    repeat match goal with
           | |- context [if ?b then _ else _] => destruct b
           end; intros H Hno; inversion H; subst;
    repeat match goal with
           | H : _ && _ = true |- _ => apply andb_prop in H; destruct H
           end; cbn [noBacktick]; auto using andb_true_intro.
Qed.

Lemma string_length_ind (P : string -> Prop) :
  (forall s, (forall t, String.length t < String.length s -> P t) -> P s) ->
  forall s, P s.
Proof.
  intros step s. remember (String.length s) as n eqn:Hn.
  revert s Hn. induction n as [n IH] using lt_wf_ind. intros s ->.
  apply step. intros t Ht. exact (IH _ Ht t eq_refl).
Qed.

Lemma trimStart_ws (ws rest : string) :
  all_ws ws = true -> trimStart (ws ++ rest) = trimStart rest.
Proof.
  induction ws as [ws IH] using string_length_ind. intros Hws.
  rewrite all_ws_head in Hws. destruct ws as [|c ws1]; [reflexivity|].
  destruct (ws_head (String c ws1)) as [ws2|] eqn:Hhead; [|discriminate].
  rewrite trimStart_head, (ws_head_append _ _ rest Hhead).
  apply IH; [exact (ws_head_shorter _ _ Hhead) | exact Hws].
Qed.

Lemma trimStart_before_fence (body rest : string) :
  trimStart (body ++ "```" ++ rest) = trimStart body ++ "```" ++ rest.
Proof.
  induction body as [body IH] using string_length_ind.
  rewrite (trimStart_head body), trimStart_head.
  destruct (ws_head body) as [body1|] eqn:Hhead.
  - rewrite (ws_head_append _ _ _ Hhead). apply IH, (ws_head_shorter _ _ Hhead).
  - change ("```" ++ rest) with (String "`" ("``" ++ rest)).
    now rewrite (ws_head_fence body _ Hhead).
Qed.

Lemma noBacktick_trimStart (body : string) :
  noBacktick body = true -> noBacktick (trimStart body) = true.
Proof.
  induction body as [body IH] using string_length_ind. intros Hbody.
  rewrite trimStart_head. destruct (ws_head body) as [body1|] eqn:Hhead; [|exact Hbody].
  apply IH; [exact (ws_head_shorter _ _ Hhead) | exact (ws_head_suffix _ _ Hhead Hbody)].
Qed.

(** The first byte of white space is not a letter of the tag. *)
Lemma all_ws_not_tag (c : ascii) (ws : string) :
  all_ws (String c ws) = true -> c <> "j"%char.
Proof.
  intros H ->. destruct ws as [|c2 [|c3 r]]; cbn in H; discriminate.
Qed.

Lemma replace_fence_end_closing (body ws : string) :
  noBacktick body = true -> all_ws ws = true ->
  replace_fence_end (body ++ "```" ++ ws) = body.
Proof.
  intros Hbody Hws. induction body as [|c body IH].
  - cbn. replace (String.prefix "" ws) with true by (now destruct ws).
    now rewrite Hws.
  - cbn [noBacktick] in Hbody. apply andb_prop in Hbody. destruct Hbody as [Hc Hbody].
    change ((String c body ++ "```" ++ ws)) with (String c (body ++ "```" ++ ws)).
    cbn [replace_fence_end String.prefix].
    destruct (ascii_dec "`" c) as [<- | _]; [discriminate Hc|].
    cbn [andb]. now rewrite IH.
Qed.

Lemma replace_fence_end_open (body : string) :
  noBacktick body = true -> replace_fence_end body = body.
Proof.
  induction body as [|c body IH]; [reflexivity|]. cbn [noBacktick]. intros H.
  apply andb_prop in H. destruct H as [Hc Hbody].
  cbn [replace_fence_end String.prefix].
  destruct (ascii_dec "`" c) as [<- | _]; [discriminate Hc|].
  cbn [andb]. now rewrite IH.
Qed.

Lemma startsWith_fence_noBacktick (fence body : string) :
  noBacktick body = true -> startsWith body (String "`" fence) = false.
Proof.
  unfold startsWith. destruct body as [|c body]; [reflexivity|].
  cbn [noBacktick String.prefix]. intros H. apply andb_prop in H.
  destruct H as [Hc _]. destruct (ascii_dec "`" c) as [<- | _]; [discriminate Hc | reflexivity].
Qed.

(** X15. [stripFences] unwraps a reply inside a Markdown code fence: the
    opening fence, with or without the 'json' tag, the white space after it
    and the closing fence with the white space after it are removed, and what
    remains is the fenced text from its first character that is not white
    space. A fence that is never closed is removed as well, and a reply
    without backticks is left as it is. White space is what [\s] matches:
    the ASCII blanks and line ends as well as U+00A0, U+FEFF, the line and
    paragraph separators and the other Unicode space characters. *)
Theorem stripFences_unwraps_fenced_reply :
  forall (ws body ws' : string),
    all_ws ws = true -> all_ws ws' = true -> noBacktick body = true ->
    stripFences ("```json" ++ ws ++ body ++ "```" ++ ws') = trimStart body /\
    stripFences ("```json" ++ ws ++ body) = trimStart body /\
    (ws <> "" -> stripFences ("```" ++ ws ++ body ++ "```" ++ ws') = trimStart body) /\
    stripFences (trimStart body) = trimStart body.
Proof.
  intros ws body ws' Hws Hws' Hbody.
  pose proof (noBacktick_trimStart body Hbody) as Htrim.
  assert (Hplain : forall s, noBacktick s = true -> stripFences s = s).
  { intros s Hs. unfold stripFences.
    rewrite (startsWith_fence_noBacktick "``json" s Hs).
    now rewrite (startsWith_fence_noBacktick "``" s Hs). }
  assert (Hopen : forall fence rest, startsWith (fence ++ rest) fence = true)
    by (intros fence rest; apply prefix_append).
  split; [|split; [|split]].
  - unfold stripFences.
    rewrite (Hopen "```json" (ws ++ body ++ "```" ++ ws')), replace_fence_ws_opening.
    rewrite (trimStart_ws ws _ Hws), trimStart_before_fence.
    rewrite (replace_fence_end_closing _ ws' Htrim Hws').
    now rewrite (startsWith_fence_noBacktick "``" _ Htrim).
  - unfold stripFences.
    rewrite (Hopen "```json" (ws ++ body)), replace_fence_ws_opening.
    rewrite (trimStart_ws ws _ Hws), (replace_fence_end_open _ Htrim).
    now rewrite (startsWith_fence_noBacktick "``" _ Htrim).
  - intros Hne. destruct ws as [|c ws1]; [contradiction|].
    pose proof (all_ws_not_tag c ws1 Hws) as Hc.
    unfold stripFences.
    assert (Hnot : startsWith ("```" ++ String c ws1 ++ body ++ "```" ++ ws') "```json"
                   = false).
    { unfold startsWith. cbn [append String.prefix].
      destruct (ascii_dec "`" "`") as [_|H]; [|now destruct H].
      destruct (ascii_dec "j" c) as [<- | _]; [now destruct Hc | reflexivity]. }
    rewrite Hnot.
    rewrite (Hopen "```" (String c ws1 ++ body ++ "```" ++ ws')), replace_fence_ws_opening.
    rewrite (trimStart_ws (String c ws1) _ Hws), trimStart_before_fence.
    apply (replace_fence_end_closing _ ws' Htrim Hws').
  - apply Hplain, Htrim.
Qed.

Lemma stripFences_unwraps_fenced_reply_witness :
  stripFences ("```json" ++ nl ++ nbsp ++ "{}" ++ nl ++ "```" ++ nbsp) = "{}" ++ nl.
Proof.
  destruct (stripFences_unwraps_fenced_reply nl (nbsp ++ "{}" ++ nl) nbsp
              eq_refl eq_refl eq_refl) as [H _].
  exact H.
Defined.

(** A no-break space in front of the fenced text, and an ideographic space
    (U+3000, bytes E3 80 80) after the closing fence. *)
Example fenced_reply_with_unicode_space :
  stripFences ("```" ++ nl ++ nbsp ++ "{}" ++ "```"
               ++ String (ascii_of_nat 227) (String (ascii_of_nat 128)
                    (String (ascii_of_nat 128) EmptyString)))
  = "{}" /\
  trim (nbsp ++ "{}" ++ nbsp ++ nl) = "{}".
Proof. split; reflexivity. Qed.


(** ** The fallback report, continued ([generateFallbackAnalysis]) *)

Lemma Q_round_le (x y : Q) : (x <= y)%Q -> (Q_round x <= Q_round y)%Z.
Proof.
  intros H. unfold Q_round. apply Qfloor_resp_le.
  apply Qplus_le_compat; [exact H | apply Qle_refl].
Qed.

Lemma breakdown_field (extractedData : list DocumentAnalysis) (x : Q) :
  fallbackScore extractedData = Fin x ->
  breakdown (generateFallbackAnalysis extractedData) "financialHealth"
  = Ok (JNum (Fin (inject_Z (Q_round (x * (9 # 10)))))) /\
  breakdown (generateFallbackAnalysis extractedData) "cashFlow"
  = Ok (JNum (Fin (inject_Z (Q_round (x * (8 # 10)))))) /\
  breakdown (generateFallbackAnalysis extractedData) "debtRatio"
  = Ok (JNum (Fin (inject_Z (Q_round (x * (85 # 100)))))) /\
  breakdown (generateFallbackAnalysis extractedData) "profitability"
  = Ok (JNum (Fin (inject_Z (Q_round (x * (75 # 100)))))).
Proof.
  intros Hscore. unfold breakdown, generateFallbackAnalysis.
  cbn [get_prop lookup String.eqb Ascii.eqb Bool.eqb bind]. rewrite Hscore.
  now repeat split.
Qed.

(** X16. The breakdown of the fallback report for a non-empty list: its
    four entries are integers derived from the score, ordered as their
    factors 0.75, 0.8, 0.85 and 0.9 are (profitability, cash flow, debt ratio,
    financial health), none exceeds the score of the report, and all of them
    lie between 38 and 81. *)
Theorem fallback_breakdown_ordered :
  forall extractedData : list DocumentAnalysis,
    extractedData <> [] ->
    exists score financialHealth debtRatio cashFlow profitability : Z,
      get_prop (generateFallbackAnalysis extractedData) "score"
      = Ok (JNum (Fin (inject_Z score))) /\
      breakdown (generateFallbackAnalysis extractedData) "financialHealth"
      = Ok (JNum (Fin (inject_Z financialHealth))) /\
      breakdown (generateFallbackAnalysis extractedData) "debtRatio"
      = Ok (JNum (Fin (inject_Z debtRatio))) /\
      breakdown (generateFallbackAnalysis extractedData) "cashFlow"
      = Ok (JNum (Fin (inject_Z cashFlow))) /\
      breakdown (generateFallbackAnalysis extractedData) "profitability"
      = Ok (JNum (Fin (inject_Z profitability))) /\
      (38 <= profitability <= cashFlow)%Z /\
      (cashFlow <= debtRatio <= financialHealth)%Z /\
      (financialHealth <= score)%Z /\
      (financialHealth <= 81)%Z.
Proof.
  intros extractedData Hne.
  destruct (fallbackScore_nonempty extractedData Hne) as [_ Hscore].
  destruct (rawScore_bounds extractedData Hne) as [Hlo Hhi].
  destruct (breakdown_field extractedData _ Hscore) as (Hfh & Hcf & Hdr & Hpr).
  set (x := rawScore extractedData) in *.
  assert (Hpos : (0 < x)%Q) by (eapply Qlt_le_trans; [|exact Hlo]; reflexivity).
  assert (Hmono : forall a b : Q, (a <= b)%Q -> (Q_round (x * a) <= Q_round (x * b))%Z).
  { intros a b Hab. apply Q_round_le. now apply Qmult_le_l. }
  exists (Q_round x), (Q_round (x * (9 # 10))), (Q_round (x * (85 # 100))),
         (Q_round (x * (8 # 10))), (Q_round (x * (75 # 100))).
  split; [rewrite score_field, Hscore; reflexivity|].
  split; [exact Hfh|]. split; [exact Hdr|]. split; [exact Hcf|]. split; [exact Hpr|].
  split; [split|split; [split|split]].
  - change 38%Z with (Q_round ((50 # 1) * (75 # 100))).
    apply Q_round_le. apply Qmult_le_compat_r; [exact Hlo | discriminate].
  - apply Hmono. discriminate.
  - apply Hmono. discriminate.
  - apply Hmono. discriminate.
  - apply Q_round_le. setoid_replace x with (x * 1)%Q at 2 by ring.
    apply Qmult_le_l; [exact Hpos | discriminate].
  - change 81%Z with (Q_round ((90 # 1) * (9 # 10))).
    apply Q_round_le. apply Qmult_le_compat_r; [exact Hhi | discriminate].
Qed.

Lemma fallback_breakdown_ordered_witness :
  exists score financialHealth debtRatio cashFlow profitability : Z,
    get_prop (generateFallbackAnalysis [plainDocument "other" None]) "score"
    = Ok (JNum (Fin (inject_Z score))) /\
    breakdown (generateFallbackAnalysis [plainDocument "other" None]) "financialHealth"
    = Ok (JNum (Fin (inject_Z financialHealth))) /\
    breakdown (generateFallbackAnalysis [plainDocument "other" None]) "debtRatio"
    = Ok (JNum (Fin (inject_Z debtRatio))) /\
    breakdown (generateFallbackAnalysis [plainDocument "other" None]) "cashFlow"
    = Ok (JNum (Fin (inject_Z cashFlow))) /\
    breakdown (generateFallbackAnalysis [plainDocument "other" None]) "profitability"
    = Ok (JNum (Fin (inject_Z profitability))) /\
    (38 <= profitability <= cashFlow)%Z /\
    (cashFlow <= debtRatio <= financialHealth)%Z /\
    (financialHealth <= score)%Z /\
    (financialHealth <= 81)%Z.
Proof.
  apply (fallback_breakdown_ordered [plainDocument "other" None]). discriminate.
Defined.

Lemma inject_Z_nonzero (z : Z) : z <> 0%Z -> Qeq_bool (inject_Z z) 0 = false.
Proof.
  intros Hz. destruct (Qeq_bool (inject_Z z) 0) eqn:E; [|reflexivity].
  apply Qeq_bool_eq in E. unfold Qeq in E. cbn in E. lia.
Qed.

(** X17. The fallback report passes the structure check that
    [generateCreditAnalysis] applies to the replies of the model exactly when
    the list of document results is not empty. For the empty list the ratio of
    the two zero lengths makes the score [NaN]: the report then has score
    [NaN], rating 'Poor' and a breakdown of four [NaN] entries. *)
Theorem fallback_report_structure :
  forall extractedData : list DocumentAnalysis,
    invalidStructure (generateFallbackAnalysis extractedData)
    = Ok (match extractedData with [] => true | _ :: _ => false end) /\
    (extractedData = [] ->
     get_prop (generateFallbackAnalysis extractedData) "score" = Ok (JNum NaN) /\
     get_prop (generateFallbackAnalysis extractedData) "rating" = Ok (JStr "Poor") /\
     forall key, In key ["financialHealth"; "cashFlow"; "debtRatio"; "profitability"] ->
                 breakdown (generateFallbackAnalysis extractedData) key = Ok (JNum NaN)).
Proof.
  intros extractedData. split.
  - destruct extractedData as [|d l] eqn:Hdata; [reflexivity|]. rewrite <- Hdata.
    assert (Hne : extractedData <> []) by (rewrite Hdata; discriminate).
    apply invalidStructure_spec.
    destruct (fallbackScore_nonempty extractedData Hne) as [_ Hscore].
    destruct (rawScore_bounds extractedData Hne) as [Hlo Hhi].
    pose proof (Q_round_bounds _ 50 90 Hlo Hhi) as Hz.
    unfold hasScoreRatingSummary, generateFallbackAnalysis.
    cbn [lookup String.eqb Ascii.eqb Bool.eqb]. rewrite Hscore.
    cbn [Math_round truthy]. rewrite inject_Z_nonzero by lia. cbn [negb andb].
    destruct (fallbackRating_values (Fin (rawScore extractedData)))
      as [-> | [-> | [-> | ->]]]; reflexivity.
  - intros ->. split; [reflexivity|]. split; [reflexivity|].
    intros key [<- | [<- | [<- | [<- | []]]]]; reflexivity.
Qed.

Lemma successfulAnalyses_all (extractedData : list DocumentAnalysis) :
  Forall (fun d => doc_error d = None) extractedData ->
  successfulAnalyses extractedData = List.length extractedData.
Proof.
  unfold successfulAnalyses. induction 1 as [|d l Hd _ IH]; [reflexivity|].
  cbn [filter]. rewrite Hd. cbn [truthy_str negb List.length]. now rewrite IH.
Qed.

Lemma hasFinancialDocs_types (extractedData : list DocumentAnalysis) :
  hasFinancialDocs extractedData
  = existsb coreFinancialType (map documentType extractedData).
Proof.
  unfold hasFinancialDocs. induction extractedData as [|d l IH]; [reflexivity|].
  cbn [existsb map]. now rewrite IH, coreFinancialType_includes.
Qed.

(** The fallback report for data in which no document carries an error. *)
Lemma fallback_of_complete_data (data : list DocumentAnalysis) :
  data <> [] ->
  Forall (fun d => doc_error d = None) data ->
  exists (score : Z) (rating : string),
    get_prop (generateFallbackAnalysis data) "score" = Ok (JNum (Fin (inject_Z score))) /\
    get_prop (generateFallbackAnalysis data) "rating" = Ok (JStr rating) /\
    (score, rating)
    = (if hasFinancialDocs data then (90%Z, "Excellent") else (70%Z, "Good")).
Proof.
  intros Hdata Hnone.
  pose proof (successfulAnalyses_all data Hnone) as Hall.
  destruct (fallbackScore_nonempty data Hdata) as [_ Hscore].
  assert (Hone : (Q_of_nat (List.length data) / Q_of_nat (List.length data) == 1)%Q).
  { destruct data as [|d l]; [contradiction|]. cbn [List.length].
    apply Qmult_inv_r. intros H0. pose proof (Q_of_nat_pos (List.length l)) as Hpos.
    rewrite H0 in Hpos. discriminate Hpos. }
  rewrite score_field, rating_field, Hscore.
  unfold rawScore. rewrite Hall.
  destruct (hasFinancialDocs data).
  - assert (Hx : ((70 # 1) + Q_of_nat (List.length data) / Q_of_nat (List.length data)
                             * (20 # 1) == inject_Z 90)%Q)
      by (rewrite Hone; reflexivity).
    exists 90%Z, "Excellent". cbn [Math_round]. rewrite (Q_round_integer _ _ Hx).
    split; [reflexivity|]. split; [|reflexivity].
    unfold fallbackRating, num_ge.
    assert (H80 : Qle_bool (80 # 1) ((70 # 1) + Q_of_nat (List.length data)
                                     / Q_of_nat (List.length data) * (20 # 1)) = true)
      by (apply Qle_bool_iff; rewrite Hx; discriminate).
    now rewrite H80.
  - assert (Hx : ((50 # 1) + Q_of_nat (List.length data) / Q_of_nat (List.length data)
                             * (20 # 1) == inject_Z 70)%Q)
      by (rewrite Hone; reflexivity).
    exists 70%Z, "Good". cbn [Math_round]. rewrite (Q_round_integer _ _ Hx).
    split; [reflexivity|]. split; [|reflexivity].
    unfold fallbackRating, num_ge.
    assert (H80 : Qle_bool (80 # 1) ((50 # 1) + Q_of_nat (List.length data)
                                     / Q_of_nat (List.length data) * (20 # 1)) = false).
    { destruct (Qle_bool (80 # 1) _) eqn:E; [|reflexivity].
      apply Qle_bool_iff in E. rewrite Hx in E. exfalso. apply E. reflexivity. }
    assert (H70 : Qle_bool (70 # 1) ((50 # 1) + Q_of_nat (List.length data)
                                     / Q_of_nat (List.length data) * (20 # 1)) = true)
      by (apply Qle_bool_iff; rewrite Hx; discriminate).
    now rewrite H80, H70.
Qed.

(** X18. The fallback report of the pipeline depends on the declared types
    of the documents only. Since [analyzeDocument] never throws, every
    document of a batch counts as successfully analysed, whatever the model
    answered for its pages; the fallback report for the data that
    [analyzeDocuments] extracted therefore has score 90 and rating 'Excellent'
    when some document is declared a profit-and-loss statement, a balance sheet
    or a bank statement, and score 70 and rating 'Good' otherwise. *)
Theorem pipeline_fallback_is_one_of_two :
  forall (Sink : Type) (progressCallback : string -> Q -> string -> Sink -> Sink)
         (env : OllamaEnv) (docs : list ProcessedDocument) (log : list Event)
         (sink : Sink) (result : AnalysisResult) (log' : list Event) (sink' : Sink),
    docs <> [] ->
    analyzeDocuments env progressCallback docs log sink = (Ok result, log', sink') ->
    successfulAnalyses (documentAnalysis result) = List.length docs /\
    exists (score : Z) (rating : string),
      get_prop (generateFallbackAnalysis (documentAnalysis result)) "score"
      = Ok (JNum (Fin (inject_Z score))) /\
      get_prop (generateFallbackAnalysis (documentAnalysis result)) "rating"
      = Ok (JStr rating) /\
      (score, rating)
      = (if existsb coreFinancialType (map pd_type docs)
         then (90%Z, "Excellent") else (70%Z, "Good")).
Proof.
  intros Sink progressCallback env docs log sink result log' sink' Hne Hrun.
  destruct (analyzeDocuments_result env progressCallback docs log sink result log' sink' Hrun)
    as (Hlen & Hnone & _ & _).
  destruct (analyzeDocuments_identity Sink progressCallback env docs log sink
              result log' sink' Hrun) as (_ & _ & Htypes & _).
  assert (Hdata : documentAnalysis result <> []).
  { intros Hnil. rewrite Hnil in Hlen. destruct docs; [contradiction | discriminate]. }
  split; [now rewrite (successfulAnalyses_all _ Hnone)|].
  destruct (fallback_of_complete_data _ Hdata Hnone) as (score & rating & Hs & Hr & Hpair).
  exists score, rating. split; [exact Hs|]. split; [exact Hr|].
  now rewrite Hpair, hasFinancialDocs_types, Htypes.
Qed.

Lemma pipeline_fallback_is_one_of_two_witness :
  exists result,
    fst (fst (analyzeDocuments proseEnv sendProgress
                [threePageDocument; statementDocument] [] [])) = Ok result /\
    get_prop (generateFallbackAnalysis (documentAnalysis result)) "score"
    = Ok (JNum (Fin (inject_Z 90))) /\
    get_prop (generateFallbackAnalysis (documentAnalysis result)) "rating"
    = Ok (JStr "Excellent").
Proof.
  destruct (analyzeDocuments proseEnv sendProgress [threePageDocument; statementDocument] [] [])
    as [[[result|m] log'] sink'] eqn:Hrun; [|vm_compute in Hrun; discriminate].
  exists result. split; [reflexivity|].
  destruct (pipeline_fallback_is_one_of_two (list SseEvent) sendProgress proseEnv
              [threePageDocument; statementDocument] [] [] result log' sink')
    as (_ & score & rating & Hs & Hr & Hpair); [discriminate | exact Hrun |].
  cbn in Hpair. injection Hpair as -> ->. now split.
Defined.


(** ** The event stream on the wire and its reader ([analyzeWithStreaming]) *)

Lemma append_nil_r (s : string) : s ++ "" = s.
Proof. induction s as [|c s IH]; [reflexivity|]. cbn. now rewrite IH. Qed.

Lemma append_assoc (a b c : string) : (a ++ b) ++ c = a ++ b ++ c.
Proof. induction a as [|x a IH]; [reflexivity|]. cbn. now rewrite IH. Qed.

Lemma concat_cons (chunk : string) (chunks : list string) :
  String.concat "" (chunk :: chunks) = chunk ++ String.concat "" chunks.
Proof. destruct chunks; cbn; [now rewrite append_nil_r | reflexivity]. Qed.

Lemma split_lines_nonempty (s : string) : split_lines s <> [].
Proof.
  destruct s as [|c s]; [discriminate|]. cbn [split_lines].
  destruct (Ascii.eqb c (ascii_of_nat 10)); [discriminate|].
  destruct (split_lines s); discriminate.
Qed.

Lemma split_lines_single (s : string) : singleLine s = true -> split_lines s = [s].
Proof.
  induction s as [|c s IH]; [reflexivity|]. cbn [singleLine split_lines]. intros H.
  apply andb_prop in H. destruct H as [Hc Hs].
  destruct (Ascii.eqb c (ascii_of_nat 10)); [discriminate Hc|]. now rewrite (IH Hs).
Qed.

Lemma split_lines_line (line rest : string) :
  singleLine line = true ->
  split_lines (line ++ nl ++ rest) = line :: split_lines rest.
Proof.
  induction line as [|c line IH]; [reflexivity|]. cbn [singleLine]. intros H.
  apply andb_prop in H. destruct H as [Hc Hline].
  change (String c line ++ nl ++ rest) with (String c (line ++ nl ++ rest)).
  cbn [split_lines]. destruct (Ascii.eqb c (ascii_of_nat 10)); [discriminate Hc|].
  now rewrite (IH Hline).
Qed.

Lemma split_lines_app (a b : string) :
  split_lines (a ++ b)
  = (removelast (split_lines a) ++ split_lines (last (split_lines a) "" ++ b))%list.
Proof.
  induction a as [|c a IH]; [reflexivity|].
  change (String c a ++ b) with (String c (a ++ b)). cbn [split_lines].
  pose proof (split_lines_nonempty a) as Hne.
  destruct (Ascii.eqb c (ascii_of_nat 10)) eqn:Hc.
  - rewrite IH. destruct (split_lines a) as [|l ls]; [contradiction|]. reflexivity.
  - rewrite IH. destruct (split_lines a) as [|l ls]; [contradiction|].
    destruct ls as [|l' ls].
    + cbn [removelast last app].
      change (String c l ++ b) with (String c (l ++ b)). cbn [split_lines].
      now rewrite Hc.
    + reflexivity.
Qed.

Lemma last_split_single (s : string) : singleLine (last (split_lines s) "") = true.
Proof.
  induction s as [|c s IH]; [reflexivity|]. cbn [split_lines].
  pose proof (split_lines_nonempty s) as Hne.
  destruct (Ascii.eqb c (ascii_of_nat 10)) eqn:Hc.
  - destruct (split_lines s) as [|l ls]; [contradiction | exact IH].
  - destruct (split_lines s) as [|l ls]; [contradiction|].
    destruct ls as [|l' ls]; [|exact IH].
    cbn [last singleLine] in *. now rewrite Hc, IH.
Qed.

Section ReaderFacts.
Variable JSON_parse : string -> Exc JValue.
Variable progressCallback : bool.

Lemma handleLines_app (before after : list string) :
  forall st,
    handleLines JSON_parse progressCallback (before ++ after) st
    = match handleLines JSON_parse progressCallback before st with
      | (st', true) => (st', true)
      | (st', false) => handleLines JSON_parse progressCallback after st'
      end.
Proof.
  induction before as [|line before IH]; intros st; [reflexivity|].
  cbn [app handleLines].
  destruct (handleLine JSON_parse progressCallback line st) as [st' []];
    [reflexivity | apply IH].
Qed.

(** The reader handles the complete lines of the text it has received, in
    order, until its callback returns. *)
Lemma readStream_lines (chunks : list string) :
  forall (buffer : string) (st : ClientState),
    singleLine buffer = true ->
    readStream JSON_parse progressCallback (map Ok chunks) buffer st
    = fst (handleLines JSON_parse progressCallback
             (removelast (split_lines (buffer ++ String.concat "" chunks))) st).
Proof.
  induction chunks as [|chunk chunks IH]; intros buffer st Hbuffer.
  - cbn [map readStream String.concat]. rewrite append_nil_r.
    now rewrite (split_lines_single buffer Hbuffer).
  - cbn [map readStream]. rewrite concat_cons, <- append_assoc.
    rewrite (split_lines_app (buffer ++ chunk) (String.concat "" chunks)).
    rewrite removelast_app by apply split_lines_nonempty.
    rewrite handleLines_app.
    destruct (handleLines JSON_parse progressCallback
                (removelast (split_lines (buffer ++ chunk))) st) as [st' []];
      [reflexivity|].
    apply IH, last_split_single.
Qed.

End ReaderFacts.

(** X19. The browser client handles exactly the complete lines of the text
    it has received, in order, up to the first result or error event; what
    follows the last line feed is kept back and never handled. Its promise
    and the calls of its progress callback therefore depend only on the text
    received, not on the chunks in which the network delivered it. *)
Theorem readStream_ignores_chunking :
  forall (JSON_parse : string -> Exc JValue) (progressCallback : bool)
         (chunks : list string),
    readStream JSON_parse progressCallback (map Ok chunks) "" initialClient
    = fst (handleLines JSON_parse progressCallback
             (removelast (split_lines (String.concat "" chunks))) initialClient) /\
    forall chunks' : list string,
      String.concat "" chunks' = String.concat "" chunks ->
      readStream JSON_parse progressCallback (map Ok chunks') "" initialClient
      = readStream JSON_parse progressCallback (map Ok chunks) "" initialClient.
Proof.
  intros JSON_parse progressCallback chunks.
  pose proof (readStream_lines JSON_parse progressCallback chunks "" initialClient eq_refl)
    as Hchunks.
  split; [exact Hchunks|]. intros chunks' Htext.
  rewrite Hchunks, <- Htext.
  exact (readStream_lines JSON_parse progressCallback chunks' "" initialClient eq_refl).
Qed.

Lemma singleLine_frame (data : string) :
  singleLine data = true -> singleLine ("data: " ++ data) = true.
Proof. intros H. cbn. exact H. Qed.

(** The lines of the text written for [events]. *)
Lemma split_sse_text (stringify : JValue -> string)
    (resultValue : AnalysisResult -> JValue) (events : list SseEvent) :
  (forall e, In e events -> singleLine (stringify (eventValue resultValue e)) = true) ->
  split_lines (sse_text stringify resultValue events)
  = (flat_map (fun e => [("data: " ++ stringify (eventValue resultValue e))%string; ""])
       events
     ++ [""])%list.
Proof.
  unfold sse_text. induction events as [|e events IH]; intros Hsingle; [reflexivity|].
  cbn [map flat_map app]. rewrite concat_cons. unfold sse_frame at 1.
  rewrite <- (append_assoc "data: " (stringify (eventValue resultValue e)) (nl ++ nl)).
  rewrite (append_assoc ("data: " ++ stringify (eventValue resultValue e)) (nl ++ nl)).
  rewrite (append_assoc nl nl).
  rewrite split_lines_line
    by (apply singleLine_frame, Hsingle; now left).
  match goal with
  | |- context [split_lines (nl ++ ?rest)] =>
      change (split_lines (nl ++ rest)) with ("" :: split_lines rest)
  end.
  rewrite IH by (intros e' He'; apply Hsingle; now right).
  reflexivity.
Qed.

Section Delivery.
Variable stringify : JValue -> string.
Variable JSON_parse : string -> Exc JValue.
Variable resultValue : AnalysisResult -> JValue.
Variable progressCallback : bool.

Lemma handleLine_frame (e : SseEvent) (st : ClientState) :
  JSON_parse (stringify (eventValue resultValue e)) = Ok (eventValue resultValue e) ->
  handleLine JSON_parse progressCallback
    ("data: " ++ stringify (eventValue resultValue e)) st
  = match e with
    | ProgressEvent step _ _ =>
        if String.eqb step "result"
        then (settle st (Resolved JUndefined), true)
        else if String.eqb step "error"
             then (settle st (Rejects (ErrorOf JUndefined)), true)
             else (if progressCallback
                   then {| calls := (calls st ++ [eventValue resultValue e])%list;
                           promise := promise st |}
                   else st, false)
    | ResultEvent _ result => (settle st (Resolved (resultValue result)), true)
    | ErrorEvent _ error => (settle st (Rejects (ErrorOf (JStr error))), true)
    end.
Proof.
  intros Hparse. unfold handleLine.
  replace (startsWith ("data: " ++ stringify (eventValue resultValue e)) "data: ")
    with true by (symmetry; apply prefix_append).
  change (drop 6 ("data: " ++ stringify (eventValue resultValue e)))
    with (stringify (eventValue resultValue e)).
  rewrite Hparse. destruct e as [step p m|p result|p m]; cbn [eventValue].
  - cbn [get_prop lookup String.eqb Ascii.eqb Bool.eqb is_string].
    destruct (String.eqb step "result"); [reflexivity|].
    destruct (String.eqb step "error"); reflexivity.
  - reflexivity.
  - reflexivity.
Qed.

(** Progress events of the steps of the server are handed to the callback
    one by one. *)
Lemma handleLines_progress (before : list SseEvent) (more : list string) :
  Forall (progressOf ["initialization"; "processing"; "analysis"; "complete"]) before ->
  (forall e, In e before ->
     JSON_parse (stringify (eventValue resultValue e)) = Ok (eventValue resultValue e)) ->
  forall st,
    handleLines JSON_parse progressCallback
      (flat_map (fun e => [("data: " ++ stringify (eventValue resultValue e))%string; ""])
         before
       ++ more)%list st
    = handleLines JSON_parse progressCallback more
        (if progressCallback
         then {| calls := (calls st ++ map (eventValue resultValue) before)%list;
                 promise := promise st |}
         else st).
Proof.
  induction 1 as [|e before He _ IH]; intros Hparse st.
  - cbn [flat_map app map]. rewrite app_nil_r.
    destruct progressCallback; [destruct st|]; reflexivity.
  - cbn [flat_map app handleLines].
    rewrite (handleLine_frame e st) by (apply Hparse; now left).
    destruct e as [step p m| |]; cbn in He; [|contradiction|contradiction].
    assert (Hstep : String.eqb step "result" = false /\ String.eqb step "error" = false)
      by (destruct He as [<- | [<- | [<- | [<- | []]]]]; now split).
    destruct Hstep as [-> ->].
    change (handleLine JSON_parse progressCallback "" ?s) with (s, false).
    cbv iota. rewrite IH by (intros e' He'; apply Hparse; now right).
    destruct progressCallback; [|reflexivity].
    cbn [calls promise map]. now rewrite <- app_assoc.
Qed.

End Delivery.

(** X20. Delivery of the event stream of a request to the browser client.
    Provided [JSON.parse] gives back the events from what [JSON.stringify]
    made of them, on one line each: however the network splits the text
    written by the server into chunks, the client calls its progress callback
    once for every progress event, in the order of the stream, and then
    settles its promise. It resolves with the analysis when the stream ends
    with a result event and rejects with the error text when it ends with an
    error event; the promise never stays pending. *)
Theorem client_receives_every_request :
  forall (env : ServerEnv) (files : list UploadedFile)
         (stringify : JValue -> string) (JSON_parse : string -> Exc JValue)
         (resultValue : AnalysisResult -> JValue) (progressCallback : bool)
         (chunks : list string),
    roundTrip stringify JSON_parse resultValue (analyzeStream env files) ->
    String.concat "" chunks = sse_text stringify resultValue (analyzeStream env files) ->
    exists before terminal,
      analyzeStream env files = (before ++ [terminal])%list /\
      calls (readStream JSON_parse progressCallback (map Ok chunks) "" initialClient)
      = (if progressCallback then map (eventValue resultValue) before else []) /\
      promise (readStream JSON_parse progressCallback (map Ok chunks) "" initialClient)
      = outcomeOf resultValue terminal /\
      outcomeOf resultValue terminal <> Pending.
Proof.
  intros env files stringify JSON_parse resultValue progressCallback chunks Hcodec Htext.
  destruct (analyzeStream_shape env files)
    as (early & late & terminal & Hstream & Hearly & Hlate & _ & _ & Hcase).
  exists (early ++ late)%list, terminal.
  rewrite <- app_assoc. split; [exact Hstream|].
  assert (Hbefore : Forall (progressOf ["initialization"; "processing"; "analysis"; "complete"])
                      (early ++ late)).
  { apply Forall_app. split; (eapply Forall_impl; [|eassumption]);
      intros [step p m| |]; cbn; tauto. }
  assert (Hterminal : (exists p r, terminal = ResultEvent p r) \/
                      (exists p m, terminal = ErrorEvent p m)).
  { destruct Hcase as [(_ & _ & m & ->) | [(_ & _ & _ & ->)
                      | [(_ & _ & _ & m & rest & _ & _ & ->)
                      | (_ & _ & result & rest & _ & ->)]]]; eauto. }
  rewrite (readStream_lines JSON_parse progressCallback chunks "" initialClient eq_refl).
  cbn [append]. rewrite Htext, split_sse_text by (intros e He; apply Hcodec, He).
  rewrite removelast_last, Hstream, app_assoc, flat_map_app.
  rewrite (handleLines_progress stringify JSON_parse resultValue progressCallback
             (early ++ late)%list _ Hbefore)
    by (intros e He; apply Hcodec; rewrite Hstream, app_assoc; apply in_or_app; now left).
  cbn [flat_map app handleLines].
  rewrite (handleLine_frame stringify JSON_parse resultValue progressCallback terminal)
    by (apply Hcodec; rewrite Hstream, app_assoc; apply in_or_app; right; now left).
  destruct Hterminal as [(p & r & ->) | (p & m & ->)];
    destruct progressCallback; cbn; repeat split; discriminate.
Qed.

Lemma client_receives_every_request_witness :
  promise (readStream wireParse true
             [Ok "data: {step:initial"; Ok ("ization}" ++ nl ++ nl ++ "data: {step:e");
              Ok ("rror}" ++ nl); Ok nl] "" initialClient)
  = Rejects (ErrorOf (JStr "Cannot connect to Ollama at http://localhost:11434. Please ensure Ollama is running and accessible.")).
Proof.
  destruct (client_receives_every_request unreachableServer [statementFile]
              wireStringify wireParse (fun _ => JNull) true
              ["data: {step:initial"; "ization}" ++ nl ++ nl ++ "data: {step:e";
               "rror}" ++ nl; nl])
    as (before & terminal & Hstream & _ & Hpromise & _).
  - intros e He. vm_compute in He. destruct He as [<- | [<- | []]]; now split.
  - reflexivity.
  - cbn [map] in Hpromise. rewrite Hpromise.
    assert (Hlast : terminal
                    = ErrorEvent 0%Q "Cannot connect to Ollama at http://localhost:11434. Please ensure Ollama is running and accessible.").
    { apply (endsWith_unique (analyzeStream unreachableServer [statementFile])).
      - now exists before.
      - now exists [ProgressEvent "initialization" 5%Q "Checking AI service connection..."]. }
    now rewrite Hlast.
Defined.


(** ** From the upload to the report ([/api/upload], [/api/analyze]) *)

Lemma uploadedFiles_types (uuidv4 : nat -> string) (files : list MulterFile)
    (bodyType : option string) :
  forall calls,
    Forall (fun f => uf_type f = declaredType bodyType)
      (uploadedFiles uuidv4 calls files bodyType) /\
    map uf_originalName (uploadedFiles uuidv4 calls files bodyType)
    = map mf_originalname files.
Proof.
  induction files as [|file files IH]; intros calls; [now split|].
  cbn [uploadedFiles map]. destruct (IH (S calls)) as [Htypes Hnames].
  split; [constructor; [reflexivity | exact Htypes] | now rewrite Hnames].
Qed.

Lemma processDocument_type {PdfDoc : Type} (pdf : PdfEnv PdfDoc) (conv : ConverterEnv)
    (tempDir filePath : string) (fileInfo : UploadedFile) (log : list PdfEvent)
    (doc : ProcessedDocument) :
  fst (DocumentProcessor_processDocument pdf conv tempDir filePath fileInfo log) = Ok doc ->
  pd_type doc = uf_type fileInfo.
Proof.
  unfold DocumentProcessor_processDocument.
  destruct (String.eqb (uf_mimetype fileInfo) "application/pdf").
  - destruct (processPDF pdf conv tempDir filePath (uf_id fileInfo) log) as [[imgs|m] log'];
      cbn [fst]; [|discriminate]. now intros [= <-].
  - destruct (extractTextFromFile conv filePath (uf_mimetype fileInfo)) as [described|m];
      cbn [fst]; [|discriminate]. now intros [= <-].
Qed.

Lemma successfullyProcessed_types {PdfDoc : Type} (pdf : PdfEnv PdfDoc)
    (conv : ConverterEnv) (tempDir uploads url : string) (reachable : bool)
    (onDisk : string -> bool) (backend : OllamaEnv) (type : string)
    (files : list UploadedFile) :
  Forall (fun f => uf_type f = type) files ->
  forall fileIndex,
    Forall (fun doc => pd_type doc = type)
      (successfullyProcessed
         (assembledServer pdf conv tempDir uploads url reachable onDisk backend)
         fileIndex files).
Proof.
  induction 1 as [|file files Hfile _ IH]; intros fileIndex; [constructor|].
  cbn [successfullyProcessed]. cbn [fs_pathExists processDocument uploadsDir assembledServer].
  destruct (onDisk (path_join uploads (uf_filename file))); [|apply IH].
  destruct (fst (DocumentProcessor_processDocument pdf conv tempDir
                   (path_join uploads (uf_filename file)) file [])) as [doc|m] eqn:Hdoc;
    [|apply IH].
  constructor; [|apply IH]. rewrite <- Hfile. exact (processDocument_type _ _ _ _ _ _ _ Hdoc).
Qed.

Lemma Forall_map_eq {A B : Type} (f : A -> B) (g : A -> B) (l : list A) :
  Forall (fun x => f x = g x) l -> map f l = map g l.
Proof. induction 1 as [|x l Hx _ IH]; [reflexivity|]. cbn. now rewrite Hx, IH. Qed.

(** X21. From the upload to the report, with the services wired as in
    [server.js]. All files of one upload are given the same declared type, the
    [type] field of the form or 'other' when the form has none, and every
    document analysis of a report on these files carries that type. The form
    posted by the browser client has no [type] field: for its uploads every
    document is declared 'other', and the fallback report can only be the one
    with score 70 and rating 'Good'. *)
Theorem upload_declares_one_type :
  forall (PdfDoc : Type) (pdf : PdfEnv PdfDoc) (conv : ConverterEnv)
         (tempDir uploads url : string) (reachable : bool) (onDisk : string -> bool)
         (backend : OllamaEnv) (uuidv4 : nat -> string) (files : option (list MulterFile))
         (bodyType : option string) (uploaded : list UploadedFile) (message : string)
         (p : Q) (result : AnalysisResult),
    uploadHandler uuidv4 files bodyType = UploadAccepted uploaded message ->
    endsWith
      (analyzeStream (assembledServer pdf conv tempDir uploads url reachable onDisk backend)
         uploaded)
      (ResultEvent p result) ->
    Forall (fun f => uf_type f = declaredType bodyType) uploaded /\
    Forall (fun d => documentType d = declaredType bodyType) (documentAnalysis result) /\
    (bodyType = clientBodyType ->
     declaredType bodyType = "other" /\
     get_prop (generateFallbackAnalysis (documentAnalysis result)) "score"
     = Ok (JNum (Fin (inject_Z 70))) /\
     get_prop (generateFallbackAnalysis (documentAnalysis result)) "rating"
     = Ok (JStr "Good")).
Proof.
  intros PdfDoc pdf conv tempDir uploads url reachable onDisk backend uuidv4 files
         bodyType uploaded message p result Hupload Hend.
  assert (Huploaded : Forall (fun f => uf_type f = declaredType bodyType) uploaded).
  { unfold uploadHandler in Hupload.
    destruct files as [[|file files]|]; [discriminate| |discriminate].
    injection Hupload as <- _.
    apply (uploadedFiles_types uuidv4 (file :: files) bodyType 0). }
  set (env := assembledServer pdf conv tempDir uploads url reachable onDisk backend) in *.
  destruct (analyzeStream_result env uploaded p result Hend)
    as (_ & _ & Hne & sink & log' & sink' & Hrun & _).
  destruct (analyzeDocuments_identity _ _ _ _ _ _ _ _ _ Hrun) as (_ & _ & Htypes & _).
  destruct (analyzeDocuments_result _ _ _ _ _ _ _ _ Hrun) as (Hlen & Hnone & _ & _).
  pose proof (successfullyProcessed_types pdf conv tempDir uploads url reachable onDisk
                backend (declaredType bodyType) uploaded Huploaded 0) as Hdocs.
  fold env in Hdocs.
  assert (Hdata : Forall (fun d => documentType d = declaredType bodyType)
                    (documentAnalysis result)).
  { apply Forall_forall. intros d Hd.
    apply (in_map documentType) in Hd. rewrite Htypes in Hd.
    apply in_map_iff in Hd. destruct Hd as (doc & <- & Hdoc).
    rewrite Forall_forall in Hdocs. now apply Hdocs. }
  split; [exact Huploaded|]. split; [exact Hdata|].
  intros ->. split; [reflexivity|].
  assert (Hnonempty : documentAnalysis result <> []).
  { intros Hnil. rewrite Hnil in Hlen.
    destruct (successfullyProcessed env 0 uploaded); [contradiction | discriminate]. }
  destruct (fallback_of_complete_data _ Hnonempty Hnone)
    as (score & rating & Hs & Hr & Hpair).
  assert (Hfin : hasFinancialDocs (documentAnalysis result) = false).
  { rewrite hasFinancialDocs_types. cbn [declaredType clientBodyType] in Hdata.
    clear - Hdata. induction Hdata as [|d l Hd _ IH]; [reflexivity|].
    cbn [map existsb]. now rewrite Hd, IH. }
  rewrite Hfin in Hpair. injection Hpair as -> ->. now split.
Qed.

Lemma upload_declares_one_type_witness :
  exists uploaded message result,
    uploadHandler (fun n => "id-" ++ show n) (Some storedFiles) clientBodyType
    = UploadAccepted uploaded message /\
    endsWith (analyzeStream wiredServer uploaded) (ResultEvent 100%Q result) /\
    map documentType (documentAnalysis result) = ["other"; "other"].
Proof.
  set (uploaded := uploadedFiles (fun n => "id-" ++ show n) 0 storedFiles clientBodyType).
  destruct (last (analyzeStream wiredServer uploaded) (ErrorEvent 0%Q ""))
    as [step p m|p result|p m] eqn:Hlast;
    [vm_compute in Hlast; discriminate Hlast | | vm_compute in Hlast; discriminate Hlast].
  assert (Hend : endsWith (analyzeStream wiredServer uploaded) (ResultEvent p result)).
  { exists (removelast (analyzeStream wiredServer uploaded)).
    rewrite <- Hlast. apply app_removelast_last. vm_compute. discriminate. }
  destruct (upload_declares_one_type string lockedPdf (twoPageConverter (Ok tt))
              "/srv/temp" "/srv/uploads" "http://localhost:11434" true (fun _ => true)
              proseEnv (fun n => "id-" ++ show n) (Some storedFiles) clientBodyType
              uploaded "Successfully uploaded 2 files" p result eq_refl Hend)
    as (_ & Hdata & _).
  destruct (analyzeStream_result wiredServer uploaded p result Hend)
    as (Hp & _ & _ & sink & log' & sink' & Hrun & _).
  destruct (analyzeDocuments_result _ _ _ _ _ _ _ _ Hrun) as (Hlen & _).
  exists uploaded, "Successfully uploaded 2 files", result.
  split; [reflexivity|]. split; [rewrite <- Hp; exact Hend|].
  rewrite (Forall_map_eq documentType (fun _ => "other") _ Hdata).
  rewrite map_const, Hlen. reflexivity.
Defined.
